(** * The adaptive opponent of the odds-or-evens game

    A shallow embedding of [ai_predictor.py] (class [AIPredictor]), of the
    game logic of [game_engine.py] (class [GameEngine]: the keys, the frames,
    the rounds and the score) and of the finger count of [hand_detector.py]
    ([HandDetector.count_fingers]).

    Python objects are modelled as they are used by the code:
    - a [dict] is an association list in insertion order (the order decides
      which key [max] returns and how a JSON document with repeated names is
      read back);
    - a dictionary key is an integer or a string ([1] and ['1'] are different
      keys);
    - floats are idealised as rationals (no rounding error is modelled);
    - an exception is a value of [exn]; a statement that raises leaves the
      mutations made before it in place;
    - the River models are an interface ([River]): the code only calls them;
    - [random.choice] reads an index from a source of randomness, here a
      natural number passed by the caller;
    - the clock read by [datetime.now()] is an argument;
    - the coordinates of the landmarks of a hand are rationals;
    - the threads of the engine are the assignments they make, which may come
      between any two steps of the main loop. *)

From Stdlib Require Import ZArith QArith Qround Qabs List String Ascii Bool Lia DecimalString.
Import ListNotations.

Local Open Scope string_scope.
Local Open Scope list_scope.
Local Open Scope Z_scope.

(** ** Python values *)

Module Py.

Inductive exn : Type :=
| KeyError | TypeError | AttributeError | ValueError | OverflowError
| ZeroDivisionError | NameError | LibraryError.

Inductive result (A : Type) : Type :=
| Ok (a : A)
| Raise (e : exn).
Arguments Ok {A} a.
Arguments Raise {A} e.

Definition rbind {A B : Type} (r : result A) (k : A -> result B) : result B :=
  match r with
  | Ok a => k a
  | Raise e => Raise e
  end.

(** Keys of the dictionaries of the program. *)
Inductive key : Type :=
| KInt (z : Z)
| KStr (s : string).

Definition key_eqb (a b : key) : bool :=
  match a, b with
  | KInt x, KInt y => Z.eqb x y
  | KStr x, KStr y => String.eqb x y
  | _, _ => false
  end.

#[warnings="-register-all"]
Inductive value : Type :=
| VNone
| VBool (b : bool)
| VInt (z : Z)
| VFloat (q : Q)
| VStr (s : string)
| VList (l : list value)
| VDict (d : list (key * value)).

Definition dict : Type := list (key * value).

Definition key_value (k : key) : value :=
  match k with
  | KInt z => VInt z
  | KStr s => VStr s
  end.

(** [str(n)] of an integer. *)
Definition str (z : Z) : string := NilZero.string_of_int (Z.to_int z).

(** *** Dictionaries *)

(** [d.get(k)] *)
Fixpoint dict_get (k : key) (d : dict) : option value :=
  match d with
  | [] => None
  | (k', v) :: d' => if key_eqb k k' then Some v else dict_get k d'
  end.

(** [k in d] *)
Definition dict_mem (k : key) (d : dict) : bool :=
  match dict_get k d with Some _ => true | None => false end.

(** [d[k] = v]: an existing key keeps its place, a new one goes last. *)
Fixpoint dict_set (k : key) (v : value) (d : dict) : dict :=
  match d with
  | [] => [(k, v)]
  | (k', v') :: d' =>
      if key_eqb k k' then (k', v) :: d' else (k', v') :: dict_set k v d'
  end.

(** [d[k]] *)
Definition dict_item (k : key) (d : dict) : result value :=
  match dict_get k d with
  | Some v => Ok v
  | None => Raise KeyError
  end.

Definition values (d : dict) : list value := map snd d.
Definition keys (d : dict) : list key := map fst d.

(** *** Numbers *)

(** The number a value stands for in arithmetic and comparisons
    ([bool] is a subclass of [int]). *)
Definition num_of (v : value) : option Q :=
  match v with
  | VBool b => Some (inject_Z (Z.b2z b))
  | VInt z => Some (inject_Z z)
  | VFloat q => Some q
  | _ => None
  end.

(** [v + n] for an integer [n] (on a float the sum is exact here). *)
Definition add_int (v : value) (n : Z) : result value :=
  match v with
  | VBool b => Ok (VInt (Z.b2z b + n))
  | VInt z => Ok (VInt (z + n))
  | VFloat q => Ok (VFloat (q + inject_Z n))
  | _ => Raise TypeError
  end.

(** [v > 0] *)
Definition gt0 (v : value) : result bool :=
  match num_of v with
  | Some q => Ok (negb (Qle_bool q 0))
  | None => Raise TypeError
  end.

(** [v % 2 == 1] for a number [v]. *)
Definition mod2_is_1 (v : value) : result bool :=
  match v with
  | VBool b => Ok (Z.eqb (Z.b2z b mod 2) 1)
  | VInt z => Ok (Z.eqb (z mod 2) 1)
  | VFloat q =>
      Ok (Qeq_bool (q - inject_Z (2 * Qfloor (q / inject_Z 2))) 1)
  | _ => Raise TypeError
  end.

(** [v == s] for a string literal [s]. *)
Definition eq_str (v : value) (s : string) : bool :=
  match v with
  | VStr s' => String.eqb s' s
  | _ => false
  end.

(** [round(x)] of a float: to the nearest integer, ties to the even one. *)
Definition round (q : Q) : Z :=
  let f := Qfloor q in
  match Qcompare (q - inject_Z f) (1 # 2) with
  | Lt => f
  | Gt => f + 1
  | Eq => if Z.even f then f else f + 1
  end.

(** What a regression model hands back: a float, possibly not finite. *)
Inductive pyfloat : Type :=
| Finite (q : Q)
| Inf
| NaN.

Definition round_float (x : pyfloat) : result Z :=
  match x with
  | Finite q => Ok (round q)
  | Inf => Raise OverflowError
  | NaN => Raise ValueError
  end.

(** [random.choice(seq)] on the index [r] drawn by the generator. *)
Definition random_choice {A : Type} (r : nat) (l : list A) (default : A) : A :=
  nth (Nat.modulo r (List.length l)) l default.

End Py.

Import Py.

(** ** Strategy selector *)

Definition FINGERS : list Z := [1; 2; 3; 4; 5].

(** The candidates of [get_robot_strategy]: the loop over [range(1, 6)]
    that keeps the counts whose total has the target parity. *)
Fixpoint good_choices_loop (predicted_player_fingers : value) (target_odd : bool)
    (range : list Z) (good_choices : list Z) : result (list Z) :=
  match range with
  | [] => Ok good_choices
  | robot_fingers :: range' =>
      rbind (add_int predicted_player_fingers robot_fingers) (fun total =>
      rbind (mod2_is_1 total) (fun total_odd =>
      good_choices_loop predicted_player_fingers target_odd range'
        (if Bool.eqb total_odd target_odd
         then good_choices ++ [robot_fingers] else good_choices)))
  end.

(** The body of the [try] block of [get_robot_strategy]. [random] is a local
    name of the function, bound by the [import] of the first branch only: the
    second branch reads it unbound and raises. *)
Definition get_robot_strategy_try (r : nat)
    (predicted_player_fingers predicted_choice : value) : result Z :=
  let target_odd := negb (eq_str predicted_choice "odds") in
  rbind (good_choices_loop predicted_player_fingers target_odd FINGERS [])
    (fun good_choices =>
       match good_choices with
       | _ :: _ => Ok (random_choice r good_choices 0)
       | [] => Raise NameError
       end).

Definition get_robot_strategy (r : nat)
    (predicted_player_fingers predicted_choice : value) : Z :=
  match get_robot_strategy_try r predicted_player_fingers predicted_choice with
  | Ok robot_fingers => robot_fingers
  | Raise _ => 3
  end.

(** ** Statements that mutate an object and may raise *)

Module Stmt.

(** A statement over a mutable object of type [S]: the outcome and the
    object as the statement leaves it (also when it raises). *)
Definition stmt (S A : Type) : Type := S -> result A * S.

Definition ret {S A : Type} (a : A) : stmt S A := fun s => (Ok a, s).

Definition bind {S A B : Type} (c : stmt S A) (k : A -> stmt S B) : stmt S B :=
  fun s =>
    match c s with
    | (Ok a, s') => k a s'
    | (Raise e, s') => (Raise e, s')
    end.

Definition lift {S A : Type} (r : result A) : stmt S A := fun s => (r, s).

Definition when {S : Type} (b : bool) (c : stmt S unit) : stmt S unit :=
  if b then c else ret tt.

(** [for x in l: body(x)] *)
Fixpoint for_each {S A : Type} (l : list A) (body : A -> stmt S unit) : stmt S unit :=
  match l with
  | [] => ret tt
  | x :: l' => bind (body x) (fun _ => for_each l' body)
  end.

End Stmt.

Import Stmt.

Declare Scope stmt_scope.
Delimit Scope stmt_scope with stmt.
Notation "x <- c1 ;; c2" := (bind c1 (fun x => c2))
  (at level 61, c1 at next level, right associativity) : stmt_scope.
Notation "c1 ;; c2" := (bind c1 (fun _ => c2))
  (at level 61, right associativity) : stmt_scope.

(** ** Operations on a dictionary held in a variable *)

(** [d[k]] *)
Definition item (k : string) : stmt dict value :=
  fun d => (dict_item (KStr k) d, d).

(** [d[k] = v] *)
Definition set_item (k : string) (v : value) : stmt dict unit :=
  fun d => (Ok tt, dict_set (KStr k) v d).

(** [d[k] += 1] *)
Definition incr_item (k : string) : stmt dict unit :=
  (v <- item k ;; v' <- lift (add_int v 1) ;; set_item k v')%stmt.

(** [s in c] for a string [s]: membership in a dictionary or a list, a
    substring of a string; other values are not containers. *)
Definition contains (c : value) (s : string) : result bool :=
  match c with
  | VDict d => Ok (dict_mem (KStr s) d)
  | VList l => Ok (existsb (fun v => eq_str v s) l)
  | VStr t => Ok (match index 0 s t with Some _ => true | None => false end)
  | _ => Raise TypeError
  end.

(** [c[s] = v] for a string [s]: only a dictionary takes it. *)
Definition store (c : value) (s : string) (v : value) : result value :=
  match c with
  | VDict d => Ok (VDict (dict_set (KStr s) v d))
  | _ => Raise TypeError
  end.

(** [c[s]] for a string [s]. *)
Definition fetch (c : value) (s : string) : result value :=
  match c with
  | VDict d => dict_item (KStr s) d
  | _ => Raise TypeError
  end.

(** [d[k][s] = v] *)
Definition set_nested (k s : string) (v : value) : stmt dict unit :=
  (c <- item k ;; c' <- lift (store c s v) ;; set_item k c')%stmt.

(** [d[k][s] += 1] *)
Definition incr_nested (k s : string) : stmt dict unit :=
  (c <- item k ;;
   v <- lift (fetch c s) ;;
   v' <- lift (add_int v 1) ;;
   c' <- lift (store c s v') ;;
   set_item k c')%stmt.

(** [s in d[k]] *)
Definition nested_contains (k s : string) : stmt dict bool :=
  (c <- item k ;; lift (contains c s))%stmt.

(** [n / v] (true division) of an integer by a number. *)
Definition true_div (n : Z) (v : value) : result value :=
  match num_of v with
  | Some q => if Qeq_bool q 0 then Raise ZeroDivisionError
              else Ok (VFloat (inject_Z n / q))
  | None => Raise TypeError
  end.

(** Whether the format [:.2%] accepts the value. *)
Definition format_percent (v : value) : result unit :=
  match v with
  | VBool _ | VInt _ | VFloat _ => Ok tt
  | VStr _ => Raise ValueError
  | _ => Raise TypeError
  end.

(** [sum(d.values())]; a value that is not a dictionary has no [values]. *)
Fixpoint sum_from (acc : Q) (l : list value) : result Q :=
  match l with
  | [] => Ok acc
  | v :: l' =>
      match num_of v with
      | Some q => sum_from (acc + q) l'
      | None => Raise TypeError
      end
  end.

Definition sum_values (c : value) : result Q :=
  match c with
  | VDict d => sum_from 0 (values d)
  | _ => Raise AttributeError
  end.

(** [max(d, key=d.get)]: the first key, in the order of the dictionary, whose
    value no later value exceeds. *)
Fixpoint max_loop (best : key) (best_v : Q) (d : dict) : result key :=
  match d with
  | [] => Ok best
  | (k, v) :: d' =>
      match num_of v with
      | Some q => if Qle_bool q best_v then max_loop best best_v d'
                  else max_loop k q d'
      | None => Raise TypeError
      end
  end.

Definition max_key (c : value) : result key :=
  match c with
  | VDict ((k, v) :: d') =>
      match num_of v with
      | Some q => max_loop k q d'
      | None => Raise TypeError
      end
  | VDict [] => Raise ValueError
  | _ => Raise AttributeError
  end.

(** ** JSON documents *)

Module Json.

(** The text of a JSON document, as a tree; the members of an object are
    kept as written, repeated names included. *)
#[warnings="-register-all"]
Inductive json : Type :=
| JNull
| JBool (b : bool)
| JInt (z : Z)
| JFloat (q : Q)
| JString (s : string)
| JArray (l : list json)
| JObject (m : list (string * json)).

(** The name [json.dump] writes for a key. *)
Definition key_name (k : key) : string :=
  match k with
  | KInt z => str z
  | KStr s => s
  end.

(** [json.dump] *)
Fixpoint dump (v : value) : json :=
  match v with
  | VNone => JNull
  | VBool b => JBool b
  | VInt z => JInt z
  | VFloat q => JFloat q
  | VStr s => JString s
  | VList l => JArray (map dump l)
  | VDict d => JObject (map (fun kv => (key_name (fst kv), dump (snd kv))) d)
  end.

(** The dictionary [json.load] builds from the members of an object: they
    are stored one after the other, so a repeated name keeps the place of
    its first member and the value of its last. *)
Definition dict_of_members (m : list (string * value)) : dict :=
  fold_left (fun d kv => dict_set (KStr (fst kv)) (snd kv) d) m [].

(** [json.load] *)
Fixpoint load (j : json) : value :=
  match j with
  | JNull => VNone
  | JBool b => VBool b
  | JInt z => VInt z
  | JFloat q => VFloat q
  | JString s => VStr s
  | JArray l => VList (map load l)
  | JObject m => VDict (dict_of_members (map (fun kv => (fst kv, load (snd kv))) m))
  end.

End Json.

(** ** Data model *)

(** What [predict_player_behavior] returns: the dictionary with the entries
    ['finger_count'], ['choice'] and ['confidence']. *)
Record Prediction : Type := mkPrediction {
  finger_count : value;
  choice : value;
  confidence : Q
}.

(** The dictionary the game engine builds at the end of a round
    ([GameEngine._process_round_result]). The predictor reads five of its
    entries with [get] and a default, so these may be absent. *)
Module Round.
Record t : Type := mk {
  timestamp : string;
  current_round : option Z;
  player_fingers : option Z;
  robot_fingers : Z;
  player_choice : option string;
  total : Z;
  is_odd : bool;
  player_won_round : option bool;
  player_wins : Z;
  robot_wins : Z;
  ai_prediction : option Prediction;
  game_finished : option bool
}.
End Round.

(** The entries of the game state that [extract_features] reads. *)
Module GameState.
Record t : Type := mk {
  current_round : option Z;
  player_wins : option Z;
  robot_wins : option Z
}.
End GameState.

Module Clock.
Record t : Type := mk { hour : Z; minute : Z; weekday : Z }.
End Clock.

Module Features.
Record t : Type := mk {
  hour : Z;
  minute : Z;
  day_of_week : Z;
  current_round : Z;
  player_wins : Z;
  robot_wins : Z;
  rounds_played : Z;
  avg_recent_fingers : Q;
  last_finger_count : Z;
  recent_odds_ratio : Q;
  recent_win_rate : Q;
  finger_change : Z
}.
End Features.

(** [o.get(k, default)] for an entry that may be absent. *)
Definition get {A : Type} (o : option A) (default : A) : A :=
  match o with Some a => a | None => default end.

(** ** The online models *)

(** What the predictor asks of the River library: two pipelines and two
    metrics, created fresh, queried and trained one example at a time. A call
    may mutate its object and may raise. *)
Class River : Type := {
  finger_model_t : Type;
  choice_model_t : Type;
  finger_metric_t : Type;
  choice_metric_t : Type;
  (** [compose.Pipeline(StandardScaler(), LinearRegression())] *)
  new_finger_model : finger_model_t;
  (** [compose.Pipeline(StandardScaler(), LogisticRegression())] *)
  new_choice_model : choice_model_t;
  (** [metrics.MAE()] *)
  new_finger_metric : finger_metric_t;
  (** [metrics.Accuracy()] *)
  new_choice_metric : choice_metric_t;
  predict_one : Features.t -> stmt finger_model_t pyfloat;
  (** the probabilities by label, [True] standing for odds *)
  predict_proba_one : Features.t -> stmt choice_model_t (list (bool * Q));
  learn_one_fingers : Features.t -> Z -> stmt finger_model_t unit;
  learn_one_choice : Features.t -> bool -> stmt choice_model_t unit;
  update_finger_metric : Z -> value -> stmt finger_metric_t unit;
  update_choice_metric : bool -> bool -> stmt choice_metric_t unit
}.

Section Predictor.

Context {river : River}.

Record ModelData : Type := mkModelData {
  finger_model : finger_model_t;
  choice_model : choice_model_t;
  finger_metric : finger_metric_t;
  choice_metric : choice_metric_t
}.

(** An [AIPredictor] object. The four model attributes exist exactly when
    [river_available] is set, so they are one optional field. *)
Record AIPredictor : Type := mkAIPredictor {
  models : option ModelData;
  game_history : list Round.t;
  player_stats : dict;
  last_predictions : Prediction
}.

Definition river_available (self : AIPredictor) : bool :=
  match models self with Some _ => true | None => false end.

Definition with_models (self : AIPredictor) (m : option ModelData) : AIPredictor :=
  mkAIPredictor m (game_history self) (player_stats self) (last_predictions self).

Definition with_game_history (self : AIPredictor) (h : list Round.t) : AIPredictor :=
  mkAIPredictor (models self) h (player_stats self) (last_predictions self).

Definition with_player_stats (self : AIPredictor) (d : dict) : AIPredictor :=
  mkAIPredictor (models self) (game_history self) d (last_predictions self).

Definition with_last_predictions (self : AIPredictor) (p : Prediction) : AIPredictor :=
  mkAIPredictor (models self) (game_history self) (player_stats self) p.

(** The statistics of [__init__] and [reset_data]. *)
Definition default_finger_counts : dict :=
  [(KInt 1, VInt 0); (KInt 2, VInt 0); (KInt 3, VInt 0); (KInt 4, VInt 0);
   (KInt 5, VInt 0)].

Definition default_player_stats : dict :=
  [(KStr "total_games", VInt 0);
   (KStr "total_rounds", VInt 0);
   (KStr "finger_counts", VDict default_finger_counts);
   (KStr "choice_history", VDict [(KStr "odds", VInt 0); (KStr "evens", VInt 0)]);
   (KStr "win_rate", VFloat 0);
   (KStr "patterns", VDict [])].

Definition default_last_predictions : Prediction :=
  mkPrediction (VInt 3) (VStr "odds") 0.

Definition new_models : ModelData :=
  mkModelData new_finger_model new_choice_model new_finger_metric new_choice_metric.

(** *** [extract_features] *)

(** [l[-n:]] *)
Definition last_n {A : Type} (n : nat) (l : list A) : list A :=
  skipn (List.length l - n) l.

(** [np.mean] of a list of integers (not empty). *)
Definition mean (l : list Z) : Q :=
  inject_Z (fold_right Z.add 0 l) / inject_Z (Z.of_nat (List.length l)).

Definition fingers_of (g : Round.t) : Z := get (Round.player_fingers g) 3.

Definition won (g : Round.t) : bool := get (Round.player_won_round g) false.

Definition extract_features (now : Clock.t) (game_state : GameState.t)
    (history : list Round.t) : Features.t :=
  let recent_games := last_n 5 history in
  let recent_fingers := map fingers_of recent_games in
  let recent_choices :=
    map (fun g => match Round.player_choice g with
                  | Some c => if String.eqb c "odds" then 1 else 0
                  | None => 0
                  end) recent_games in
  let recent_wins := map (fun g => Z.b2z (won g)) recent_games in
  let nonempty := negb (Nat.eqb (List.length history) 0) in
  Features.mk
    (Clock.hour now) (Clock.minute now) (Clock.weekday now)
    (get (GameState.current_round game_state) 1)
    (get (GameState.player_wins game_state) 0)
    (get (GameState.robot_wins game_state) 0)
    (Z.of_nat (List.length history))
    (if nonempty then mean recent_fingers else inject_Z 3)
    (if nonempty then last recent_fingers 3 else 3)
    (if nonempty then mean recent_choices else 1 # 2)
    (if nonempty then mean recent_wins else 1 # 2)
    (match rev history with
     | g1 :: g2 :: _ => fingers_of g1 - fingers_of g2
     | _ => 0
     end).

(** *** [_simple_prediction] *)

Definition most_common (c : value) (default : value) : result value :=
  rbind (sum_values c) (fun total =>
    if negb (Qle_bool total 0)
    then rbind (max_key c) (fun k => Ok (key_value k))
    else Ok default).

Definition _simple_prediction (stats : dict) : result Prediction :=
  rbind (dict_item (KStr "finger_counts") stats) (fun finger_counts =>
  rbind (most_common finger_counts (VInt 3)) (fun most_common_fingers =>
  rbind (dict_item (KStr "choice_history") stats) (fun choice_history =>
  rbind (most_common choice_history (VStr "odds")) (fun most_common_choice =>
  Ok (mkPrediction most_common_fingers most_common_choice (1 # 10)))))).

(** *** [predict_player_behavior] *)

(** [max(1, min(5, n))] *)
Definition clamp (n : Z) : Z := Z.max 1 (Z.min 5 n).

(** [choice_proba.get(True, 0.5)] *)
Fixpoint proba_of_odds (choice_proba : list (bool * Q)) : Q :=
  match choice_proba with
  | [] => 1 # 2
  | (label, p) :: rest => if label then p else proba_of_odds rest
  end.

(** The [try] block of [predict_player_behavior], on the model objects. *)
Definition predict_try (features : Features.t) : stmt ModelData Prediction :=
  fun m =>
    match predict_one features (finger_model m) with
    | (Raise e, fm) =>
        (Raise e, mkModelData fm (choice_model m) (finger_metric m) (choice_metric m))
    | (Ok x, fm) =>
        match round_float x with
        | Raise e =>
            (Raise e, mkModelData fm (choice_model m) (finger_metric m) (choice_metric m))
        | Ok n =>
            let predicted_fingers := clamp n in
            match predict_proba_one features (choice_model m) with
            | (Raise e, cm) =>
                (Raise e, mkModelData fm cm (finger_metric m) (choice_metric m))
            | (Ok choice_proba, cm) =>
                let m' := mkModelData fm cm (finger_metric m) (choice_metric m) in
                match choice_proba with
                | _ :: _ =>
                    let odds_prob := proba_of_odds choice_proba in
                    (Ok (mkPrediction (VInt predicted_fingers)
                           (if Qle_bool odds_prob (1 # 2)
                            then VStr "evens" else VStr "odds")
                           (Qabs (odds_prob - (1 # 2)) * inject_Z 2)), m')
                | [] =>
                    (Ok (mkPrediction (VInt predicted_fingers) (VStr "odds") 0), m')
                end
            end
        end
    end.

Definition predict_player_behavior (now : Clock.t) (game_state : GameState.t)
    : stmt AIPredictor Prediction :=
  fun self =>
    match models self with
    | None => (_simple_prediction (player_stats self), self)
    | Some m =>
        let features := extract_features now game_state (game_history self) in
        match predict_try features m with
        | (Ok p, m') =>
            (Ok p, with_last_predictions (with_models self (Some m')) p)
        | (Raise _, m') =>
            let self' := with_models self (Some m') in
            match _simple_prediction (player_stats self') with
            | Ok p => (Ok p, with_last_predictions self' p)
            | Raise e => (Raise e, self')
            end
        end
    end.

(** *** [_update_statistics] *)

Definition history_wins (history : list Round.t) : Z :=
  Z.of_nat (List.length (filter won history)).

Definition _update_statistics (history : list Round.t) (game_data : Round.t)
    : stmt dict unit :=
  (incr_item "total_rounds" ;;
   let fingers := get (Round.player_fingers game_data) 3 in
   when ((1 <=? fingers) && (fingers <=? 5))
     (let finger_key := str fingers in
      present <- nested_contains "finger_counts" finger_key ;;
      when (negb present) (set_nested "finger_counts" finger_key (VInt 0)) ;;
      incr_nested "finger_counts" finger_key) ;;
   let choice := get (Round.player_choice game_data) "odds" in
   when (String.eqb choice "odds" || String.eqb choice "evens")
     (incr_nested "choice_history" choice) ;;
   when (get (Round.game_finished game_data) false)
     (incr_item "total_games") ;;
   total_rounds <- item "total_rounds" ;;
   positive <- lift (gt0 total_rounds) ;;
   when positive
     (let current_win := Z.b2z (get (Round.player_won_round game_data) false) in
      let total_wins := history_wins history + current_win in
      rate <- lift (true_div total_wins total_rounds) ;;
      set_item "win_rate" rate) ;;
   (* the line printed at the end formats the win rate as a percentage *)
   win_rate <- item "win_rate" ;;
   lift (format_percent win_rate))%stmt.

(** *** [update_model] *)

(** The [try] block of [update_model]: the first statement that raises
    ends it. *)
Definition learn_try (features : Features.t) (actual_fingers : Z)
    (actual_choice_binary : bool) (last : Prediction) : ModelData -> ModelData :=
  fun m =>
    match learn_one_fingers features actual_fingers (finger_model m) with
    | (Raise _, fm) =>
        mkModelData fm (choice_model m) (finger_metric m) (choice_metric m)
    | (Ok _, fm) =>
        match learn_one_choice features actual_choice_binary (choice_model m) with
        | (Raise _, cm) => mkModelData fm cm (finger_metric m) (choice_metric m)
        | (Ok _, cm) =>
            match update_finger_metric actual_fingers (finger_count last)
                    (finger_metric m) with
            | (Raise _, fme) => mkModelData fm cm fme (choice_metric m)
            | (Ok _, fme) =>
                let predicted_choice := eq_str (choice last) "odds" in
                mkModelData fm cm fme
                  (snd (update_choice_metric actual_choice_binary predicted_choice
                          (choice_metric m)))
            end
        end
    end.

(** Runs a statement on the statistics of the predictor. *)
Definition on_player_stats {A : Type} (c : stmt dict A) : stmt AIPredictor A :=
  fun self =>
    let (r, d) := c (player_stats self) in (r, with_player_stats self d).

Definition update_model (now : Clock.t) (game_data : Round.t)
    : stmt AIPredictor unit :=
  fun self =>
    match models self with
    | None =>
        on_player_stats (_update_statistics (game_history self) game_data) self
    | Some m =>
        let features :=
          extract_features now
            (GameState.mk (Some (get (Round.current_round game_data) 1)) None None)
            (game_history self) in
        let actual_fingers := get (Round.player_fingers game_data) 3 in
        let actual_choice := get (Round.player_choice game_data) "odds" in
        let actual_choice_binary := String.eqb actual_choice "odds" in
        let self1 :=
          with_models self
            (Some (learn_try features actual_fingers actual_choice_binary
                     (last_predictions self) m)) in
        (on_player_stats (_update_statistics (game_history self1) game_data) ;;
         fun self2 =>
           (Ok tt, with_game_history self2 (game_history self2 ++ [game_data])))%stmt
          self1
    end.

(** *** [reset_data] *)

Definition reset_data (self : AIPredictor) : AIPredictor :=
  mkAIPredictor
    (match models self with Some _ => Some new_models | None => None end)
    [] default_player_stats (last_predictions self).

(** *** The data files *)

(** What reading a file gives: the file cannot be opened or read, its
    content does not decode, or it holds a document. *)
Inductive content (A : Type) : Type :=
| Unreadable
| Undecodable
| Holds (a : A).
Arguments Unreadable {A}.
Arguments Undecodable {A}.
Arguments Holds {A} a.

(** What [json.load] returns for the history file: a list of round
    records, or a document that is not a list. A list holding something else
    than round records, which the code would keep as it is, is outside the
    model. *)
Inductive history_document : Type :=
| HistoryList (l : list Round.t)
| HistoryOther.

(** The three files of [config.py]; [None] when the file does not exist. *)
Record Files : Type := mkFiles {
  GAME_HISTORY_FILE : option (content history_document);
  STATISTICS_FILE : option (content Json.json);
  AI_MODEL_FILE : option (content ModelData)
}.

(** *** [save_data], when every file can be written *)

Definition save_data (self : AIPredictor) (files : Files) : Files :=
  mkFiles
    (Some (Holds (HistoryList (game_history self))))
    (Some (Holds (Json.dump (VDict (player_stats self)))))
    (match models self with
     | Some m => Some (Holds m)
     | None => AI_MODEL_FILE files
     end).

(** *** [load_data] *)

Definition required_keys : list string :=
  ["total_games"; "total_rounds"; "finger_counts"; "choice_history"; "win_rate"].

(** The history part; it raises when the file cannot be read. *)
Definition load_history (files : Files) : stmt AIPredictor unit :=
  fun self =>
    match GAME_HISTORY_FILE files with
    | None => (Ok tt, self)
    | Some Unreadable => (Raise LibraryError, self)
    | Some Undecodable => (Ok tt, with_game_history self [])
    | Some (Holds (HistoryList l)) => (Ok tt, with_game_history self l)
    | Some (Holds HistoryOther) => (Ok tt, with_game_history self [])
    end.

(** The loop that makes sure the counts 1 to 5 have an entry. *)
Definition backfill : stmt dict unit :=
  for_each FINGERS (fun i =>
    (present <- nested_contains "finger_counts" (str i) ;;
     when (negb present) (set_nested "finger_counts" (str i) (VInt 0)))%stmt).

Definition load_statistics (files : Files) : stmt AIPredictor unit :=
  fun self =>
    match STATISTICS_FILE files with
    | None => (Ok tt, self)
    | Some Unreadable => (Raise LibraryError, self)
    | Some Undecodable => (Ok tt, self)
    | Some (Holds document) =>
        match Json.load document with
        | VDict loaded_stats =>
            if forallb (fun k => dict_mem (KStr k) loaded_stats) required_keys
            then on_player_stats backfill (with_player_stats self loaded_stats)
            else (Ok tt, self)
        | _ => (Ok tt, self)
        end
    end.

(** The model part, with its own handler. The file is the one [save_data]
    pickles, a dictionary with the four objects. *)
Definition load_model (files : Files) (self : AIPredictor) : AIPredictor :=
  match models self, AI_MODEL_FILE files with
  | Some _, Some (Holds model_data) => with_models self (Some model_data)
  | _, _ => self
  end.

Definition load_data (files : Files) (self : AIPredictor) : AIPredictor :=
  match load_history files self with
  | (Raise _, self1) => self1
  | (Ok _, self1) =>
      match load_statistics files self1 with
      | (Raise _, self2) => self2
      | (Ok _, self2) => load_model files self2
      end
  end.

(** *** [__init__] *)

Definition __init__ (RIVER_AVAILABLE : bool) (files : Files) : AIPredictor :=
  load_data files
    (mkAIPredictor (if RIVER_AVAILABLE then Some new_models else None)
       [] default_player_stats default_last_predictions).

(** *** The robot's move, in [GameEngine.start_countdown_sequence] *)

(** The check the engine makes on the selector's number; [r2] is the draw
    of the engine's own [random.choice]. *)
Definition validated (r2 : nat) (ai_robot_number : Z) : Z :=
  let valid_numbers := FINGERS in
  if existsb (Z.eqb ai_robot_number) valid_numbers
  then ai_robot_number
  else random_choice r2 valid_numbers 0.

(** The part of [start_countdown_sequence] that decides the robot's number
    ([r1] is the draw of the selector); the countdown thread it then starts
    is not modelled. *)
Definition start_countdown_sequence (r1 r2 : nat) (now : Clock.t)
    (game_state : GameState.t) (ai_predictor : AIPredictor)
    : Z * Prediction * AIPredictor :=
  let (outcome, ai_predictor') :=
    predict_player_behavior now game_state ai_predictor in
  let (ai_robot_number, ai_prediction) :=
    match outcome with
    | Ok p => (get_robot_strategy r1 (finger_count p) (choice p), p)
    | Raise _ => (3, mkPrediction (VInt 3) (VStr "odds") 0)
    end in
  (validated r2 ai_robot_number, ai_prediction, ai_predictor').

(** *** A session *)

(** [update_model] over the rounds of a session, each with the time it is
    called at, stopping at the first call that raises. *)
Fixpoint play (rounds : list (Clock.t * Round.t)) : stmt AIPredictor unit :=
  match rounds with
  | [] => ret tt
  | (now, game_data) :: rounds' =>
      (update_model now game_data ;; play rounds')%stmt
  end.

End Predictor.

Arguments Unreadable {A}.
Arguments Undecodable {A}.
Arguments Holds {A} a.

(** ** Estimators that never learn

    An instance of the interface whose estimators answer what River's answer
    before any training (all weights zero: the regression gives [0.0], the
    logistic regression gives probability one half to each label) and ignore
    the examples they are given. *)
#[local] Instance untrained_river : River := {|
  finger_model_t := unit;
  choice_model_t := unit;
  finger_metric_t := unit;
  choice_metric_t := unit;
  new_finger_model := tt;
  new_choice_model := tt;
  new_finger_metric := tt;
  new_choice_metric := tt;
  predict_one := fun _ m => (Ok (Finite 0), m);
  predict_proba_one := fun _ m => (Ok [(false, 1 # 2); (true, 1 # 2)], m);
  learn_one_fingers := fun _ _ m => (Ok tt, m);
  learn_one_choice := fun _ _ m => (Ok tt, m);
  update_finger_metric := fun _ _ m => (Ok tt, m);
  update_choice_metric := fun _ _ m => (Ok tt, m)
|}.

(** ** The hand detector ([hand_detector.py]) *)

Module Hand.

(** A landmark of MediaPipe: its normalised coordinates in the image. *)
Record Landmark : Type := mkLandmark { x : Q; y : Q }.

(** [a < b] on coordinates. *)
Definition lt (a b : Q) : bool := negb (Qle_bool b a).

(** [HandDetector.count_fingers]: the count it returns and the five flags
    it leaves in [last_debug_fingers] (thumb, index, middle, ring, pinky);
    [None] when an index is out of the sequence of landmarks. *)
Definition count_fingers (landmarks : list Landmark) : option (Z * list bool) :=
  match nth_error landmarks 17, nth_error landmarks 5,
        nth_error landmarks 4, nth_error landmarks 3,
        nth_error landmarks 8, nth_error landmarks 6,
        nth_error landmarks 12, nth_error landmarks 10 with
  | Some l17, Some l5, Some l4, Some l3, Some l8, Some l6, Some l12, Some l10 =>
      match nth_error landmarks 16, nth_error landmarks 14,
            nth_error landmarks 20, nth_error landmarks 18 with
      | Some l16, Some l14, Some l20, Some l18 =>
          let is_right_hand := lt (x l17) (x l5) in
          let thumb :=
            (is_right_hand && lt (x l3) (x l4))
            || (negb is_right_hand && lt (x l4) (x l3)) in
          let index := lt (y l8) (y l6) in
          let middle := lt (y l12) (y l10) in
          let ring := lt (y l16) (y l14) in
          let pinky := lt (y l20) (y l18) in
          let count :=
            Z.b2z thumb + Z.b2z index + Z.b2z middle + Z.b2z ring + Z.b2z pinky in
          Some (if count =? 0 then 1 else count,
                [thumb; index; middle; ring; pinky])
      | _, _, _, _ => None
      end
  | _, _, _, _, _, _, _, _ => None
  end.

End Hand.

(** ** The game engine ([game_engine.py]) *)

Module Engine.

Section WithRiver.

Context {river : River}.

(** The attributes of a [GameEngine] the game logic reads and writes (the
    camera, video, display and Arduino objects are left out). *)
Record t : Type := mk {
  game_active : bool;
  game_over : bool;
  current_round : Z;
  max_rounds : Z;
  player_wins : Z;
  robot_wins : Z;
  countdown_active : bool;
  countdown_number : Z;
  finger_detection_phase : bool;
  show_result : bool;
  waiting_for_next_round : bool;
  round_ended : bool;
  finger_count : Z;
  robot_number : Z;
  player_choice : string;
  ai_prediction : option Prediction;
  last_round_data : option Round.t;
  ai_predictor : AIPredictor
}.

Definition set_game_active (v : bool) (self : t) : t :=
  mk v (game_over self) (current_round self) (max_rounds self) (player_wins
    self) (robot_wins self) (countdown_active self) (countdown_number self)
    (finger_detection_phase self) (show_result self) (waiting_for_next_round
    self) (round_ended self) (finger_count self) (robot_number self)
    (player_choice self) (ai_prediction self) (last_round_data self)
    (ai_predictor self).

Definition set_game_over (v : bool) (self : t) : t :=
  mk (game_active self) v (current_round self) (max_rounds self) (player_wins
    self) (robot_wins self) (countdown_active self) (countdown_number self)
    (finger_detection_phase self) (show_result self) (waiting_for_next_round
    self) (round_ended self) (finger_count self) (robot_number self)
    (player_choice self) (ai_prediction self) (last_round_data self)
    (ai_predictor self).

Definition set_current_round (v : Z) (self : t) : t :=
  mk (game_active self) (game_over self) v (max_rounds self) (player_wins
    self) (robot_wins self) (countdown_active self) (countdown_number self)
    (finger_detection_phase self) (show_result self) (waiting_for_next_round
    self) (round_ended self) (finger_count self) (robot_number self)
    (player_choice self) (ai_prediction self) (last_round_data self)
    (ai_predictor self).

Definition set_max_rounds (v : Z) (self : t) : t :=
  mk (game_active self) (game_over self) (current_round self) v (player_wins
    self) (robot_wins self) (countdown_active self) (countdown_number self)
    (finger_detection_phase self) (show_result self) (waiting_for_next_round
    self) (round_ended self) (finger_count self) (robot_number self)
    (player_choice self) (ai_prediction self) (last_round_data self)
    (ai_predictor self).

Definition set_player_wins (v : Z) (self : t) : t :=
  mk (game_active self) (game_over self) (current_round self) (max_rounds
    self) v (robot_wins self) (countdown_active self) (countdown_number self)
    (finger_detection_phase self) (show_result self) (waiting_for_next_round
    self) (round_ended self) (finger_count self) (robot_number self)
    (player_choice self) (ai_prediction self) (last_round_data self)
    (ai_predictor self).

Definition set_robot_wins (v : Z) (self : t) : t :=
  mk (game_active self) (game_over self) (current_round self) (max_rounds
    self) (player_wins self) v (countdown_active self) (countdown_number self)
    (finger_detection_phase self) (show_result self) (waiting_for_next_round
    self) (round_ended self) (finger_count self) (robot_number self)
    (player_choice self) (ai_prediction self) (last_round_data self)
    (ai_predictor self).

Definition set_countdown_active (v : bool) (self : t) : t :=
  mk (game_active self) (game_over self) (current_round self) (max_rounds
    self) (player_wins self) (robot_wins self) v (countdown_number self)
    (finger_detection_phase self) (show_result self) (waiting_for_next_round
    self) (round_ended self) (finger_count self) (robot_number self)
    (player_choice self) (ai_prediction self) (last_round_data self)
    (ai_predictor self).

Definition set_countdown_number (v : Z) (self : t) : t :=
  mk (game_active self) (game_over self) (current_round self) (max_rounds
    self) (player_wins self) (robot_wins self) (countdown_active self) v
    (finger_detection_phase self) (show_result self) (waiting_for_next_round
    self) (round_ended self) (finger_count self) (robot_number self)
    (player_choice self) (ai_prediction self) (last_round_data self)
    (ai_predictor self).

Definition set_finger_detection_phase (v : bool) (self : t) : t :=
  mk (game_active self) (game_over self) (current_round self) (max_rounds
    self) (player_wins self) (robot_wins self) (countdown_active self)
    (countdown_number self) v (show_result self) (waiting_for_next_round self)
    (round_ended self) (finger_count self) (robot_number self) (player_choice
    self) (ai_prediction self) (last_round_data self) (ai_predictor self).

Definition set_show_result (v : bool) (self : t) : t :=
  mk (game_active self) (game_over self) (current_round self) (max_rounds
    self) (player_wins self) (robot_wins self) (countdown_active self)
    (countdown_number self) (finger_detection_phase self) v
    (waiting_for_next_round self) (round_ended self) (finger_count self)
    (robot_number self) (player_choice self) (ai_prediction self)
    (last_round_data self) (ai_predictor self).

Definition set_waiting_for_next_round (v : bool) (self : t) : t :=
  mk (game_active self) (game_over self) (current_round self) (max_rounds
    self) (player_wins self) (robot_wins self) (countdown_active self)
    (countdown_number self) (finger_detection_phase self) (show_result self) v
    (round_ended self) (finger_count self) (robot_number self) (player_choice
    self) (ai_prediction self) (last_round_data self) (ai_predictor self).

Definition set_round_ended (v : bool) (self : t) : t :=
  mk (game_active self) (game_over self) (current_round self) (max_rounds
    self) (player_wins self) (robot_wins self) (countdown_active self)
    (countdown_number self) (finger_detection_phase self) (show_result self)
    (waiting_for_next_round self) v (finger_count self) (robot_number self)
    (player_choice self) (ai_prediction self) (last_round_data self)
    (ai_predictor self).

Definition set_finger_count (v : Z) (self : t) : t :=
  mk (game_active self) (game_over self) (current_round self) (max_rounds
    self) (player_wins self) (robot_wins self) (countdown_active self)
    (countdown_number self) (finger_detection_phase self) (show_result self)
    (waiting_for_next_round self) (round_ended self) v (robot_number self)
    (player_choice self) (ai_prediction self) (last_round_data self)
    (ai_predictor self).

Definition set_robot_number (v : Z) (self : t) : t :=
  mk (game_active self) (game_over self) (current_round self) (max_rounds
    self) (player_wins self) (robot_wins self) (countdown_active self)
    (countdown_number self) (finger_detection_phase self) (show_result self)
    (waiting_for_next_round self) (round_ended self) (finger_count self) v
    (player_choice self) (ai_prediction self) (last_round_data self)
    (ai_predictor self).

Definition set_player_choice (v : string) (self : t) : t :=
  mk (game_active self) (game_over self) (current_round self) (max_rounds
    self) (player_wins self) (robot_wins self) (countdown_active self)
    (countdown_number self) (finger_detection_phase self) (show_result self)
    (waiting_for_next_round self) (round_ended self) (finger_count self)
    (robot_number self) v (ai_prediction self) (last_round_data self)
    (ai_predictor self).

Definition set_ai_prediction (v : option Prediction) (self : t) : t :=
  mk (game_active self) (game_over self) (current_round self) (max_rounds
    self) (player_wins self) (robot_wins self) (countdown_active self)
    (countdown_number self) (finger_detection_phase self) (show_result self)
    (waiting_for_next_round self) (round_ended self) (finger_count self)
    (robot_number self) (player_choice self) v (last_round_data self)
    (ai_predictor self).

Definition set_last_round_data (v : option Round.t) (self : t) : t :=
  mk (game_active self) (game_over self) (current_round self) (max_rounds
    self) (player_wins self) (robot_wins self) (countdown_active self)
    (countdown_number self) (finger_detection_phase self) (show_result self)
    (waiting_for_next_round self) (round_ended self) (finger_count self)
    (robot_number self) (player_choice self) (ai_prediction self) v
    (ai_predictor self).

Definition set_ai_predictor (v : AIPredictor) (self : t) : t :=
  mk (game_active self) (game_over self) (current_round self) (max_rounds
    self) (player_wins self) (robot_wins self) (countdown_active self)
    (countdown_number self) (finger_detection_phase self) (show_result self)
    (waiting_for_next_round self) (round_ended self) (finger_count self)
    (robot_number self) (player_choice self) (ai_prediction self)
    (last_round_data self) v.

(** [get_game_state], as far as the predictor reads it. *)
Definition get_game_state (self : t) : GameState.t :=
  GameState.mk (Some (current_round self)) (Some (player_wins self))
    (Some (robot_wins self)).

(** [reset_game]: the choice of the player, the number of rounds and the
    predictor are kept. *)
Definition reset_game (self : t) : t :=
  mk false false 0 (max_rounds self) 0 0
    false (countdown_number self) false
    false false false
    0 0 (player_choice self)
    None None (ai_predictor self).

(** [start_countdown_sequence], up to the start of the countdown thread:
    the prediction, the robot's number and the flag. *)
Definition start_countdown_sequence (r1 r2 : nat) (now : Clock.t) (self : t) : t :=
  let self1 := set_countdown_active true self in
  match start_countdown_sequence r1 r2 now (get_game_state self1)
          (ai_predictor self1) with
  | (smart_robot_number, prediction, predictor) =>
      set_robot_number smart_robot_number
        (set_ai_prediction (Some prediction)
           (set_ai_predictor predictor self1))
  end.

(** The codes of the keys. *)
Definition KEY_Q : Z := 113.
Definition KEY_ESC : Z := 27.
Definition KEY_SPACE : Z := 32.

Definition is_key_odds (key : Z) : bool := (key =? 111) || (key =? 79).
Definition is_key_evens (key : Z) : bool := (key =? 101) || (key =? 69).

(** The end of [handle_keypress]: the keys O and E. *)
Definition choose (key : Z) (self : t) : t :=
  if negb (countdown_active self) && negb (finger_detection_phase self)
  then if is_key_odds key then set_player_choice "odds" self
       else if is_key_evens key then set_player_choice "evens" self
       else self
  else self.

(** [handle_keypress]: what it returns and the engine after it. *)
Definition handle_keypress (r1 r2 : nat) (now : Clock.t) (key : Z) (self : t)
    : string * t :=
  if key =? KEY_Q then ("quit", self)
  else if key =? KEY_ESC then ("continue", reset_game self)
  else if key =? KEY_SPACE then
    if game_over self then ("continue", reset_game self)
    else if negb (game_active self) then
      ("continue",
       start_countdown_sequence r1 r2 now
         (set_current_round 1 (set_game_active true (reset_game self))))
    else if waiting_for_next_round self then
      ("continue",
       start_countdown_sequence r1 r2 now
         (set_current_round (current_round self + 1)
            (set_show_result false (set_waiting_for_next_round false self))))
    else ("continue", choose key self)
  else ("continue", choose key self).

(** The engine and the data files it saves to. *)
Record World : Type := mkWorld { engine : t; disk : Files }.

(** Whether the player wins a round with this total. *)
Definition player_wins_round_of (total : Z) (choice : string) : bool :=
  let is_odd := total mod 2 =? 1 in
  let player_chose_odds := String.eqb choice "odds" in
  (is_odd && player_chose_odds) || (negb is_odd && negb player_chose_odds).

(** [_process_round_result], up to the start of the thread that shows the
    reaction; [timestamp] and [now] are what the clock gives. *)
Definition _process_round_result (timestamp : string) (now : Clock.t)
    : stmt World unit :=
  fun w =>
    let self := engine w in
    let total := finger_count self + robot_number self in
    let is_odd := total mod 2 =? 1 in
    let player_wins_round := player_wins_round_of total (player_choice self) in
    let self1 :=
      if player_wins_round
      then set_player_wins (player_wins self + 1) self
      else set_robot_wins (robot_wins self + 1) self in
    let is_game_over := (2 <=? player_wins self1) || (2 <=? robot_wins self1) in
    let self2 := if is_game_over then set_game_over true self1 else self1 in
    let round_data :=
      Round.mk timestamp (Some (current_round self2)) (Some (finger_count self2))
        (robot_number self2) (Some (player_choice self2)) total is_odd
        (Some player_wins_round) (player_wins self2) (robot_wins self2)
        (ai_prediction self2) (Some is_game_over) in
    let self3 := set_last_round_data (Some round_data) self2 in
    match update_model now round_data (ai_predictor self3) with
    | (Raise e, predictor) =>
        (Raise e, mkWorld (set_ai_predictor predictor self3) (disk w))
    | (Ok _, predictor) =>
        (Ok tt,
         mkWorld
           (set_waiting_for_next_round true
              (set_show_result true (set_ai_predictor predictor self3)))
           (save_data predictor (disk w)))
    end.

(** [update]: the round is processed once the countdown thread has raised
    [round_ended]. *)
Definition update (timestamp : string) (now : Clock.t) : stmt World unit :=
  fun w =>
    if round_ended (engine w)
    then _process_round_result timestamp now
           (mkWorld (set_round_ended false (engine w)) (disk w))
    else (Ok tt, w).

(** The part of [process_frame] that counts the fingers of the hands found
    in the frame. *)
Fixpoint count_hands (hands : list (list Hand.Landmark)) (self : t) : option t :=
  match hands with
  | [] => Some self
  | landmarks :: hands' =>
      if game_active self && (negb (show_result self) || finger_detection_phase self)
      then match Hand.count_fingers landmarks with
           | Some (detected_count, _) =>
               count_hands hands' (set_finger_count detected_count self)
           | None => None
           end
      else count_hands hands' self
  end.

(** What [process_frame] does to the engine: [update], then the fingers of
    the hands found (the drawing that follows reads the engine and changes
    nothing of it); [None] when one of the two raised: the exception leaves
    [process_frame] and ends the main loop. *)
Definition process_frame (timestamp : string) (now : Clock.t)
    (hands : list (list Hand.Landmark)) (w : World) : option World :=
  match update timestamp now w with
  | (Ok _, w') =>
      match count_hands hands (engine w') with
      | Some self => Some (mkWorld self (disk w'))
      | None => None
      end
  | (Raise _, _) => None
  end.

(** [__init__]: the attributes of a new engine, around the predictor it
    constructs. *)
Definition __init__ (predictor : AIPredictor) : t :=
  mk false false 0 3 0 0
    false 0 false false false false
    0 0 "odds" None None predictor.

(** The assignments of the two threads that run beside the main loop.
    [run_countdown] writes the countdown flag and number, the robot's
    number, the detection flag and, at its end, [round_ended];
    [delayed_reaction], started at the end of a round, ends the game when it
    is over and raises [waiting_for_next_round]. They are taken one at a
    time and in any order: more than the threads do, never less. *)
Inductive thread_write : t -> t -> Prop :=
| write_countdown_active (self : t) :
    thread_write self (set_countdown_active false self)
| write_robot_number (smart_robot_number : Z) (self : t) :
    thread_write self (set_robot_number smart_robot_number self)
| write_countdown_number (i : Z) (self : t) :
    In i [3; 2; 1; 0] ->
    thread_write self (set_countdown_number i self)
| write_finger_detection_phase (v : bool) (self : t) :
    thread_write self (set_finger_detection_phase v self)
| write_round_ended (self : t) :
    thread_write self (set_round_ended true self)
| write_game_active (self : t) :
    thread_write self (set_game_active false self)
| write_waiting_for_next_round (self : t) :
    thread_write self (set_waiting_for_next_round true self).

(** Whether [handle_keypress] calls [reset_game] for this key. *)
Definition resets (key : Z) (self : t) : bool :=
  negb (key =? KEY_Q) &&
  ((key =? KEY_ESC) ||
   ((key =? KEY_SPACE) && (game_over self || negb (game_active self)))).

(** The engine at work from its creation around the predictor [p0]: the keys
    and the frames of the main loop and the writes of the threads, in any
    order. With it go the records of the rounds processed so far, each with
    the time it was processed at, and the number of rounds processed since
    the game was last reset. *)
Inductive run (p0 : AIPredictor)
    : list (Clock.t * Round.t) -> nat -> World -> Prop :=
| run_init (files : Files) :
    run p0 [] 0 (mkWorld (__init__ p0) files)
| run_key (records : list (Clock.t * Round.t)) (n : nat) (w : World)
    (r1 r2 : nat) (now : Clock.t) (key : Z) :
    run p0 records n w ->
    run p0 records (if resets key (engine w) then 0 else n)
      (mkWorld (snd (handle_keypress r1 r2 now key (engine w))) (disk w))
| run_frame (records : list (Clock.t * Round.t)) (n : nat) (w w' : World)
    (timestamp : string) (now : Clock.t) (hands : list (list Hand.Landmark)) :
    run p0 records n w ->
    process_frame timestamp now hands w = Some w' ->
    run p0
      (if round_ended (engine w)
       then records ++ match last_round_data (engine w') with
                       | Some round_data => [(now, round_data)]
                       | None => []
                       end
       else records)
      (if round_ended (engine w) then S n else n) w'
| run_thread (records : list (Clock.t * Round.t)) (n : nat) (w : World)
    (self : t) :
    run p0 records n w ->
    thread_write (engine w) self ->
    run p0 records n (mkWorld self (disk w)).

End WithRiver.

End Engine.

(** * Notions used in the statements *)

(** The statistics dictionary with the entries of [__init__], in its order. *)
Definition stats_of (total_games total_rounds : Z) (finger_counts : dict)
    (odds evens : Z) (win_rate : Q) : dict :=
  [(KStr "total_games", VInt total_games);
   (KStr "total_rounds", VInt total_rounds);
   (KStr "finger_counts", VDict finger_counts);
   (KStr "choice_history", VDict [(KStr "odds", VInt odds); (KStr "evens", VInt evens)]);
   (KStr "win_rate", VFloat win_rate);
   (KStr "patterns", VDict [])].

(** The count stored under a key, 0 when there is none. *)
Definition count_at (k : key) (d : dict) : Z :=
  match dict_get k d with
  | Some (VInt c) => c
  | _ => 0
  end.

(** One more use recorded under the string [s]. *)
Definition bump (s : string) (d : dict) : dict :=
  dict_set (KStr s) (VInt (count_at (KStr s) d + 1)) d.

(** Every entry is an integer count. *)
Definition counts (d : dict) : Prop :=
  Forall (fun kv => exists c, snd kv = VInt c /\ 0 <= c) d.

(** The sum of the counts of a dictionary. *)
Fixpoint total_count (d : dict) : Z :=
  match d with
  | [] => 0
  | (_, VInt c) :: d' => c + total_count d'
  | _ :: d' => total_count d'
  end.

(** The sum of the entries for the finger counts 1 to 5, stored under
    [str(i)]. *)
Definition usage_sum (d : dict) : Z :=
  fold_right (fun i acc => count_at (KStr (str i)) d + acc) 0 FINGERS.

Definition in_range (g : Round.t) : bool :=
  (1 <=? fingers_of g) && (fingers_of g <=? 5).

Definition recorded_fingers (g : Round.t) (fc : dict) : dict :=
  if in_range g then bump (str (fingers_of g)) fc else fc.

Definition choice_of (g : Round.t) : string := get (Round.player_choice g) "odds".

(** The entries under integer keys are zero. *)
Definition int_zero (d : dict) : Prop :=
  Forall (fun kv => forall z, fst kv = KInt z -> snd kv = VInt 0) d.

(** The rounds of a session in which [i] fingers were shown. *)
Definition uses (i : Z) (rounds : list (Clock.t * Round.t)) : Z :=
  Z.of_nat (List.length (filter (fun r => fingers_of (snd r) =? i) rounds)).

(** The rounds of a session with a finger count from 1 to 5. *)
Definition in_range_count (rounds : list (Clock.t * Round.t)) : Z :=
  Z.of_nat (List.length (filter (fun r => in_range (snd r)) rounds)).

(** The rounds of a session the player won. *)
Definition wins (rounds : list (Clock.t * Round.t)) : Z :=
  history_wins (map snd rounds).


(** One turn of the loop of [backfill] on the mapping. *)
Definition backfill_step (d : dict) (i : Z) : dict :=
  if dict_mem (KStr (str i)) d then d else dict_set (KStr (str i)) (VInt 0) d.

(** The mapping after the loop. *)
Definition backfilled (d : dict) : dict := fold_left backfill_step FINGERS d.

(** Induction on values, through the lists and dictionaries they hold. *)
Fixpoint value_rect' (P : value -> Prop)
    (HNone : P VNone) (HBool : forall b, P (VBool b)) (HInt : forall z, P (VInt z))
    (HFloat : forall q, P (VFloat q)) (HStr : forall s, P (VStr s))
    (HList : forall l, Forall P l -> P (VList l))
    (HDict : forall d, Forall (fun kv => P (snd kv)) d -> P (VDict d))
    (v : value) : P v :=
  match v with
  | VNone => HNone
  | VBool b => HBool b
  | VInt z => HInt z
  | VFloat q => HFloat q
  | VStr s => HStr s
  | VList l =>
      HList l
        ((fix go (l : list value) : Forall P l :=
            match l with
            | [] => Forall_nil P
            | x :: l' =>
                Forall_cons x
                  (value_rect' P HNone HBool HInt HFloat HStr HList HDict x) (go l')
            end) l)
  | VDict d =>
      HDict d
        ((fix go (d : list (key * value)) : Forall (fun kv => P (snd kv)) d :=
            match d with
            | [] => Forall_nil _
            | kv :: d' =>
                Forall_cons kv
                  (value_rect' P HNone HBool HInt HFloat HStr HList HDict (snd kv))
                  (go d')
            end) d)
  end.

Definition is_strb (k : key) : bool :=
  match k with KStr _ => true | KInt _ => false end.

(** No key occurs twice. *)
Fixpoint distinct (ks : list key) : bool :=
  match ks with
  | [] => true
  | k :: ks' => negb (existsb (key_eqb k) ks') && distinct ks'
  end.

(** A dictionary as [json.load] builds them: string keys, each once. *)
Definition json_keys (d : dict) : bool :=
  forallb is_strb (keys d) && distinct (keys d).

(** A value that [json.dump] and [json.load] give back as it is: all the
    dictionaries in it are keyed by strings. *)
Fixpoint stable (v : value) : bool :=
  match v with
  | VList l => forallb stable l
  | VDict d => forallb (fun kv => stable (snd kv)) d && json_keys d
  | _ => true
  end.

(** What the value becomes when dumped and loaded. *)
Definition reloaded (v : value) : value := Json.load (Json.dump v).

(** The count recorded for [i] fingers: the entry under [str(i)], zero when
    there is none. *)
Definition recorded_uses (fc : dict) (i : Z) : value :=
  match dict_get (KStr (str i)) fc with Some v => v | None => VInt 0 end.

Definition zero_at (i : Z) (kv : key * value) : bool :=
  match kv with
  | (KInt z, VInt c) => (z =? i) && (c =? 0)
  | _ => false
  end.

(** The mapping begins with the five integer-keyed zeros of [__init__]. *)
Definition default_prefix (d : dict) : bool :=
  match d with
  | k1 :: k2 :: k3 :: k4 :: k5 :: _ =>
      zero_at 1 k1 && zero_at 2 k2 && zero_at 3 k3 && zero_at 4 k4 && zero_at 5 k5
  | _ => false
  end.

(** A usage mapping the program leaves in memory: read from a document, or
    the one of [__init__] with entries under string keys added after it. *)
Definition finger_counts_storable (v : value) : bool :=
  stable v ||
  match v with
  | VDict d => default_prefix d && stable (VDict (skipn 5 d))
  | _ => false
  end.

(** Statistics the program leaves in memory: keyed by strings, each entry
    read back as it is written, but for the usage mapping as above. *)
Definition storable (stats : dict) : bool :=
  json_keys stats &&
  forallb (fun kv =>
             if key_eqb (fst kv) (KStr "finger_counts")
             then finger_counts_storable (snd kv)
             else stable (snd kv)) stats.

(** A statement that keeps the statistics storable, however it ends. *)
Definition preserves {A : Type} (c : stmt dict A) : Prop :=
  forall d, storable d = true -> storable (snd (c d)) = true.

(** Statistics with the entries [load_data] asks of a document. *)
Definition complete (stats : dict) : bool :=
  forallb (fun k => dict_mem (KStr k) stats) required_keys.

(** A statement that removes no entry of the statistics, however it
    ends. *)
Definition keeps_keys {A : Type} (c : stmt dict A) : Prop :=
  forall d k, dict_mem k d = true -> dict_mem k (snd (c d)) = true.

(** Induction on documents, through their arrays and objects. *)
Fixpoint json_rect' (P : Json.json -> Prop)
    (HNull : P Json.JNull) (HBool : forall b, P (Json.JBool b))
    (HInt : forall z, P (Json.JInt z)) (HFloat : forall q, P (Json.JFloat q))
    (HString : forall s, P (Json.JString s))
    (HArray : forall l, Forall P l -> P (Json.JArray l))
    (HObject : forall m, Forall (fun kv => P (snd kv)) m -> P (Json.JObject m))
    (j : Json.json) : P j :=
  match j with
  | Json.JNull => HNull
  | Json.JBool b => HBool b
  | Json.JInt z => HInt z
  | Json.JFloat q => HFloat q
  | Json.JString s => HString s
  | Json.JArray l =>
      HArray l
        ((fix go (l : list Json.json) : Forall P l :=
            match l with
            | [] => Forall_nil P
            | x :: l' =>
                Forall_cons x
                  (json_rect' P HNull HBool HInt HFloat HString HArray HObject x)
                  (go l')
            end) l)
  | Json.JObject m =>
      HObject m
        ((fix go (m : list (string * Json.json)) : Forall (fun kv => P (snd kv)) m :=
            match m with
            | [] => Forall_nil _
            | kv :: m' =>
                Forall_cons kv
                  (json_rect' P HNull HBool HInt HFloat HString HArray HObject (snd kv))
                  (go m')
            end) m)
  end.

(** The landmarks of the same hand in the image flipped left to right, as
    [main] flips the frames of the camera. *)
Definition mirrored (landmarks : list Hand.Landmark) : list Hand.Landmark :=
  map (fun l => Hand.mkLandmark (1 - Hand.x l) (Hand.y l)) landmarks.

(** Whether the engine counts the fingers of the hands of a frame. *)
Definition counting {river : River} (e : Engine.t) : bool :=
  Engine.game_active e
  && (negb (Engine.show_result e) || Engine.finger_detection_phase e).

Section Specification.

Context {river : River}.

(** A predictor with no history and the statistics of [__init__]: a new one
    that found no files, or one that was reset. *)
Definition empty_predictor (p : AIPredictor) : Prop :=
  game_history p = [] /\ player_stats p = default_player_stats.

(** The win rate after the rounds [done] (not empty): with the models, the
    wins of all rounds over their number; without them, the win of the last
    round alone over the number of rounds. *)
Definition win_rate_after (online : bool) (done : list (Clock.t * Round.t)) : Q :=
  match rev done with
  | [] => 0
  | (_, g) :: _ =>
      inject_Z (if online then wins done else Z.b2z (won g))
      / inject_Z (Z.of_nat (List.length done))
  end.

(** What holds of a predictor after the rounds [done] of a session that
    began with an empty predictor. *)
Definition tracks (done : list (Clock.t * Round.t)) (p : AIPredictor) : Prop :=
  exists tg fc co ce wr,
    player_stats p = stats_of tg (Z.of_nat (List.length done)) fc co ce wr /\
    counts fc /\
    int_zero fc /\
    0 <= co /\ 0 <= ce /\
    (forall i, In i FINGERS -> dict_get (KInt i) fc = Some (VInt 0)) /\
    total_count fc = in_range_count done /\
    (forall i, In i FINGERS -> count_at (KStr (str i)) fc = uses i done) /\
    game_history p = (if river_available p then map snd done else []) /\
    (done <> [] -> wr = win_rate_after (river_available p) done).

(** An entry of the statistics of a predictor. *)
Definition stat (k : string) (p : AIPredictor) : option value :=
  dict_get (KStr k) (player_stats p).

(** The rounds of a session in which the player's choice was [c], and
    those that ended a game. *)
Definition chosen (c : string) (rounds : list (Clock.t * Round.t)) : Z :=
  Z.of_nat (List.length (filter (fun r => String.eqb (choice_of (snd r)) c) rounds)).

Definition games_finished (rounds : list (Clock.t * Round.t)) : Z :=
  Z.of_nat
    (List.length (filter (fun r => get (Round.game_finished (snd r)) false) rounds)).

(** The keys of the usage mapping in a session: the integers of [__init__]
    and the strings [_update_statistics] counts under. *)
Definition usage_key (k : key) : Prop :=
  exists i, In i FINGERS /\ (k = KInt i \/ k = KStr (str i)).

(** What holds, beside [tracks], of the tallies of a predictor after the
    rounds [done] of a session that began with an empty predictor. *)
Definition tallies (done : list (Clock.t * Round.t)) (p : AIPredictor) : Prop :=
  tracks done p /\
  stat "total_games" p = Some (VInt (games_finished done)) /\
  stat "choice_history" p
    = Some (VDict [(KStr "odds", VInt (chosen "odds" done));
                   (KStr "evens", VInt (chosen "evens" done))]) /\
  exists fc,
    stat "finger_counts" p = Some (VDict fc) /\
    distinct (keys fc) = true /\ Forall usage_key (keys fc).

(** No data file exists. *)
Definition no_files : Files := mkFiles None None None.

(** The states of a predictor: constructed from what the files hold, then
    used through its methods. *)
Inductive reachable : AIPredictor -> Prop :=
| reachable_init (RIVER_AVAILABLE : bool) (files : Files) :
    reachable (__init__ RIVER_AVAILABLE files)
| reachable_predict (p : AIPredictor) (now : Clock.t) (game_state : GameState.t) :
    reachable p -> reachable (snd (predict_player_behavior now game_state p))
| reachable_update (p : AIPredictor) (now : Clock.t) (game_data : Round.t) :
    reachable p -> reachable (snd (update_model now game_data p))
| reachable_load (p : AIPredictor) (files : Files) :
    reachable p -> reachable (load_data files p)
| reachable_reset (p : AIPredictor) :
    reachable p -> reachable (reset_data p).

(** What holds of the score of a game in which [n] rounds have been
    processed. *)
Definition score_after (n : nat) (e : Engine.t) : Prop :=
  Engine.player_wins e + Engine.robot_wins e = Z.of_nat n /\
  0 <= Engine.player_wins e /\ 0 <= Engine.robot_wins e /\
  Engine.game_over e = (2 <=? Engine.player_wins e) || (2 <=? Engine.robot_wins e) /\
  Engine.max_rounds e = 3.

(** What holds of the predictor of an engine, and of the data files, once
    the rounds [records] have been processed: the predictor has been fed
    each of them, and the files are those of its last save. *)
Definition fed (p0 : AIPredictor) (records : list (Clock.t * Round.t))
    (w : Engine.World) : Prop :=
  let p := Engine.ai_predictor (Engine.engine w) in
  tracks records p /\
  river_available p = river_available p0 /\
  (records <> [] ->
   GAME_HISTORY_FILE (Engine.disk w) = Some (Holds (HistoryList (game_history p))) /\
   STATISTICS_FILE (Engine.disk w)
     = Some (Holds (Json.dump (VDict (player_stats p))))).

End Specification.

(** ** Concrete sessions and documents *)

Definition noon : Clock.t := Clock.mk 12 0 0.

(** The record of a round as the engine builds it, from what the player
    showed and chose and what the robot showed. *)
Definition round_record (fingers robot : Z) (player_choice : string) : Round.t :=
  let total := fingers + robot in
  let is_odd := total mod 2 =? 1 in
  let player_won := Bool.eqb is_odd (String.eqb player_choice "odds") in
  Round.mk "2024-01-01T12:00:00" (Some 1) (Some fingers) robot (Some player_choice)
    total is_odd (Some player_won) (Z.b2z player_won) (Z.b2z (negb player_won))
    (Some (mkPrediction (VInt 3) (VStr "odds") 0)) (Some false).

(** The predictor without the models (River is not installed) and with
    them, no data file existing. *)
Definition degraded_predictor : AIPredictor (river := untrained_river) :=
  __init__ false no_files.

Definition online_predictor : AIPredictor (river := untrained_river) :=
  __init__ true no_files.

(** A hand with the index finger up, as MediaPipe gives it: 21 landmarks. *)
Definition pointing_hand : list Hand.Landmark :=
  map (fun i =>
         Hand.mkLandmark
           (if Nat.eqb i 17 then 3 # 5 else if Nat.eqb i 5 then 2 # 5 else 1 # 2)
           (if Nat.eqb i 8 then 1 # 4
            else if existsb (Nat.eqb i) [12; 16; 20]%nat then 3 # 4 else 1 # 2))
    (seq 0 21).

(** A new engine around the predictor with the models, the player having
    chosen evens. *)
Definition evens_engine : Engine.t (river := untrained_river) :=
  Engine.set_player_choice "evens" (Engine.__init__ online_predictor).

(** The first round of a game, step by step: the key E, SPACE, the end of
    the countdown, a frame with the hand, the end of the detection phase,
    and the frame that processes the round. *)
Definition key_pressed (key : Z) (w : Engine.World (river := untrained_river))
    : Engine.World :=
  Engine.mkWorld (snd (Engine.handle_keypress 0 0 noon key (Engine.engine w)))
    (Engine.disk w).

Definition written (f : Engine.t -> Engine.t)
    (w : Engine.World (river := untrained_river)) : Engine.World :=
  Engine.mkWorld (f (Engine.engine w)) (Engine.disk w).

Definition frame_seen (hands : list (list Hand.Landmark))
    (w : Engine.World (river := untrained_river)) : Engine.World :=
  match Engine.process_frame "2024-01-01T12:00:00" noon hands w with
  | Some w' => w'
  | None => w
  end.

Definition new_world : Engine.World :=
  Engine.mkWorld (Engine.__init__ online_predictor) no_files.

(** The time and the record of a round the engine has processed. *)
Definition processed_record (w : Engine.World (river := untrained_river))
    : list (Clock.t * Round.t) :=
  match Engine.last_round_data (Engine.engine w) with
  | Some round_data => [(noon, round_data)]
  | None => []
  end.

Definition first_countdown : Engine.World :=
  Eval vm_compute in key_pressed Engine.KEY_SPACE (key_pressed 101 new_world).

Definition first_round_shown : Engine.World :=
  Eval vm_compute in
    written (Engine.set_round_ended true)
      (written (Engine.set_finger_detection_phase false)
         (frame_seen [pointing_hand]
            (written (Engine.set_finger_detection_phase true)
               (written (Engine.set_countdown_active false) first_countdown)))).

Definition first_round_played : Engine.World :=
  Eval vm_compute in frame_seen [] first_round_shown.

(** A statistics document with every required entry, the number of rounds
    being a string. *)
Definition mistyped_document : Json.json :=
  Json.JObject
    [("total_games", Json.JInt 4); ("total_rounds", Json.JString "9");
     ("finger_counts", Json.JObject [("2", Json.JInt 9)]);
     ("choice_history", Json.JObject [("odds", Json.JInt 1); ("evens", Json.JInt 8)]);
     ("win_rate", Json.JFloat (1 # 3))].

(** A statistics document with every required entry whose usage entry is an
    empty list, and the predictor constructed on it without the models. *)
Definition listed_document : Json.json :=
  Json.JObject
    [("total_games", Json.JInt 4); ("total_rounds", Json.JInt 9);
     ("finger_counts", Json.JArray []);
     ("choice_history", Json.JObject [("odds", Json.JInt 1); ("evens", Json.JInt 8)]);
     ("win_rate", Json.JFloat (1 # 3))].

Definition listed_predictor : AIPredictor (river := untrained_river) :=
  __init__ false (mkFiles None (Some (Holds listed_document)) None).

(** Scenario C and its counterpart: a document without ["win_rate"], and a
    complete one whose usage mapping has an entry for 2 fingers only. *)
Definition incomplete_document : Json.json :=
  Json.JObject
    [("total_games", Json.JInt 4); ("total_rounds", Json.JInt 9);
     ("finger_counts", Json.JObject [("2", Json.JInt 9)]);
     ("choice_history", Json.JObject [("odds", Json.JInt 1); ("evens", Json.JInt 8)])].

Definition complete_document : Json.json :=
  Json.JObject
    [("total_games", Json.JInt 4); ("total_rounds", Json.JInt 9);
     ("finger_counts", Json.JObject [("2", Json.JInt 9)]);
     ("choice_history", Json.JObject [("odds", Json.JInt 1); ("evens", Json.JInt 8)]);
     ("win_rate", Json.JFloat (1 # 3))].

(** * Properties *)

(** ** The random pick *)

Lemma random_choice_In {A : Type} (r : nat) (l : list A) (d : A) :
  l <> [] -> In (random_choice r l d) l.
Proof.
  intros Hl. unfold random_choice. apply nth_In.
  apply Nat.mod_upper_bound. destruct l; [congruence | discriminate].
Qed.

Lemma random_choice_small {A : Type} (r : nat) (l : list A) (d : A) :
  (r < List.length l)%nat -> random_choice r l d = nth r l d.
Proof.
  intros Hr. unfold random_choice. now rewrite Nat.mod_small.
Qed.

(** The draws [0 .. length l - 1] return the elements of [l], each once. *)
Lemma random_choice_covers {A : Type} (l : list A) (d : A) :
  map (fun r => random_choice r l d) (seq 0 (List.length l)) = l.
Proof.
  apply nth_ext with (d := d) (d' := d).
  - now rewrite length_map, length_seq.
  - intros n Hn. rewrite length_map, length_seq in Hn.
    rewrite (nth_indep _ d (random_choice 0 l d))
      by now rewrite length_map, length_seq.
    rewrite (map_nth (fun r => random_choice r l d)), seq_nth by assumption.
    now apply random_choice_small.
Qed.

(** ** The strategy selector *)

Lemma mod2_odd (z : Z) : (z mod 2 =? 1) = Z.odd z.
Proof. rewrite Zmod_odd. now destruct (Z.odd z). Qed.

(** With an integer prediction the candidates are the counts of one parity:
    the even ones when the parity of the prediction is the target, the odd
    ones otherwise. *)
Lemma good_choices_int (n : Z) (target_odd : bool) :
  good_choices_loop (VInt n) target_odd FINGERS [] =
  Ok (if Bool.eqb (Z.odd n) target_odd then [2; 4] else [1; 3; 5]).
Proof.
  unfold FINGERS. cbn [good_choices_loop add_int mod2_is_1 rbind].
  rewrite !mod2_odd, !Z.odd_add.
  destruct (Z.odd n), target_odd; reflexivity.
Qed.

(** The candidates come from the range, whatever the prediction is. *)
Lemma good_choices_loop_incl (pf : value) (target_odd : bool) (range : list Z) :
  forall acc good,
    good_choices_loop pf target_odd range acc = Ok good ->
    incl good (acc ++ range).
Proof.
  induction range as [| k range IH]; intros acc good H.
  - cbn in H. injection H as <-. rewrite app_nil_r. apply incl_refl.
  - cbn [good_choices_loop] in H.
    destruct (add_int pf k) as [total |]; [| discriminate].
    cbn [rbind] in H.
    destruct (mod2_is_1 total) as [total_odd |]; [| discriminate].
    cbn [rbind] in H. apply IH in H.
    intros x Hx. apply H in Hx. rewrite !in_app_iff in *. cbn.
    destruct (Bool.eqb total_odd target_odd).
    + rewrite in_app_iff in Hx. cbn in Hx. tauto.
    + tauto.
Qed.

(** Whatever it is given, the selector returns one of 1 to 5. *)
Lemma get_robot_strategy_valid (r : nat) (pf pc : value) :
  In (get_robot_strategy r pf pc) FINGERS.
Proof.
  unfold get_robot_strategy, get_robot_strategy_try.
  destruct (good_choices_loop pf (negb (eq_str pc "odds")) FINGERS [])
    as [good |] eqn:E; cbn [rbind].
  - destruct good as [| g good]; [cbn; tauto |].
    apply good_choices_loop_incl in E. apply E.
    apply random_choice_In. discriminate.
  - cbn. tauto.
Qed.

(** C1. For a predicted finger count from 1 to 5 and a predicted choice of
    odds or evens, the selector returns one of 1 to 5 whose sum with the
    prediction defeats the choice: the sum is even against odds and odd
    against evens. *)
Theorem get_robot_strategy_defeats_prediction
    (r : nat) (predicted_finger_count : Z) (predicted_choice : string) :
  1 <= predicted_finger_count <= 5 ->
  predicted_choice = "odds" \/ predicted_choice = "evens" ->
  let robot :=
    get_robot_strategy r (VInt predicted_finger_count) (VStr predicted_choice) in
  In robot [1; 2; 3; 4; 5] /\
  (predicted_choice = "odds" -> Z.even (predicted_finger_count + robot) = true) /\
  (predicted_choice = "evens" -> Z.odd (predicted_finger_count + robot) = true).
Proof.
  intros _ Hc robot. split; [apply get_robot_strategy_valid |].
  assert (Hpar : Z.odd (predicted_finger_count + robot)
                 = negb (String.eqb predicted_choice "odds")).
  { subst robot. unfold get_robot_strategy, get_robot_strategy_try.
    rewrite good_choices_int. cbn [rbind eq_str].
    set (target := negb (String.eqb predicted_choice "odds")).
    rewrite Z.odd_add.
    destruct (Z.odd predicted_finger_count) eqn:En, target eqn:Et; cbn [Bool.eqb].
    - pose proof (random_choice_In r [2; 4] 0 ltac:(discriminate)) as Hin.
      destruct Hin as [E | [E | []]]; rewrite <- E; reflexivity.
    - pose proof (random_choice_In r [1; 3; 5] 0 ltac:(discriminate)) as Hin.
      destruct Hin as [E | [E | [E | []]]]; rewrite <- E; reflexivity.
    - pose proof (random_choice_In r [1; 3; 5] 0 ltac:(discriminate)) as Hin.
      destruct Hin as [E | [E | [E | []]]]; rewrite <- E; reflexivity.
    - pose proof (random_choice_In r [2; 4] 0 ltac:(discriminate)) as Hin.
      destruct Hin as [E | [E | []]]; rewrite <- E; reflexivity. }
  split; intros ->.
  - rewrite <- Z.negb_odd, Hpar. reflexivity.
  - rewrite Hpar. reflexivity.
Qed.

Lemma get_robot_strategy_defeats_prediction_witness :
  In (get_robot_strategy 4 (VInt 3) (VStr "odds")) [1; 2; 3; 4; 5] /\
  ("odds" = "odds" -> Z.even (3 + get_robot_strategy 4 (VInt 3) (VStr "odds")) = true) /\
  ("odds" = "evens" -> Z.odd (3 + get_robot_strategy 4 (VInt 3) (VStr "odds")) = true).
Proof.
  apply (get_robot_strategy_defeats_prediction 4 3 "odds"); [lia | left; reflexivity].
Defined.

(** The pick is not the first candidate: against a predicted 3 and odds the
    three draws give the three candidates 1, 3 and 5. *)
Example get_robot_strategy_scenario_A :
  map (fun r => get_robot_strategy r (VInt 3) (VStr "odds")) [0; 1; 2]%nat
  = [1; 3; 5].
Proof. reflexivity. Qed.

(** With an integer prediction, the draws [0 .. n-1] over the [n] candidates
    return each candidate once. *)
Lemma get_robot_strategy_covers (n : Z) (pc : value) :
  let good := if Bool.eqb (Z.odd n) (negb (eq_str pc "odds"))
              then [2; 4] else [1; 3; 5] in
  map (fun r => get_robot_strategy r (VInt n) pc) (seq 0 (List.length good)) = good.
Proof.
  intros good. rewrite <- (random_choice_covers good 0) at 2.
  apply map_ext. intros r.
  unfold get_robot_strategy, get_robot_strategy_try.
  rewrite good_choices_int. fold good. cbn [rbind].
  subst good. destruct (Bool.eqb _ _); reflexivity.
Qed.

(** ** The fallbacks of the selector and of its caller *)

(** With an integer prediction there always is a candidate: the second
    branch of the selector is not taken. *)
Lemma get_robot_strategy_int_has_candidates (n : Z) (target_odd : bool) :
  exists g good,
    good_choices_loop (VInt n) target_odd FINGERS [] = Ok (g :: good).
Proof.
  rewrite good_choices_int. destruct (Bool.eqb _ _); eauto.
Qed.

(** When the [try] block raises, whatever the draw, the handler returns 3. *)
Lemma get_robot_strategy_handler (r : nat) (pf pc : value) (e : exn) :
  get_robot_strategy_try r pf pc = Raise e -> get_robot_strategy r pf pc = 3.
Proof. unfold get_robot_strategy. now intros ->. Qed.

(** A prediction that is a string (a key of the usage mapping) makes the sum
    raise; the selector then returns 3 on every draw. *)
Lemma get_robot_strategy_error_is_fixed :
  get_robot_strategy_try 0 (VStr "2") (VStr "evens") = Raise TypeError /\
  ~ (exists r, get_robot_strategy r (VStr "2") (VStr "evens") <> 3).
Proof.
  split; [reflexivity |]. intros [r H]. apply H. reflexivity.
Qed.

(** The selector with no candidate: a prediction that is not a whole number
    has none against evens, and the result is 3 on every draw. *)
Example get_robot_strategy_no_candidate :
  good_choices_loop (VFloat (5 # 2)) true FINGERS [] = Ok [] /\
  get_robot_strategy_try 0 (VFloat (5 # 2)) (VStr "evens") = Raise NameError /\
  map (fun r => get_robot_strategy r (VFloat (5 # 2)) (VStr "evens"))
      [0; 1; 2; 3; 4]%nat = [3; 3; 3; 3; 3].
Proof. repeat split. Qed.

(** C9, as the code has it. When computing the candidates raises, the
    selector returns the fixed number 3 on every draw. The caller keeps a
    number from 1 to 5 and replaces any other by a random pick from 1 to 5:
    the five draws give the five counts, once each. *)
Theorem selector_error_default_and_caller_substitution :
  (forall r pf pc e,
      good_choices_loop pf (negb (eq_str pc "odds")) FINGERS [] = Raise e ->
      get_robot_strategy r pf pc = 3) /\
  (forall r2 n, In n [1; 2; 3; 4; 5] -> validated r2 n = n) /\
  (forall r2 n, In (validated r2 n) [1; 2; 3; 4; 5]) /\
  (forall n, ~ In n [1; 2; 3; 4; 5] ->
      map (fun r2 => validated r2 n) [0; 1; 2; 3; 4]%nat = [1; 2; 3; 4; 5]).
Proof.
  repeat split.
  - intros r pf pc e H. apply (get_robot_strategy_handler r pf pc e).
    unfold get_robot_strategy_try. now rewrite H.
  - intros r2 n Hn. unfold validated.
    destruct (existsb (Z.eqb n) FINGERS) eqn:E; [reflexivity |].
    cbn in Hn. cbn in E. repeat rewrite orb_false_iff in E.
    repeat rewrite Z.eqb_neq in E. lia.
  - intros r2 n. unfold validated.
    destruct (existsb (Z.eqb n) FINGERS) eqn:E.
    + apply existsb_exists in E. destruct E as [x [Hx E]].
      apply Z.eqb_eq in E. now subst x.
    + apply (random_choice_In r2 FINGERS 0). discriminate.
  - intros n Hn. unfold validated.
    destruct (existsb (Z.eqb n) FINGERS) eqn:E.
    + apply existsb_exists in E. destruct E as [x [Hx E]].
      apply Z.eqb_eq in E. subst x. contradiction.
    + reflexivity.
Qed.

Lemma selector_error_default_and_caller_substitution_witness :
  get_robot_strategy 1 (VStr "2") (VStr "evens") = 3 /\
  validated 0 4 = 4 /\
  map (fun r2 => validated r2 0) [0; 1; 2; 3; 4]%nat = [1; 2; 3; 4; 5].
Proof.
  destruct selector_error_default_and_caller_substitution as [H1 [H2 [_ H4]]].
  split; [| split].
  - apply (H1 1%nat (VStr "2") (VStr "evens") TypeError). reflexivity.
  - apply H2. cbn. tauto.
  - apply H4. cbn. lia.
Defined.

(** ** Statistics built by the program *)

Lemma key_eqb_refl (k : key) : key_eqb k k = true.
Proof. destruct k; cbn; [apply Z.eqb_refl | apply String.eqb_refl]. Qed.

Lemma key_eqb_eq (a b : key) : key_eqb a b = true <-> a = b.
Proof.
  destruct a, b; cbn; try (split; [discriminate | congruence]).
  - rewrite Z.eqb_eq. split; congruence.
  - rewrite String.eqb_eq. split; congruence.
Qed.

Lemma key_eqb_sym (a b : key) : key_eqb a b = key_eqb b a.
Proof.
  destruct a, b; cbn; try reflexivity;
    [apply Z.eqb_sym | apply String.eqb_sym].
Qed.

Lemma dict_get_set_same (k : key) (v : value) (d : dict) :
  dict_get k (dict_set k v d) = Some v.
Proof.
  induction d as [| [k' v'] d IH]; cbn.
  - now rewrite key_eqb_refl.
  - destruct (key_eqb k k') eqn:E; cbn; rewrite E; [reflexivity | exact IH].
Qed.

Lemma dict_get_set_other (k k' : key) (v : value) (d : dict) :
  key_eqb k' k = false -> dict_get k' (dict_set k v d) = dict_get k' d.
Proof.
  intros Hne. induction d as [| [k0 v0] d IH]; cbn.
  - now rewrite Hne.
  - destruct (key_eqb k k0) eqn:E; cbn.
    + destruct (key_eqb k' k0) eqn:E'; [| reflexivity].
      apply key_eqb_eq in E, E'. subst. now rewrite key_eqb_refl in Hne.
    + destruct (key_eqb k' k0); [reflexivity | exact IH].
Qed.

Lemma count_at_bump_same (s : string) (d : dict) :
  count_at (KStr s) (bump s d) = count_at (KStr s) d + 1.
Proof. unfold bump, count_at at 1. now rewrite dict_get_set_same. Qed.

Lemma count_at_bump_other (s : string) (k : key) (d : dict) :
  key_eqb k (KStr s) = false -> count_at k (bump s d) = count_at k d.
Proof.
  intros H. unfold bump, count_at. now rewrite dict_get_set_other.
Qed.

Lemma counts_get (k : key) (d : dict) (v : value) :
  counts d -> dict_get k d = Some v -> exists c, v = VInt c /\ 0 <= c.
Proof.
  intros Hd. induction Hd as [| [k' v'] d [c [Hc Hpos]] _ IH]; cbn; [discriminate |].
  destruct (key_eqb k k'); [| exact IH].
  intros [= <-]. cbn in Hc. eauto.
Qed.

Lemma counts_set (k : key) (c : Z) (d : dict) :
  counts d -> 0 <= c -> counts (dict_set k (VInt c) d).
Proof.
  intros Hd Hc. induction Hd as [| [k' v'] d Hkv Hd IH]; cbn.
  - repeat constructor. cbn. eauto.
  - destruct (key_eqb k k'); constructor; cbn; eauto.
Qed.

Lemma count_at_nonneg (k : key) (d : dict) : counts d -> 0 <= count_at k d.
Proof.
  intros Hd. unfold count_at. destruct (dict_get k d) as [v |] eqn:E; [| lia].
  destruct (counts_get k d v Hd E) as [c [-> Hc]]. exact Hc.
Qed.

Lemma counts_bump (s : string) (d : dict) : counts d -> counts (bump s d).
Proof.
  intros Hd. apply counts_set; [exact Hd |].
  pose proof (count_at_nonneg (KStr s) d Hd). lia.
Qed.

(** Setting a count changes the total by the difference. *)
Lemma total_count_set (k : key) (c : Z) (d : dict) :
  counts d ->
  total_count (dict_set k (VInt c) d) = total_count d - count_at k d + c.
Proof.
  intros Hd. unfold count_at.
  induction Hd as [| [k' v'] d [c' [Hc' _]] Hd IH]; cbn.
  - lia.
  - cbn in Hc'. subst v'. destruct (key_eqb k k'); cbn; [lia |].
    rewrite IH. lia.
Qed.

Lemma total_count_bump (s : string) (d : dict) :
  counts d -> total_count (bump s d) = total_count d + 1.
Proof. intros Hd. unfold bump. rewrite total_count_set by assumption. lia. Qed.

(** A use of [n] fingers, [n] from 1 to 5, adds one to the sum over the five
    string keys. *)
Lemma usage_sum_bump (n : Z) (d : dict) :
  1 <= n <= 5 -> usage_sum (bump (str n) d) = usage_sum d + 1.
Proof.
  intros Hn. unfold usage_sum, FINGERS. cbn [fold_right].
  assert (Hcases : n = 1 \/ n = 2 \/ n = 3 \/ n = 4 \/ n = 5) by lia.
  destruct Hcases as [-> | [-> | [-> | [-> | ->]]]];
    change (str 1) with "1"; change (str 2) with "2"; change (str 3) with "3";
    change (str 4) with "4"; change (str 5) with "5";
    rewrite count_at_bump_same, !count_at_bump_other by reflexivity; lia.
Qed.

Lemma dict_set_set (k : key) (v v' : value) (d : dict) :
  dict_set k v (dict_set k v' d) = dict_set k v d.
Proof.
  induction d as [| [k0 v0] d IH]; cbn.
  - now rewrite key_eqb_refl.
  - destruct (key_eqb k k0) eqn:E; cbn; rewrite E; [reflexivity | now rewrite IH].
Qed.

(** ** Numbers that are integers *)

Lemma Qle_bool_inject (a b : Z) : Qle_bool (inject_Z a) (inject_Z b) = (a <=? b).
Proof. unfold Qle_bool. cbn. now rewrite !Z.mul_1_r. Qed.

Lemma Qplus_inject (a b : Z) : (inject_Z a + inject_Z b)%Q = inject_Z (a + b).
Proof. unfold Qplus, inject_Z. cbn. f_equal. lia. Qed.

Lemma gt0_int (z : Z) : gt0 (VInt z) = Ok (0 <? z).
Proof.
  unfold gt0, num_of. change 0%Q with (inject_Z 0).
  now rewrite Qle_bool_inject, Z.ltb_antisym.
Qed.

Lemma true_div_int (n z : Z) :
  0 < z -> true_div n (VInt z) = Ok (VFloat (inject_Z n / inject_Z z)).
Proof.
  intros Hz. unfold true_div, num_of, Qeq_bool. cbn. rewrite Z.mul_1_r.
  destruct (Z.eqb_spec z 0); [lia | reflexivity].
Qed.

(** ** Running statements *)

Lemma bind_ok {S A B : Type} (c : stmt S A) (k : A -> stmt S B) (s s' : S) (a : A) :
  c s = (Ok a, s') -> bind c k s = k a s'.
Proof. unfold bind. now intros ->. Qed.

Lemma bind_raise {S A B : Type} (c : stmt S A) (k : A -> stmt S B) (s s' : S) (e : exn) :
  c s = (Raise e, s') -> bind c k s = (Raise e, s').
Proof. unfold bind. now intros ->. Qed.

(** ** One round recorded in statistics of the program's own making *)

(** The three statements that count a finger use, on a mapping of counts. *)
Lemma record_fingers_stats_of (s : string) tg tr fc co ce wr :
  counts fc ->
  (present <- nested_contains "finger_counts" s ;;
   when (negb present) (set_nested "finger_counts" s (VInt 0)) ;;
   incr_nested "finger_counts" s)%stmt (stats_of tg tr fc co ce wr)
  = (Ok tt, stats_of tg tr (bump s fc) co ce wr).
Proof.
  intros Hfc. unfold bump, count_at.
  unfold bind, nested_contains, item, lift, contains, dict_mem. cbn.
  destruct (dict_get (KStr s) fc) as [v |] eqn:E; cbn.
  - destruct (counts_get _ _ _ Hfc E) as [c [-> _]].
    unfold incr_nested, bind, item, lift, fetch, dict_item. cbn. rewrite E.
    reflexivity.
  - unfold incr_nested, bind, item, lift, fetch, dict_item. cbn.
    rewrite dict_get_set_same. cbn. now rewrite dict_set_set.
Qed.

(** [_update_statistics] on statistics in the shape of [__init__]: it does
    not raise, and every entry is updated as follows. *)
Lemma _update_statistics_stats_of h g tg tr fc co ce wr :
  counts fc -> 0 <= tr ->
  _update_statistics h g (stats_of tg tr fc co ce wr) =
  (Ok tt,
   stats_of (if get (Round.game_finished g) false then tg + 1 else tg)
     (tr + 1) (recorded_fingers g fc)
     (if String.eqb (choice_of g) "odds" then co + 1 else co)
     (if String.eqb (choice_of g) "odds" then ce
      else if String.eqb (choice_of g) "evens" then ce + 1 else ce)
     (inject_Z (history_wins h + Z.b2z (won g)) / inject_Z (tr + 1))).
Proof.
  intros Hfc Htr. unfold _update_statistics.
  unfold recorded_fingers, in_range, fingers_of, choice_of, won.
  set (f := get (Round.player_fingers g) 3).
  set (c := get (Round.player_choice g) "odds").
  set (fc' := if (1 <=? f) && (f <=? 5) then bump (str f) fc else fc).
  set (co' := if String.eqb c "odds" then co + 1 else co).
  set (ce' := if String.eqb c "odds" then ce
              else if String.eqb c "evens" then ce + 1 else ce).
  set (tg' := if get (Round.game_finished g) false then tg + 1 else tg).
  rewrite (bind_ok _ _ _ (stats_of tg (tr + 1) fc co ce wr) tt) by reflexivity.
  rewrite (bind_ok _ _ _ (stats_of tg (tr + 1) fc' co ce wr) tt).
  2:{ subst fc'. destruct ((1 <=? f) && (f <=? 5)); cbn [when].
      - apply record_fingers_stats_of. exact Hfc.
      - reflexivity. }
  rewrite (bind_ok _ _ _ (stats_of tg (tr + 1) fc' co' ce' wr) tt).
  2:{ subst co' ce'. clearbody c.
      destruct (String.eqb_spec c "odds") as [-> | _]; [reflexivity |].
      destruct (String.eqb_spec c "evens") as [-> | _]; reflexivity. }
  rewrite (bind_ok _ _ _ (stats_of tg' (tr + 1) fc' co' ce' wr) tt).
  2:{ subst tg'. destruct (get (Round.game_finished g) false); reflexivity. }
  rewrite (bind_ok _ _ _ (stats_of tg' (tr + 1) fc' co' ce' wr) (VInt (tr + 1)))
    by reflexivity.
  rewrite (bind_ok _ _ _ (stats_of tg' (tr + 1) fc' co' ce' wr) true).
  2:{ unfold lift. rewrite gt0_int.
      replace (0 <? tr + 1) with true by (symmetry; apply Z.ltb_lt; lia).
      reflexivity. }
  cbn [when].
  rewrite (bind_ok _ _ _
             (stats_of tg' (tr + 1) fc' co' ce'
                (inject_Z (history_wins h + Z.b2z (get (Round.player_won_round g) false))
                 / inject_Z (tr + 1))) tt).
  2:{ rewrite (bind_ok _ _ _ (stats_of tg' (tr + 1) fc' co' ce' wr)
                 (VFloat (inject_Z (history_wins h
                                    + Z.b2z (get (Round.player_won_round g) false))
                          / inject_Z (tr + 1)))).
      - reflexivity.
      - unfold lift. rewrite true_div_int by lia. reflexivity. }
  reflexivity.
Qed.

Section Sessions.

Context {river : River}.

(** [update_model] on a predictor whose statistics have that shape: it
    returns normally; the history grows by the round when the models are
    available and stays as it is otherwise. *)
Lemma update_model_stats_of now g (p : AIPredictor) tg tr fc co ce wr :
  player_stats p = stats_of tg tr fc co ce wr -> counts fc -> 0 <= tr ->
  exists p',
    update_model now g p = (Ok tt, p') /\
    player_stats p' =
      stats_of (if get (Round.game_finished g) false then tg + 1 else tg)
        (tr + 1) (recorded_fingers g fc)
        (if String.eqb (choice_of g) "odds" then co + 1 else co)
        (if String.eqb (choice_of g) "odds" then ce
         else if String.eqb (choice_of g) "evens" then ce + 1 else ce)
        (inject_Z (history_wins (game_history p) + Z.b2z (won g))
         / inject_Z (tr + 1)) /\
    game_history p' =
      (if river_available p then game_history p ++ [g] else game_history p) /\
    river_available p' = river_available p.
Proof.
  intros Hs Hfc Htr. unfold update_model, river_available.
  destruct (models p) as [m |] eqn:Em.
  - unfold bind, on_player_stats. cbn. rewrite Hs.
    rewrite _update_statistics_stats_of by assumption. cbn.
    eexists. repeat split.
  - unfold on_player_stats. rewrite Hs.
    rewrite _update_statistics_stats_of by assumption.
    eexists. repeat split. cbn. now rewrite Em.
Qed.

End Sessions.

(** ** A session from an empty predictor *)

Lemma int_zero_set_str (s : string) (v : value) (d : dict) :
  int_zero d -> int_zero (dict_set (KStr s) v d).
Proof.
  intros Hd. induction Hd as [| [k' v'] d Hkv Hd IH]; cbn [dict_set].
  - repeat constructor. cbn. discriminate.
  - destruct (key_eqb (KStr s) k') eqn:E; constructor; auto.
    apply key_eqb_eq in E. subst k'. cbn. discriminate.
Qed.

Lemma int_zero_get (z : Z) (v : value) (d : dict) :
  int_zero d -> dict_get (KInt z) d = Some v -> v = VInt 0.
Proof.
  intros Hd. induction Hd as [| [k' v'] d Hkv Hd IH]; cbn [dict_get]; [discriminate |].
  destruct (key_eqb (KInt z) k') eqn:E; [| exact IH].
  intros [= <-]. apply key_eqb_eq in E. subst k'. now apply (Hkv z).
Qed.

Lemma count_at_bump_fingers (n i : Z) (d : dict) :
  1 <= n <= 5 -> 1 <= i <= 5 ->
  count_at (KStr (str i)) (bump (str n) d)
  = count_at (KStr (str i)) d + (if n =? i then 1 else 0).
Proof.
  intros Hn Hi.
  assert (Hcn : n = 1 \/ n = 2 \/ n = 3 \/ n = 4 \/ n = 5) by lia.
  assert (Hci : i = 1 \/ i = 2 \/ i = 3 \/ i = 4 \/ i = 5) by lia.
  destruct Hcn as [-> | [-> | [-> | [-> | ->]]]];
    destruct Hci as [-> | [-> | [-> | [-> | ->]]]];
    cbn [Z.eqb Pos.eqb];
    first [ rewrite count_at_bump_same; reflexivity
          | rewrite count_at_bump_other by reflexivity; lia ].
Qed.

Lemma uses_snoc i rounds r :
  uses i (rounds ++ [r]) = uses i rounds + (if fingers_of (snd r) =? i then 1 else 0).
Proof.
  unfold uses. rewrite filter_app, length_app, Nat2Z.inj_add. cbn.
  destruct (fingers_of (snd r) =? i); reflexivity.
Qed.

Lemma in_range_count_snoc rounds r :
  in_range_count (rounds ++ [r])
  = in_range_count rounds + (if in_range (snd r) then 1 else 0).
Proof.
  unfold in_range_count. rewrite filter_app, length_app, Nat2Z.inj_add. cbn.
  destruct (in_range (snd r)); reflexivity.
Qed.

Lemma history_wins_snoc h g :
  history_wins (h ++ [g]) = history_wins h + Z.b2z (won g).
Proof.
  unfold history_wins. rewrite filter_app, length_app, Nat2Z.inj_add. cbn.
  destruct (won g); reflexivity.
Qed.


(** The per-count numbers add up to the in-range number. *)
Lemma uses_sum rounds :
  uses 1 rounds + (uses 2 rounds + (uses 3 rounds + (uses 4 rounds + (uses 5 rounds + 0))))
  = in_range_count rounds.
Proof.
  induction rounds as [| r rounds IH] using rev_ind; [reflexivity |].
  rewrite !uses_snoc, in_range_count_snoc, <- IH. unfold in_range.
  destruct (Z.eqb_spec (fingers_of (snd r)) 1), (Z.eqb_spec (fingers_of (snd r)) 2),
    (Z.eqb_spec (fingers_of (snd r)) 3), (Z.eqb_spec (fingers_of (snd r)) 4),
    (Z.eqb_spec (fingers_of (snd r)) 5),
    (Z.leb_spec 1 (fingers_of (snd r))), (Z.leb_spec (fingers_of (snd r)) 5);
    cbn [andb]; lia.
Qed.

Section SessionInvariant.

Context {river : River}.

Lemma tracks_empty (p : AIPredictor) : empty_predictor p -> tracks [] p.
Proof.
  intros [Hh Hs]. exists 0, default_finger_counts, 0, 0, 0%Q.
  split; [exact Hs |].
  split; [repeat constructor; cbn; eexists; split; (reflexivity || lia) |].
  split; [repeat constructor; cbn; reflexivity |].
  split; [lia |]. split; [lia |].
  split; [intros i [<- | [<- | [<- | [<- | [<- | []]]]]]; reflexivity |].
  split; [reflexivity |].
  split; [intros i [<- | [<- | [<- | [<- | [<- | []]]]]]; reflexivity |].
  split; [rewrite Hh; now destruct (river_available p) | congruence].
Qed.

Lemma in_FINGERS (i : Z) : In i FINGERS <-> 1 <= i <= 5.
Proof. unfold FINGERS. cbn. lia. Qed.

Lemma tracks_step done p now g :
  tracks done p ->
  exists p', update_model now g p = (Ok tt, p') /\ tracks (done ++ [(now, g)]) p'.
Proof.
  intros (tg & fc & co & ce & wr & Hs & Hc & Hz & Hco & Hce & Hint & Htot & Huse & Hh & Hwr).
  destruct (update_model_stats_of now g p tg _ fc co ce wr Hs Hc ltac:(lia))
    as (p' & Hrun & Hs' & Hh' & Hav).
  exists p'. split; [exact Hrun |].
  eexists _, (recorded_fingers g fc), _, _, _.
  assert (Hlen : Z.of_nat (List.length (done ++ [(now, g)]))
                 = Z.of_nat (List.length done) + 1).
  { rewrite length_app. cbn. lia. }
  split; [rewrite Hlen; exact Hs' |].
  unfold recorded_fingers.
  assert (Hrange : in_range g = true -> 1 <= fingers_of g <= 5).
  { unfold in_range. rewrite andb_true_iff, !Z.leb_le. tauto. }
  split; [destruct (in_range g); [now apply counts_bump | exact Hc] |].
  split; [destruct (in_range g); [now apply int_zero_set_str | exact Hz] |].
  split; [destruct (String.eqb (choice_of g) "odds"); lia |].
  split; [destruct (String.eqb (choice_of g) "odds"),
            (String.eqb (choice_of g) "evens"); lia |].
  split.
  { intros i Hi. destruct (in_range g); [| now apply Hint].
    unfold bump. rewrite dict_get_set_other by reflexivity. now apply Hint. }
  split.
  { rewrite in_range_count_snoc. cbn [snd].
    destruct (in_range g); [rewrite total_count_bump by assumption |]; lia. }
  split.
  { intros i Hi. rewrite uses_snoc. cbn [snd]. rewrite <- (Huse i Hi).
    apply in_FINGERS in Hi.
    destruct (in_range g) eqn:Er.
    - now apply count_at_bump_fingers; [apply Hrange |].
    - destruct (Z.eqb_spec (fingers_of g) i) as [E | _]; [| lia].
      unfold in_range in Er. rewrite andb_false_iff, !Z.leb_gt in Er. lia. }
  split.
  { rewrite Hh', Hav, Hh. destruct (river_available p); [| reflexivity].
    now rewrite map_app. }
  intros _. unfold win_rate_after. rewrite rev_app_distr. cbn [rev app].
  rewrite Hlen, Hav, Hh. unfold wins.
  destruct (river_available p).
  - rewrite map_app. cbn [map snd]. now rewrite history_wins_snoc.
  - reflexivity.
Qed.

Lemma tracks_play rounds :
  forall done p,
    tracks done p ->
    exists p', play rounds p = (Ok tt, p') /\ tracks (done ++ rounds) p'.
Proof.
  induction rounds as [| [now g] rounds IH]; intros done p Hp.
  - exists p. rewrite app_nil_r. now split.
  - destruct (tracks_step done p now g Hp) as (p1 & Hrun & Hp1).
    destruct (IH _ _ Hp1) as (p' & Hplay & Hp').
    exists p'. split.
    + cbn [play]. now rewrite (bind_ok _ _ _ _ _ Hrun).
    + now rewrite <- app_assoc in Hp'.
Qed.

Lemma update_model_river_available now g (p : AIPredictor) :
  river_available (snd (update_model now g p)) = river_available p.
Proof.
  unfold update_model, river_available.
  destruct (models p) as [m |] eqn:Em.
  - unfold bind, on_player_stats. cbn.
    now destruct (_update_statistics _ _ _) as [[[] | e] d].
  - unfold on_player_stats.
    destruct (_update_statistics _ _ _) as [r d]. cbn. now rewrite Em.
Qed.

Lemma play_river_available rounds :
  forall p : AIPredictor,
    river_available (snd (play rounds p)) = river_available p.
Proof.
  induction rounds as [| [now g] rounds IH]; intros p; [reflexivity |].
  cbn [play]. unfold bind.
  pose proof (update_model_river_available now g p) as Hstep.
  destruct (update_model now g p) as [[[] | e] p1]; cbn [snd] in *.
  - now rewrite IH.
  - exact Hstep.
Qed.

End SessionInvariant.

(** ** The fallback prediction on counts *)

Lemma sum_from_counts (d : dict) :
  counts d ->
  forall a, sum_from (inject_Z a) (values d) = Ok (inject_Z (a + total_count d)).
Proof.
  intros Hd. induction Hd as [| [k v] d [c [Hc _]] _ IH]; intros a.
  - cbn. now rewrite Z.add_0_r.
  - cbn in Hc. subst v. cbn [values map snd sum_from num_of total_count].
    rewrite Qplus_inject. fold (values d). rewrite IH. now rewrite Z.add_assoc.
Qed.

Lemma sum_values_counts (d : dict) :
  counts d -> sum_values (VDict d) = Ok (inject_Z (total_count d)).
Proof. intros Hd. apply (sum_from_counts d Hd 0). Qed.

(** Some entry of counts with a positive total is positive. *)
Lemma total_count_positive (d : dict) :
  counts d -> 0 < total_count d -> exists k c, In (k, VInt c) d /\ 0 < c.
Proof.
  intros Hd. induction Hd as [| [k v] d [c [Hc Hpos]] _ IH]; cbn.
  - lia.
  - cbn in Hc. subst v. intros Ht.
    destruct (Z.ltb_spec 0 c) as [Hlt | Hle].
    + exists k, c. now split; [left |].
    + destruct IH as (k' & c' & Hin & Hc'); [lia |].
      exists k', c'. now split; [right |].
Qed.


Section Fallback.

Context {river : River}.


End Fallback.

(** ** Sessions: the statistics, the history and the win rate *)

Section SessionTheorems.

Context {river : River}.

Lemma init_empty (RIVER_AVAILABLE : bool) :
  empty_predictor (__init__ RIVER_AVAILABLE no_files).
Proof. now destruct RIVER_AVAILABLE. Qed.

Lemma reset_empty (p : AIPredictor) : empty_predictor (reset_data p).
Proof. now split. Qed.

Lemma usage_sum_uses (fc : dict) rounds :
  (forall i, In i FINGERS -> count_at (KStr (str i)) fc = uses i rounds) ->
  usage_sum fc = in_range_count rounds.
Proof.
  intros H. rewrite <- uses_sum. unfold usage_sum, FINGERS. cbn [fold_right].
  rewrite !H by (apply in_FINGERS; lia). reflexivity.
Qed.

(** C3. After the [N] calls of [update_model] of a session that began with
    an empty predictor, every call having returned normally,
    [total_rounds] is [N], and the entries of the usage mapping for the
    counts 1 to 5 (stored under ['1'] to ['5']) add up to the number of
    rounds with a finger count from 1 to 5, as does the sum of all the values
    of the mapping. *)
Theorem statistics_invariant (p : AIPredictor) (rounds : list (Clock.t * Round.t)) :
  empty_predictor p ->
  fst (play rounds p) = Ok tt /\
  stat "total_rounds" (snd (play rounds p))
    = Some (VInt (Z.of_nat (List.length rounds))) /\
  exists fc,
    stat "finger_counts" (snd (play rounds p)) = Some (VDict fc) /\
    usage_sum fc = in_range_count rounds /\
    sum_values (VDict fc) = Ok (inject_Z (in_range_count rounds)).
Proof.
  intros Hp.
  destruct (tracks_play rounds [] p (tracks_empty p Hp)) as (p' & Hrun & Ht).
  rewrite Hrun. cbn [fst snd app] in *.
  destruct Ht as (tg & fc & co & ce & wr & Hs & Hc & Hz & _ & _ & _ & Htot & Huse & _).
  unfold stat. rewrite Hs. split; [reflexivity |]. split; [reflexivity |].
  exists fc. split; [reflexivity |]. split.
  - now apply usage_sum_uses.
  - now rewrite sum_values_counts, Htot.
Qed.

(** The win rate after a session that began with an empty predictor. *)
Lemma win_rate_of_session (p : AIPredictor) (rounds : list (Clock.t * Round.t)) :
  empty_predictor p -> rounds <> [] ->
  stat "win_rate" (snd (play rounds p))
  = Some (VFloat (win_rate_after (river_available p) rounds)).
Proof.
  intros Hp Hne.
  destruct (tracks_play rounds [] p (tracks_empty p Hp)) as (p' & Hrun & Ht).
  pose proof (play_river_available rounds p) as Hav.
  rewrite Hrun in *. cbn [fst snd app] in *.
  destruct Ht as (tg & fc & co & ce & wr & Hs & _ & _ & _ & _ & _ & _ & _ & _ & Hwr).
  unfold stat. rewrite Hs. cbn. now rewrite (Hwr Hne), Hav.
Qed.

(** With the models available the win rate is the number of rounds the
    player won over the number of rounds. *)
Lemma win_rate_online (p : AIPredictor) (rounds : list (Clock.t * Round.t)) :
  empty_predictor p -> river_available p = true -> rounds <> [] ->
  stat "win_rate" (snd (play rounds p))
  = Some (VFloat (inject_Z (wins rounds) / inject_Z (Z.of_nat (List.length rounds)))).
Proof.
  intros Hp Hav Hne. rewrite (win_rate_of_session p rounds Hp Hne), Hav.
  unfold win_rate_after. destruct (rev rounds) as [| [now g] before] eqn:E.
  - apply (f_equal (@rev _)) in E. rewrite rev_involutive in E. now subst.
  - reflexivity.
Qed.

(** C4, as the code has it. A call of [update_model] keeps the records of
    the history in place; it adds the round's record at the end when the
    models are available and the call returns normally, and nothing
    otherwise (without the models only the statistics are kept).
    [predict_player_behavior] leaves the history as it is and [reset_data]
    empties it. *)
Theorem history_append_only (p : AIPredictor) (now : Clock.t) (g : Round.t)
    (game_state : GameState.t) :
  game_history (snd (update_model now g p))
    = game_history p ++
      (match models p, fst (update_model now g p) with
       | Some _, Ok _ => [g]
       | _, _ => []
       end) /\
  game_history (snd (predict_player_behavior now game_state p)) = game_history p /\
  game_history (reset_data p) = [].
Proof.
  split; [| split; [| reflexivity]].
  - unfold update_model. destruct (models p) as [m |].
    + unfold bind, on_player_stats. cbn.
      destruct (_update_statistics _ _ _) as [[[] | e] d]; cbn;
        [reflexivity | now rewrite app_nil_r].
    + unfold on_player_stats.
      destruct (_update_statistics _ _ _) as [r d]. cbn. now rewrite app_nil_r.
  - unfold predict_player_behavior. destruct (models p) as [m |]; [| reflexivity].
    destruct (predict_try _ m) as [[q | e] m']; [reflexivity |].
    cbn. now destruct (_simple_prediction _).
Qed.

End SessionTheorems.

(** ** Concrete sessions *)

Lemma statistics_invariant_witness :
  fst (play [(noon, round_record 2 4 "evens"); (noon, round_record 0 3 "odds")]
         online_predictor) = Ok tt /\
  stat "total_rounds"
    (snd (play [(noon, round_record 2 4 "evens"); (noon, round_record 0 3 "odds")]
            online_predictor)) = Some (VInt 2) /\
  exists fc,
    stat "finger_counts"
      (snd (play [(noon, round_record 2 4 "evens"); (noon, round_record 0 3 "odds")]
              online_predictor)) = Some (VDict fc) /\
    usage_sum fc = 1 /\ sum_values (VDict fc) = Ok (inject_Z 1).
Proof.
  apply (statistics_invariant online_predictor
           [(noon, round_record 2 4 "evens"); (noon, round_record 0 3 "odds")]).
  split; reflexivity.
Defined.

(** Scenario B: three rounds with 2 fingers and evens, each won by the
    player, fed to a predictor with the models. *)
Example scenario_B :
  let p := snd (play [(noon, round_record 2 4 "evens"); (noon, round_record 2 4 "evens");
                      (noon, round_record 2 4 "evens")] online_predictor) in
  stat "total_rounds" p = Some (VInt 3) /\
  stat "finger_counts" p
    = Some (VDict (default_finger_counts ++ [(KStr "2", VInt 3)])) /\
  stat "choice_history" p
    = Some (VDict [(KStr "odds", VInt 0); (KStr "evens", VInt 3)]) /\
  stat "win_rate" p = Some (VFloat (3 # 3)).
Proof. intros p. repeat split. Qed.

(** Without the models a call of [update_model] returns normally, counts the
    round in the statistics and leaves the history empty. *)
Lemma update_model_degraded_appends_nothing :
  fst (update_model noon (round_record 2 4 "evens") degraded_predictor) = Ok tt /\
  stat "total_rounds"
    (snd (update_model noon (round_record 2 4 "evens") degraded_predictor))
    = Some (VInt 1) /\
  game_history (snd (update_model noon (round_record 2 4 "evens") degraded_predictor))
    = [].
Proof. repeat split. Qed.

(** C5, where the code departs from it. Without the models, two rounds both
    won by the player leave a win rate
    of one half: the history the rate is computed from stays empty, so only
    the round being recorded counts as a win. *)
Lemma win_rate_degraded_two_wins :
  won (round_record 2 4 "evens") = true /\
  stat "total_rounds"
    (snd (play [(noon, round_record 2 4 "evens"); (noon, round_record 2 4 "evens")]
            degraded_predictor)) = Some (VInt 2) /\
  stat "win_rate"
    (snd (play [(noon, round_record 2 4 "evens"); (noon, round_record 2 4 "evens")]
            degraded_predictor)) = Some (VFloat (1 # 2)).
Proof. repeat split. Qed.

(** C2, where the code departs from it. Without the models, after one round
    with 2 fingers the predicted finger
    count is the string ['2'], a key of the usage mapping, not an integer;
    the selector then fails on it and returns 3. *)
Lemma fallback_prediction_is_a_string :
  fst (predict_player_behavior noon (GameState.mk (Some 2) (Some 1) (Some 0))
         (snd (update_model noon (round_record 2 4 "evens") degraded_predictor)))
  = Ok (mkPrediction (VStr "2") (VStr "evens") (1 # 10)) /\
  get_robot_strategy_try 0 (VStr "2") (VStr "evens") = Raise TypeError.
Proof. split; reflexivity. Qed.

(** With the models, empty history and the statistics of [__init__], the
    prediction is what the estimators answer before any training: the
    regression's 0 clamped to 1, and evens since the probability of odds,
    one half, is not above one half. *)
Lemma predict_untrained_is_not_the_default :
  fst (predict_player_behavior noon (GameState.mk (Some 1) (Some 0) (Some 0))
         online_predictor)
  = Ok (mkPrediction (VInt 1) (VStr "evens") (0 # 4)).
Proof. reflexivity. Qed.

(** ** The backfill of the usage mapping *)

Lemma dict_set_get_same (k : key) (v : value) (d : dict) :
  dict_get k d = Some v -> dict_set k v d = d.
Proof.
  induction d as [| [k' v'] d IH]; cbn [dict_get dict_set]; [discriminate |].
  destruct (key_eqb k k'); [now intros [= ->] | intros H; now rewrite IH].
Qed.

Lemma item_set (k : string) (v : value) (d : dict) :
  item k (dict_set (KStr k) v d) = (Ok v, dict_set (KStr k) v d).
Proof. unfold item, dict_item. now rewrite dict_get_set_same. Qed.

Lemma nested_contains_set (k s : string) (c d : dict) :
  nested_contains k s (dict_set (KStr k) (VDict c) d)
  = (Ok (dict_mem (KStr s) c), dict_set (KStr k) (VDict c) d).
Proof.
  unfold nested_contains. now rewrite (bind_ok _ _ _ _ _ (item_set _ _ _)).
Qed.

Lemma set_nested_set (k s : string) (v : value) (c d : dict) :
  set_nested k s v (dict_set (KStr k) (VDict c) d)
  = (Ok tt, dict_set (KStr k) (VDict (dict_set (KStr s) v c)) d).
Proof.
  unfold set_nested. rewrite (bind_ok _ _ _ _ _ (item_set _ _ _)).
  unfold bind, lift, set_item. cbn [store]. now rewrite dict_set_set.
Qed.

Lemma backfill_loop (stats : dict) (l : list Z) :
  forall d,
    for_each l (fun i =>
      (present <- nested_contains "finger_counts" (str i) ;;
       when (negb present) (set_nested "finger_counts" (str i) (VInt 0)))%stmt)
      (dict_set (KStr "finger_counts") (VDict d) stats)
    = (Ok tt, dict_set (KStr "finger_counts") (VDict (fold_left backfill_step l d)) stats).
Proof.
  induction l as [| i l IH]; intros d; [reflexivity |].
  cbn [for_each fold_left].
  rewrite (bind_ok _ _ _
             (dict_set (KStr "finger_counts") (VDict (backfill_step d i)) stats) tt).
  - apply IH.
  - rewrite (bind_ok _ _ _ _ _ (nested_contains_set _ _ _ _)).
    unfold backfill_step.
    destruct (dict_mem (KStr (str i)) d); cbn [negb when]; [reflexivity |].
    apply set_nested_set.
Qed.

(** On statistics whose usage mapping is a dictionary, [backfill] does not
    raise and replaces the mapping by the backfilled one. *)
Lemma backfill_dict (stats fc : dict) :
  dict_get (KStr "finger_counts") stats = Some (VDict fc) ->
  backfill stats
  = (Ok tt, dict_set (KStr "finger_counts") (VDict (backfilled fc)) stats).
Proof.
  intros H. unfold backfill, backfilled.
  rewrite <- (dict_set_get_same _ _ _ H) at 1. apply backfill_loop.
Qed.

Lemma dict_get_backfill_step (k : key) (d : dict) (i : Z) :
  dict_get k (backfill_step d i)
  = if key_eqb k (KStr (str i))
    then Some (match dict_get k d with Some v => v | None => VInt 0 end)
    else dict_get k d.
Proof.
  unfold backfill_step, dict_mem.
  destruct (key_eqb k (KStr (str i))) eqn:E.
  - apply key_eqb_eq in E. subst k.
    destruct (dict_get (KStr (str i)) d) as [v |] eqn:Eg; [exact Eg |].
    apply dict_get_set_same.
  - destruct (dict_get (KStr (str i)) d); [reflexivity |].
    now apply dict_get_set_other.
Qed.


(** Every count from 1 to 5 has its entry under its string key: the one it
    had, or zero. *)
Lemma dict_get_backfilled_fingers (i : Z) (d : dict) :
  In i FINGERS ->
  dict_get (KStr (str i)) (backfilled d)
  = Some (match dict_get (KStr (str i)) d with Some v => v | None => VInt 0 end).
Proof.
  intros Hi. unfold backfilled, FINGERS. cbn [fold_left].
  destruct Hi as [<- | [<- | [<- | [<- | [<- | []]]]]];
    rewrite !dict_get_backfill_step; cbn;
    now destruct (dict_get _ d).
Qed.

Section MixedKeys.

Context {river : River}.


End MixedKeys.


(** ** Reading back what [json.dump] wrote *)

Lemma reloaded_dict (d : dict) :
  reloaded (VDict d)
  = VDict (Json.dict_of_members
             (map (fun kv => (Json.key_name (fst kv), reloaded (snd kv))) d)).
Proof.
  unfold reloaded. cbn [Json.dump Json.load]. now rewrite map_map.
Qed.

Lemma dict_mem_false_get (k : key) (d : dict) :
  dict_mem k d = false <-> dict_get k d = None.
Proof. unfold dict_mem. destruct (dict_get k d); split; congruence. Qed.

Lemma dict_get_none_keys (k : key) (d : dict) :
  dict_get k d = None <-> existsb (key_eqb k) (keys d) = false.
Proof.
  induction d as [| [k' v'] d IH]; cbn [dict_get keys map existsb fst]; [tauto |].
  destruct (key_eqb k k'); cbn [orb]; [split; discriminate | exact IH].
Qed.

(** Storing under a key that is not there appends the entry. *)
Lemma dict_set_fresh (k : key) (v : value) (d : dict) :
  dict_get k d = None -> dict_set k v d = d ++ [(k, v)].
Proof.
  induction d as [| [k' v'] d IH]; cbn [dict_get dict_set app]; [reflexivity |].
  destruct (key_eqb k k'); [discriminate | intros H; now rewrite IH].
Qed.

Lemma distinct_app_fresh (ks : list key) (k : key) (rest : list key) :
  distinct (ks ++ k :: rest) = true -> existsb (key_eqb k) ks = false.
Proof.
  induction ks as [| k' ks IH]; [reflexivity |].
  cbn [app distinct existsb]. intros H.
  apply andb_true_iff in H. destruct H as [Hk' H].
  rewrite (IH H), orb_false_r.
  rewrite negb_true_iff, existsb_app, orb_false_iff in Hk'.
  destruct Hk' as [_ Hk']. cbn [existsb] in Hk'.
  rewrite orb_false_iff in Hk'. rewrite key_eqb_sym. apply Hk'.
Qed.

(** Members with distinct names, stored one after the other into a
    dictionary that has none of them, are appended in order. *)
Lemma fold_members_distinct (m : list (string * value)) :
  forall acc,
    distinct (keys acc ++ map (fun kv => KStr (fst kv)) m) = true ->
    fold_left (fun d kv => dict_set (KStr (fst kv)) (snd kv) d) m acc
    = acc ++ map (fun kv => (KStr (fst kv), snd kv)) m.
Proof.
  induction m as [| [s v] m IH]; intros acc H; cbn [fold_left map fst snd].
  - now rewrite app_nil_r.
  - assert (Hfresh : dict_get (KStr s) acc = None).
    { apply dict_get_none_keys. apply (distinct_app_fresh _ _ _ H). }
    rewrite (dict_set_fresh _ _ _ Hfresh), IH.
    + now rewrite <- app_assoc.
    + unfold keys. rewrite map_app, <- app_assoc. exact H.
Qed.

Lemma dict_of_members_distinct (m : list (string * value)) :
  distinct (map (fun kv => KStr (fst kv)) m) = true ->
  Json.dict_of_members m = map (fun kv => (KStr (fst kv), snd kv)) m.
Proof. intros H. apply (fold_members_distinct m [] H). Qed.

(** A stable value is read back as it was written. *)
Lemma reloaded_stable (v : value) : stable v = true -> reloaded v = v.
Proof.
  induction v as [| b | z | q | s | l IH | d IH] using value_rect';
    try reflexivity; intros Hs.
  - unfold reloaded. cbn [Json.dump Json.load]. rewrite map_map. f_equal.
    cbn [stable] in Hs. rewrite forallb_forall in Hs. rewrite Forall_forall in IH.
    rewrite <- (map_id l) at 2. apply map_ext_in. intros x Hx.
    apply (IH x Hx), Hs, Hx.
  - rewrite reloaded_dict. f_equal. cbn [stable] in Hs.
    apply andb_true_iff in Hs. destruct Hs as [Hvals Hkeys].
    unfold json_keys in Hkeys. apply andb_true_iff in Hkeys.
    destruct Hkeys as [Hstr Hdist].
    rewrite dict_of_members_distinct.
    + rewrite map_map. rewrite <- (map_id d) at 2. apply map_ext_in.
      intros [k x] Hx. cbn [fst snd].
      rewrite forallb_forall in Hvals, Hstr. rewrite Forall_forall in IH.
      pose proof (IH _ Hx (Hvals _ Hx)) as E. cbn [snd] in E. rewrite E.
      assert (Hk : is_strb k = true) by (apply Hstr, (in_map fst d _ Hx)).
      destruct k; [discriminate | reflexivity].
    + rewrite map_map. cbn [fst].
      replace (map (fun x => KStr (Json.key_name (fst x))) d) with (keys d);
        [exact Hdist |].
      unfold keys. apply map_ext_in. intros [k x] Hx. cbn [fst].
      rewrite forallb_forall in Hstr.
      assert (Hk : is_strb k = true) by (apply Hstr, (in_map fst d _ Hx)).
      destruct k; [discriminate | reflexivity].
Qed.

Lemma keys_json_names (d : dict) :
  forallb is_strb (keys d) = true ->
  map (fun kv => KStr (Json.key_name (fst kv))) d = keys d.
Proof.
  intros Hstr. unfold keys. apply map_ext_in. intros [k x] Hx. cbn [fst].
  rewrite forallb_forall in Hstr.
  assert (Hk : is_strb k = true) by (apply Hstr, (in_map fst d _ Hx)).
  destruct k; [discriminate | reflexivity].
Qed.

(** A dictionary keyed by strings, each once, is read back with its keys in
    place and each value as it is read back. *)
Lemma reloaded_json_keys (d : dict) :
  json_keys d = true ->
  reloaded (VDict d) = VDict (map (fun kv => (fst kv, reloaded (snd kv))) d).
Proof.
  intros Hkeys. unfold json_keys in Hkeys. apply andb_true_iff in Hkeys.
  destruct Hkeys as [Hstr Hdist].
  rewrite reloaded_dict, dict_of_members_distinct.
  - f_equal. rewrite map_map. apply map_ext_in. intros [k x] Hx. cbn [fst snd].
    rewrite forallb_forall in Hstr.
    assert (Hk : is_strb k = true) by (apply Hstr, (in_map fst d _ Hx)).
    destruct k; [discriminate | reflexivity].
  - rewrite map_map. cbn [fst]. now rewrite keys_json_names.
Qed.

Lemma dict_get_map_values (f : value -> value) (k : key) (d : dict) :
  dict_get k (map (fun kv => (fst kv, f (snd kv))) d) = option_map f (dict_get k d).
Proof.
  induction d as [| [k' v'] d IH]; cbn [map dict_get fst snd]; [reflexivity |].
  now destruct (key_eqb k k').
Qed.

Lemma dict_get_In (k : key) (v : value) (d : dict) :
  dict_get k d = Some v -> In (k, v) d.
Proof.
  induction d as [| [k' v'] d IH]; cbn [dict_get]; [discriminate |].
  destruct (key_eqb k k') eqn:E.
  - intros [= ->]. apply key_eqb_eq in E. subst. now left.
  - intros H. right. now apply IH.
Qed.

(** Looking up in the dictionary built from members with distinct names
    stored into [acc]: a member wins over an entry of [acc]. *)
Lemma dict_get_fold_members (k : key) (m : list (string * value)) :
  forall acc,
    distinct (map (fun kv => KStr (fst kv)) m) = true ->
    dict_get k (fold_left (fun d kv => dict_set (KStr (fst kv)) (snd kv) d) m acc)
    = match dict_get k (map (fun kv => (KStr (fst kv), snd kv)) m) with
      | Some v => Some v
      | None => dict_get k acc
      end.
Proof.
  induction m as [| [s v] m IH]; intros acc Hd; [reflexivity |].
  cbn [map fst snd distinct] in Hd. apply andb_true_iff in Hd.
  destruct Hd as [Hs Hd]. rewrite negb_true_iff in Hs.
  cbn [fold_left map fst snd dict_get]. rewrite (IH _ Hd).
  destruct (key_eqb k (KStr s)) eqn:E.
  - apply key_eqb_eq in E. subst k.
    assert (Hnone : dict_get (KStr s) (map (fun kv => (KStr (fst kv), snd kv)) m) = None).
    { apply dict_get_none_keys. unfold keys. rewrite map_map. exact Hs. }
    rewrite Hnone. apply dict_get_set_same.
  - destruct (dict_get k (map _ m)); [reflexivity |].
    now apply dict_get_set_other.
Qed.

(** The usage mapping of [__init__] with entries under string keys after
    it, read back: each count keeps what was recorded for it. *)
Lemma reloaded_default_finger_counts (strs : dict) (i : Z) :
  stable (VDict strs) = true -> In i FINGERS ->
  exists fc',
    reloaded (VDict (default_finger_counts ++ strs)) = VDict fc' /\
    recorded_uses fc' i = recorded_uses (default_finger_counts ++ strs) i.
Proof.
  intros Hs Hi. cbn [stable] in Hs. apply andb_true_iff in Hs.
  destruct Hs as [Hvals Hkeys]. unfold json_keys in Hkeys.
  apply andb_true_iff in Hkeys. destruct Hkeys as [Hstr Hdist].
  eexists. split; [apply reloaded_dict |]. unfold recorded_uses.
  rewrite map_app. unfold Json.dict_of_members. rewrite fold_left_app.
  rewrite dict_get_fold_members
    by (rewrite map_map; cbn [fst]; now rewrite keys_json_names).
  assert (Hmembers :
            map (fun kv => (KStr (fst kv), snd kv))
              (map (fun kv => (Json.key_name (fst kv), reloaded (snd kv))) strs)
            = strs).
  { rewrite map_map. rewrite <- (map_id strs) at 2. apply map_ext_in.
    intros [k x] Hx. cbn [fst snd]. rewrite forallb_forall in Hvals, Hstr.
    rewrite (reloaded_stable x (Hvals _ Hx)).
    assert (Hk : is_strb k = true) by (apply Hstr, (in_map fst strs _ Hx)).
    destruct k; [discriminate | reflexivity]. }
  rewrite Hmembers.
  assert (Hskip : dict_get (KStr (str i)) (default_finger_counts ++ strs)
                  = dict_get (KStr (str i)) strs) by reflexivity.
  rewrite Hskip. destruct (dict_get (KStr (str i)) strs); [reflexivity |].
  destruct Hi as [<- | [<- | [<- | [<- | [<- | []]]]]]; reflexivity.
Qed.

(** ** Loading the statistics *)

(** Whatever the statistics are, the backfill touches the usage mapping
    only, also when it raises. *)
Lemma backfill_frame (k : string) (d : dict) :
  k <> "finger_counts" ->
  dict_get (KStr k) (snd (backfill d)) = dict_get (KStr k) d.
Proof.
  intros Hk. unfold backfill. generalize FINGERS as l. intros l. revert d.
  induction l as [| i l IH]; intros d; [reflexivity |].
  cbn [for_each]. unfold bind at 1.
  set (body := (present <- nested_contains "finger_counts" (str i) ;;
                when (negb present) (set_nested "finger_counts" (str i) (VInt 0)))%stmt).
  assert (Hbody : dict_get (KStr k) (snd (body d)) = dict_get (KStr k) d).
  { subst body. cbv beta delta [bind nested_contains item lift].
    destruct (dict_item (KStr "finger_counts") d) as [c |] eqn:Ec; [| reflexivity].
    destruct (contains c (str i)) as [[] |]; cbn [negb when ret snd];
      try reflexivity.
    cbv beta delta [set_nested bind item lift set_item]. rewrite Ec.
    destruct (store c (str i) (VInt 0)) as [c' |]; [| reflexivity].
    cbn [snd]. apply dict_get_set_other. cbn [key_eqb].
    apply String.eqb_neq. exact Hk. }
  destruct (body d) as [[[] | e] d1]; cbn [snd] in *.
  - now rewrite IH.
  - exact Hbody.
Qed.

Section Loading.

Context {river : River}.

Lemma load_history_frame (files : Files) (p : AIPredictor) :
  player_stats (snd (load_history files p)) = player_stats p /\
  models (snd (load_history files p)) = models p.
Proof.
  unfold load_history.
  destruct (GAME_HISTORY_FILE files) as [[| | [l |]] |]; now split.
Qed.

Lemma load_model_frame (files : Files) (p : AIPredictor) :
  player_stats (load_model files p) = player_stats p /\
  game_history (load_model files p) = game_history p.
Proof.
  unfold load_model.
  destruct (models p), (AI_MODEL_FILE files) as [[| | model_data] |]; now split.
Qed.

(** The statistics after [load_data] are those [load_statistics] leaves,
    unless the history file could not be read. *)
Lemma load_data_player_stats (files : Files) (p : AIPredictor) :
  player_stats (load_data files p)
  = if match GAME_HISTORY_FILE files with Some Unreadable => true | _ => false end
    then player_stats p
    else player_stats (snd (load_statistics files (snd (load_history files p)))).
Proof.
  unfold load_data.
  destruct (GAME_HISTORY_FILE files) as [[| | [l |]] |] eqn:E;
    unfold load_history; rewrite E; cbn [fst snd];
    try reflexivity;
    match goal with
    | |- context [load_statistics files ?q] =>
        destruct (load_statistics files q) as [[[] | e] p2]; cbn [snd];
        [apply load_model_frame | reflexivity]
    end.
Qed.

(** What [load_data] makes of a statistics document that parses to a
    mapping. When the mapping lacks one of the required keys, the statistics
    in memory are left as they were (at construction: the zeroed defaults).
    When it has them all and is loaded (the history file, if any, could be
    read) and its usage entry is a dictionary, the statistics are the
    document's with the usage mapping backfilled: every count from 1 to 5 has
    an entry under its string key, the document's when it had one and zero
    otherwise. A usage entry that is not a dictionary is the matter of the
    theorem that follows the example. *)
Theorem load_data_statistics_document
    (files : Files) (p : AIPredictor) (document : Json.json) (loaded_stats : dict) :
  STATISTICS_FILE files = Some (Holds document) ->
  Json.load document = VDict loaded_stats ->
  ((exists k, In k required_keys /\ dict_mem (KStr k) loaded_stats = false) ->
   player_stats (load_data files p) = player_stats p) /\
  ((forall k, In k required_keys -> dict_mem (KStr k) loaded_stats = true) ->
   GAME_HISTORY_FILE files <> Some Unreadable ->
   forall fc,
     dict_get (KStr "finger_counts") loaded_stats = Some (VDict fc) ->
     exists fc',
       player_stats (load_data files p)
       = dict_set (KStr "finger_counts") (VDict fc') loaded_stats /\
       forall i, In i FINGERS ->
         dict_get (KStr (str i)) fc'
         = Some (match dict_get (KStr (str i)) fc with
                 | Some v => v
                 | None => VInt 0
                 end)).
Proof.
  intros Hfile Hdoc. rewrite load_data_player_stats. split.
  - intros (k & Hk & Hmiss).
    destruct (match GAME_HISTORY_FILE files with
              | Some Unreadable => true | _ => false end); [reflexivity |].
    unfold load_statistics. rewrite Hfile, Hdoc.
    assert (Hall : forallb (fun k => dict_mem (KStr k) loaded_stats) required_keys
                   = false).
    { apply not_true_is_false. intros Hall. rewrite forallb_forall in Hall.
      specialize (Hall k Hk). congruence. }
    rewrite Hall. cbn [snd]. apply load_history_frame.
  - intros Hall Hhist fc Hfc.
    assert (Hread : match GAME_HISTORY_FILE files with
                    | Some Unreadable => true | _ => false end = false).
    { destruct (GAME_HISTORY_FILE files) as [[| |] |]; congruence. }
    rewrite Hread. unfold load_statistics. rewrite Hfile, Hdoc.
    assert (Hall' : forallb (fun k => dict_mem (KStr k) loaded_stats) required_keys
                    = true) by (apply forallb_forall; exact Hall).
    rewrite Hall'. unfold on_player_stats. cbn [player_stats with_player_stats].
    rewrite (backfill_dict _ _ Hfc). cbn [snd player_stats with_player_stats].
    exists (backfilled fc). split; [reflexivity |].
    intros i Hi. now apply dict_get_backfilled_fingers.
Qed.

End Loading.

Lemma load_data_statistics_document_witness :
  player_stats
    (__init__ (river := untrained_river) false
       (mkFiles None (Some (Holds incomplete_document)) None))
  = default_player_stats /\
  exists fc',
    stat "finger_counts"
      (__init__ (river := untrained_river) false
         (mkFiles None (Some (Holds complete_document)) None))
    = Some (VDict fc') /\
    dict_get (KStr "2") fc' = Some (VInt 9) /\
    dict_get (KStr "5") fc' = Some (VInt 0).
Proof.
  split.
  - refine (proj1 (load_data_statistics_document
                     (mkFiles None (Some (Holds incomplete_document)) None)
                     (mkAIPredictor None [] default_player_stats default_last_predictions)
                     incomplete_document _ eq_refl eq_refl) _).
    exists "win_rate". split; [cbn; tauto | reflexivity].
  - destruct (proj2 (load_data_statistics_document
                       (mkFiles None (Some (Holds complete_document)) None)
                       (mkAIPredictor None [] default_player_stats default_last_predictions)
                       complete_document _ eq_refl eq_refl))
      with (fc := [(KStr "2", VInt 9)]) as (fc' & Hstats & Hfc').
    + intros k [<- | [<- | [<- | [<- | [<- | []]]]]]; reflexivity.
    + discriminate.
    + reflexivity.
    + exists fc'. unfold stat, __init__. rewrite Hstats. split; [reflexivity |].
      split; [apply (Hfc' 2) | apply (Hfc' 5)]; cbn; tauto.
Defined.

(** C6. A statistics document that has every required entry is accepted
    whatever its entries hold. With an empty list as its usage entry the
    document becomes the statistics of the predictor, the loop that is to
    make sure the counts 1 to 5 have an entry raises at its first assignment,
    and the handler, which announces fresh data, leaves the document in
    place: the statistics are neither the defaults nor backfilled, no count
    has an entry, and the code that reads the usage mapping afterwards
    raises, the fallback prediction as well as the update of a round. *)
Theorem load_data_keeps_unusable_finger_counts :
  fst (load_statistics (mkFiles None (Some (Holds listed_document)) None)
         (mkAIPredictor (river := untrained_river) None [] default_player_stats
            default_last_predictions))
  = Raise TypeError /\
  stat "total_rounds" listed_predictor = Some (VInt 9) /\
  stat "finger_counts" listed_predictor = Some (VList []) /\
  Forall (fun i =>
            rbind (dict_item (KStr "finger_counts") (player_stats listed_predictor))
              (fun finger_counts => fetch finger_counts (str i))
            = Raise TypeError) FINGERS /\
  fst (predict_player_behavior noon (GameState.mk (Some 1) (Some 0) (Some 0))
         listed_predictor)
  = Raise AttributeError /\
  fst (update_model noon (round_record 2 3 "odds") listed_predictor)
  = Raise TypeError.
Proof.
  split; [reflexivity |]. split; [reflexivity |]. split; [reflexivity |].
  split; [| split; reflexivity].
  repeat constructor.
Qed.

(** ** Saving, then loading *)

Lemma zero_at_eq (i : Z) (kv : key * value) :
  zero_at i kv = true -> kv = (KInt i, VInt 0).
Proof.
  destruct kv as [[z | s] v]; try discriminate.
  destruct v; try discriminate. cbn [zero_at].
  rewrite andb_true_iff, !Z.eqb_eq. now intros [-> ->].
Qed.

Lemma default_prefix_eq (d : dict) :
  default_prefix d = true -> d = default_finger_counts ++ skipn 5 d.
Proof.
  destruct d as [| k1 [| k2 [| k3 [| k4 [| k5 d]]]]]; try discriminate.
  cbn [default_prefix]. rewrite !andb_true_iff.
  intros [[[[H1 H2] H3] H4] H5].
  apply zero_at_eq in H1, H2, H3, H4, H5. now subst.
Qed.

(** What was recorded for each count survives the dump and the load of a
    storable usage mapping. *)
Lemma reloaded_finger_counts (fc : dict) (i : Z) :
  finger_counts_storable (VDict fc) = true -> In i FINGERS ->
  exists fc',
    reloaded (VDict fc) = VDict fc' /\ recorded_uses fc' i = recorded_uses fc i.
Proof.
  intros Hs Hi. unfold finger_counts_storable in Hs. apply orb_true_iff in Hs.
  destruct Hs as [Hs | Hs].
  - exists fc. split; [now apply reloaded_stable | reflexivity].
  - apply andb_true_iff in Hs. destruct Hs as [Hpre Hs].
    rewrite (default_prefix_eq fc Hpre).
    now apply reloaded_default_finger_counts.
Qed.

Section SaveLoad.

Context {river : River}.

Lemma load_statistics_frame (files : Files) (p : AIPredictor) :
  game_history (snd (load_statistics files p)) = game_history p /\
  models (snd (load_statistics files p)) = models p.
Proof.
  unfold load_statistics.
  destruct (STATISTICS_FILE files) as [[| | document] |]; try now split.
  destruct (Json.load document) as [| | | | | | loaded_stats]; try now split.
  destruct (forallb _ required_keys); [| now split].
  unfold on_player_stats. destruct (backfill _). now split.
Qed.

(** The history after [load_data] when the history file holds a list. *)
Lemma load_data_game_history (files : Files) (p : AIPredictor) (h : list Round.t) :
  GAME_HISTORY_FILE files = Some (Holds (HistoryList h)) ->
  game_history (load_data files p) = h.
Proof.
  intros Hh. unfold load_data, load_history. rewrite Hh.
  destruct (load_statistics_frame files (with_game_history p h)) as [Hg _].
  destruct (load_statistics files (with_game_history p h)) as [[[] | e] p2];
    cbn [snd] in Hg.
  - now rewrite (proj2 (load_model_frame files p2)).
  - exact Hg.
Qed.

(** The models after [load_data] when the model file, if the predictor has
    models, holds these very models. *)
Lemma load_data_models (files : Files) (p : AIPredictor) :
  (forall m, models p = Some m -> AI_MODEL_FILE files = Some (Holds m)) ->
  models (load_data files p) = models p.
Proof.
  intros Hm. unfold load_data.
  destruct (load_history_frame files p) as [_ Hm1].
  destruct (load_history files p) as [[[] | e] p1]; cbn [snd] in Hm1;
    [| exact Hm1].
  destruct (load_statistics_frame files p1) as [_ Hm2].
  destruct (load_statistics files p1) as [[[] | e] p2]; cbn [snd] in Hm2;
    [| congruence].
  unfold load_model. rewrite Hm2, Hm1.
  destruct (models p) as [m |] eqn:Em; [| congruence].
  rewrite (Hm m eq_refl). cbn. reflexivity.
Qed.

Lemma forallb_ext_in {A : Type} (f g : A -> bool) (l : list A) :
  (forall x, In x l -> f x = g x) -> forallb f l = forallb g l.
Proof.
  induction l as [| x l IH]; intros H; [reflexivity |].
  cbn [forallb]. rewrite (H x (or_introl eq_refl)), IH; [reflexivity |].
  intros y Hy. apply H. now right.
Qed.

(** For storable statistics, [load_data] right after [save_data] gives back
    the same history, the same models, every entry of the statistics but the
    usage mapping as it was, and a usage mapping in which each count from 1
    to 5 has what was recorded for it. *)
Lemma save_then_load_storable (p : AIPredictor) (files : Files) :
  storable (player_stats p) = true ->
  game_history (load_data (save_data p files) p) = game_history p /\
  models (load_data (save_data p files) p) = models p /\
  (forall features m m',
      models p = Some m -> models (load_data (save_data p files) p) = Some m' ->
      predict_try features m' = predict_try features m) /\
  (forall k, k <> "finger_counts" ->
      stat k (load_data (save_data p files) p) = stat k p) /\
  (forall fc, stat "finger_counts" p = Some (VDict fc) ->
      exists fc',
        stat "finger_counts" (load_data (save_data p files) p) = Some (VDict fc') /\
        forall i, In i FINGERS -> recorded_uses fc' i = recorded_uses fc i).
Proof.
  intros Hst.
  assert (Hmodels : models (load_data (save_data p files) p) = models p).
  { apply load_data_models. intros m Hm. unfold save_data. cbn. now rewrite Hm. }
  split; [now apply load_data_game_history |].
  split; [exact Hmodels |].
  split; [intros features m m' Hm Hm'; congruence |].
  unfold storable in Hst. apply andb_true_iff in Hst. destruct Hst as [Hkeys Hvals].
  rewrite forallb_forall in Hvals.
  set (stats := player_stats p) in *.
  set (L := map (fun kv => (fst kv, reloaded (snd kv))) stats).
  assert (Hload : Json.load (Json.dump (VDict stats)) = VDict L)
    by (apply (reloaded_json_keys stats Hkeys)).
  assert (Hother : forall k, k <> "finger_counts" ->
                     dict_get (KStr k) L = dict_get (KStr k) stats).
  { intros k Hk. subst L. rewrite dict_get_map_values.
    destruct (dict_get (KStr k) stats) as [v |] eqn:E; [| reflexivity].
    cbn [option_map]. f_equal. apply reloaded_stable.
    specialize (Hvals _ (dict_get_In _ _ _ E)). cbn [fst snd key_eqb] in Hvals.
    apply String.eqb_neq in Hk. now rewrite Hk in Hvals. }
  assert (Hstats : player_stats (load_data (save_data p files) p) = stats
                   \/ player_stats (load_data (save_data p files) p)
                      = snd (backfill L)).
  { rewrite load_data_player_stats. cbn [save_data GAME_HISTORY_FILE].
    unfold load_statistics. cbn [save_data STATISTICS_FILE]. fold stats.
    rewrite Hload. destruct (forallb _ required_keys).
    - right. unfold on_player_stats. cbn [player_stats with_player_stats].
      now destruct (backfill L).
    - left. reflexivity. }
  split.
  - intros k Hk. unfold stat. destruct Hstats as [-> | ->]; [reflexivity |].
    rewrite backfill_frame by assumption. now apply Hother.
  - intros fc Hfc. unfold stat in *. fold stats in Hfc.
    destruct Hstats as [-> | ->]; [now exists fc |].
    assert (Hfcs : finger_counts_storable (VDict fc) = true).
    { specialize (Hvals _ (dict_get_In _ _ _ Hfc)). cbn [fst snd] in Hvals.
      now rewrite key_eqb_refl in Hvals. }
    assert (HL : dict_get (KStr "finger_counts") L = Some (reloaded (VDict fc))).
    { subst L. now rewrite dict_get_map_values, Hfc. }
    rewrite reloaded_dict in HL.
    rewrite (backfill_dict _ _ HL). cbn [snd]. rewrite dict_get_set_same.
    eexists. split; [reflexivity |].
    intros i Hi. unfold recorded_uses at 1.
    rewrite (dict_get_backfilled_fingers i _ Hi).
    destruct (reloaded_finger_counts fc i Hfcs Hi) as (fc' & Hre & Huses).
    rewrite reloaded_dict in Hre. injection Hre as <-. exact Huses.
Qed.

End SaveLoad.


(** ** The prediction *)

Section Prediction.

Context {river : River}.

Lemma clamp_range (n : Z) : 1 <= clamp n <= 5.
Proof. unfold clamp. lia. Qed.

(** A prediction of the online estimators has an integer from 1 to 5 as its
    finger count, and odds or evens as its choice. *)
Lemma predict_try_range (features : Features.t) (m m' : ModelData) (q : Prediction) :
  predict_try features m = (Ok q, m') ->
  (exists n, finger_count q = VInt n /\ 1 <= n <= 5) /\
  (choice q = VStr "odds" \/ choice q = VStr "evens").
Proof.
  unfold predict_try.
  destruct (predict_one features (finger_model m)) as [[x | e] fm]; [| discriminate].
  destruct (round_float x) as [n | e]; [| discriminate].
  destruct (predict_proba_one features (choice_model m)) as [[probs | e] cm];
    [| discriminate].
  destruct probs as [| pr probs]; intros [= <- _]; cbn [finger_count choice].
  - split; [exists (clamp n); split; [reflexivity | apply clamp_range] | now left].
  - split; [exists (clamp n); split; [reflexivity | apply clamp_range] |].
    destruct (Qle_bool _ _); [now right | now left].
Qed.

(** The fallback prediction on the statistics of [__init__]. *)
Lemma _simple_prediction_default :
  _simple_prediction default_player_stats
  = Ok (mkPrediction (VInt 3) (VStr "odds") (1 # 10)).
Proof. reflexivity. Qed.

(** C8, as the code has it. With empty history and the statistics of
    [__init__], [predict_player_behavior] does not raise; its finger count is
    an integer from 1 to 5 and its choice odds or evens. Without the models
    it returns 3 fingers and odds with confidence 0.1. With the models it
    returns what the estimators answer (the regression rounded and clamped,
    odds only when its probability is above one half), and the fallback's 3
    fingers and odds when an estimator raises. *)
Theorem predict_with_empty_history
    (p : AIPredictor) (now : Clock.t) (game_state : GameState.t) :
  empty_predictor p ->
  exists q,
    fst (predict_player_behavior now game_state p) = Ok q /\
    (exists n, finger_count q = VInt n /\ 1 <= n <= 5) /\
    (choice q = VStr "odds" \/ choice q = VStr "evens") /\
    match models p with
    | None => q = mkPrediction (VInt 3) (VStr "odds") (1 # 10)
    | Some m =>
        match fst (predict_try (extract_features now game_state []) m) with
        | Ok q' => q = q'
        | Raise _ => q = mkPrediction (VInt 3) (VStr "odds") (1 # 10)
        end
    end.
Proof.
  intros [Hh Hs]. unfold predict_player_behavior. rewrite Hh.
  destruct (models p) as [m |].
  - destruct (predict_try (extract_features now game_state []) m)
      as [[q | e] m'] eqn:E; cbn [fst].
    + exists q. split; [reflexivity |].
      destruct (predict_try_range _ _ _ _ E) as [Hn Hc]. now repeat split.
    + cbn [player_stats with_models]. rewrite Hs, _simple_prediction_default.
      cbn [fst]. eexists. split; [reflexivity |].
      repeat split; [exists 3; split; [reflexivity | lia] | now left].
  - rewrite Hs, _simple_prediction_default. cbn [fst].
    eexists. split; [reflexivity |].
    repeat split; [exists 3; split; [reflexivity | lia] | now left].
Qed.

(** With the models and finite answers of the estimators, the prediction is
    computed from the answers alone. *)
Lemma predict_online_answers (p : AIPredictor) (m : ModelData) (now : Clock.t)
    (game_state : GameState.t) (x : Q) (pr : bool * Q) (probs : list (bool * Q)) :
  models p = Some m ->
  let features := extract_features now game_state (game_history p) in
  fst (predict_one features (finger_model m)) = Ok (Finite x) ->
  fst (predict_proba_one features (choice_model m)) = Ok (pr :: probs) ->
  fst (predict_player_behavior now game_state p)
  = Ok (mkPrediction (VInt (clamp (round x)))
          (if Qle_bool (proba_of_odds (pr :: probs)) (1 # 2)
           then VStr "evens" else VStr "odds")
          (Qabs (proba_of_odds (pr :: probs) - (1 # 2)) * inject_Z 2)).
Proof.
  intros Hm features Hx Hp. unfold predict_player_behavior. rewrite Hm.
  fold features. unfold predict_try.
  destruct (predict_one features (finger_model m)) as [r fm]. cbn [fst] in Hx.
  subst r. cbn [round_float].
  destruct (predict_proba_one features (choice_model m)) as [r cm]. cbn [fst] in Hp.
  subst r. reflexivity.
Qed.

End Prediction.

Lemma predict_with_empty_history_witness :
  exists q,
    fst (predict_player_behavior noon (GameState.mk (Some 1) (Some 0) (Some 0))
           degraded_predictor) = Ok q /\
    q = mkPrediction (VInt 3) (VStr "odds") (1 # 10).
Proof.
  destruct (predict_with_empty_history degraded_predictor noon
              (GameState.mk (Some 1) (Some 0) (Some 0)))
    as (q & Hq & _ & _ & Hd).
  - split; reflexivity.
  - exists q. split; [exact Hq | exact Hd].
Defined.

(** ** The statistics the program can hold *)

Lemma existsb_keys_set (a k : key) (v : value) (d : dict) :
  existsb (key_eqb a) (keys (dict_set k v d))
  = existsb (key_eqb a) (keys d) || key_eqb a k.
Proof.
  induction d as [| [k' v'] d IH]; cbn [dict_set keys map fst existsb].
  - apply orb_comm.
  - destruct (key_eqb k k') eqn:E; cbn [keys map fst existsb].
    + apply key_eqb_eq in E. subst k'. fold (keys d).
      now destruct (key_eqb a k), (existsb (key_eqb a) (keys d)).
    + fold (keys (dict_set k v d)) (keys d). rewrite IH. apply orb_assoc.
Qed.

Lemma distinct_set (k : key) (v : value) (d : dict) :
  distinct (keys d) = true -> distinct (keys (dict_set k v d)) = true.
Proof.
  induction d as [| [k' v'] d IH]; cbn [dict_set keys map fst distinct existsb];
    [reflexivity |].
  fold (keys d). intros H. apply andb_true_iff in H. destruct H as [Hk' Hd].
  destruct (key_eqb k k') eqn:E; cbn [keys map fst distinct].
  - fold (keys d). now rewrite Hk', Hd.
  - fold (keys (dict_set k v d)). rewrite existsb_keys_set, (IH Hd).
    rewrite key_eqb_sym, E, orb_false_r. now rewrite Hk'.
Qed.

Lemma forallb_dict_set (P : key * value -> bool) (k : key) (v : value) (d : dict) :
  forallb P d = true ->
  (forall k', key_eqb k k' = true -> P (k', v) = true) ->
  forallb P (dict_set k v d) = true.
Proof.
  intros Hd Hk. induction d as [| [k' v'] d IH]; cbn [dict_set forallb].
  - rewrite (Hk k (key_eqb_refl k)). reflexivity.
  - cbn [forallb] in Hd. apply andb_true_iff in Hd. destruct Hd as [Hkv Hd].
    destruct (key_eqb k k') eqn:E; cbn [forallb].
    + now rewrite (Hk k' E), Hd.
    + now rewrite Hkv, (IH Hd).
Qed.

Lemma json_keys_set (s : string) (v : value) (d : dict) :
  json_keys d = true -> json_keys (dict_set (KStr s) v d) = true.
Proof.
  unfold json_keys. rewrite !andb_true_iff. intros [Hstr Hdist].
  split; [| now apply distinct_set].
  clear Hdist. induction d as [| [k' v'] d IH]; [reflexivity |].
  cbn [keys map fst forallb] in Hstr. apply andb_true_iff in Hstr.
  destruct Hstr as [Hk' Hstr]. cbn [dict_set].
  destruct (key_eqb (KStr s) k'); cbn [keys map fst forallb].
  - now rewrite Hk'.
  - rewrite Hk'. now apply IH.
Qed.

Lemma stable_dict_set (s : string) (v : value) (d : dict) :
  stable (VDict d) = true -> stable v = true ->
  stable (VDict (dict_set (KStr s) v d)) = true.
Proof.
  cbn [stable]. rewrite !andb_true_iff. intros [Hvals Hkeys] Hv.
  split; [| now apply json_keys_set].
  now apply forallb_dict_set.
Qed.

Lemma finger_counts_storable_set (s : string) (v : value) (d : dict) :
  finger_counts_storable (VDict d) = true -> stable v = true ->
  finger_counts_storable (VDict (dict_set (KStr s) v d)) = true.
Proof.
  unfold finger_counts_storable. rewrite !orb_true_iff. intros [Hs | Hs] Hv.
  - left. now apply stable_dict_set.
  - right. apply andb_true_iff in Hs. destruct Hs as [Hpre Hs].
    rewrite (default_prefix_eq d Hpre).
    change (dict_set (KStr s) v (default_finger_counts ++ skipn 5 d))
      with (default_finger_counts ++ dict_set (KStr s) v (skipn 5 d)).
    cbn [default_finger_counts app default_prefix zero_at Z.eqb Pos.eqb andb skipn].
    now apply stable_dict_set.
Qed.

(** The entry of storable statistics under a key. *)
Lemma storable_get (k : string) (v : value) (d : dict) :
  storable d = true -> dict_get (KStr k) d = Some v ->
  if String.eqb k "finger_counts" then finger_counts_storable v = true
  else stable v = true.
Proof.
  unfold storable. rewrite andb_true_iff, forallb_forall. intros [_ Hvals] Hget.
  specialize (Hvals _ (dict_get_In _ _ _ Hget)). cbn [fst snd key_eqb] in Hvals.
  now destruct (String.eqb k "finger_counts").
Qed.

Lemma storable_set (k : string) (v : value) (d : dict) :
  storable d = true ->
  (if String.eqb k "finger_counts" then finger_counts_storable v = true
   else stable v = true) ->
  storable (dict_set (KStr k) v d) = true.
Proof.
  unfold storable. rewrite !andb_true_iff. intros [Hkeys Hvals] Hv.
  split; [now apply json_keys_set |].
  apply forallb_dict_set; [exact Hvals |].
  intros k' E. apply key_eqb_eq in E. subst k'. cbn [fst snd key_eqb].
  now destruct (String.eqb k "finger_counts").
Qed.

Lemma add_int_stable (v v' : value) (n : Z) :
  add_int v n = Ok v' -> stable v' = true.
Proof. destruct v; cbn; try discriminate; now intros [= <-]. Qed.

Lemma true_div_stable (n : Z) (v v' : value) :
  true_div n v = Ok v' -> stable v' = true.
Proof.
  unfold true_div. destruct (num_of v) as [q |]; [| discriminate].
  destruct (Qeq_bool q 0); [discriminate | now intros [= <-]].
Qed.

Lemma finger_counts_storable_stable (v : value) :
  stable v = true -> finger_counts_storable v = true.
Proof. unfold finger_counts_storable. now intros ->. Qed.

Lemma preserves_bind {A B : Type} (c : stmt dict A) (k : A -> stmt dict B) :
  preserves c -> (forall a, preserves (k a)) -> preserves (bind c k).
Proof.
  intros Hc Hk d Hd. unfold bind. specialize (Hc d Hd).
  destruct (c d) as [[a | e] d']; cbn [snd] in *; [now apply Hk | exact Hc].
Qed.

Lemma preserves_lift {A : Type} (r : result A) : preserves (lift r).
Proof. now intros d Hd. Qed.

Lemma preserves_item (k : string) : preserves (item k).
Proof. now intros d Hd. Qed.

Lemma preserves_when (b : bool) (c : stmt dict unit) :
  preserves c -> preserves (when b c).
Proof. intros Hc. destruct b; [exact Hc | now intros d Hd]. Qed.

Lemma preserves_for_each {A : Type} (l : list A) (body : A -> stmt dict unit) :
  (forall x, preserves (body x)) -> preserves (for_each l body).
Proof.
  intros Hbody. induction l as [| x l IH]; [now intros d Hd |].
  cbn [for_each]. apply preserves_bind; [apply Hbody | intros _; exact IH].
Qed.

Lemma preserves_incr_item (k : string) :
  k <> "finger_counts" -> preserves (incr_item k).
Proof.
  intros Hk d Hd. unfold incr_item, bind, item, lift, set_item.
  destruct (dict_item (KStr k) d) as [v |]; [| exact Hd].
  destruct (add_int v 1) as [v' |] eqn:E; [| exact Hd].
  cbn [snd]. apply storable_set; [exact Hd |].
  apply String.eqb_neq in Hk. rewrite Hk. exact (add_int_stable _ _ _ E).
Qed.

(** Storing a stable value under a string key of a nested dictionary. *)
Lemma storable_store (k s : string) (c c' v : value) (d : dict) :
  storable d = true -> dict_item (KStr k) d = Ok c -> stable v = true ->
  store c s v = Ok c' ->
  storable (dict_set (KStr k) c' d) = true.
Proof.
  intros Hd Hc Hv Hstore. unfold dict_item in Hc.
  destruct (dict_get (KStr k) d) as [c0 |] eqn:Eg; [| discriminate].
  injection Hc as ->. pose proof (storable_get _ _ _ Hd Eg) as Hk.
  destruct c as [| | | | | | dc]; try discriminate. cbn [store] in Hstore.
  injection Hstore as <-. apply storable_set; [exact Hd |].
  destruct (String.eqb k "finger_counts").
  - now apply finger_counts_storable_set.
  - now apply stable_dict_set.
Qed.

Lemma preserves_set_nested (k s : string) (v : value) :
  stable v = true -> preserves (set_nested k s v).
Proof.
  intros Hv d Hd. unfold set_nested, bind, item, lift, set_item.
  destruct (dict_item (KStr k) d) as [c |] eqn:Ec; [| exact Hd].
  destruct (store c s v) as [c' |] eqn:Es; [| exact Hd].
  cbn [snd]. exact (storable_store _ _ _ _ _ _ Hd Ec Hv Es).
Qed.

Lemma preserves_incr_nested (k s : string) : preserves (incr_nested k s).
Proof.
  intros d Hd. unfold incr_nested, bind, item, lift, set_item.
  destruct (dict_item (KStr k) d) as [c |] eqn:Ec; [| exact Hd].
  destruct (fetch c s) as [v |]; [| exact Hd].
  destruct (add_int v 1) as [v' |] eqn:Ea; [| exact Hd].
  destruct (store c s v') as [c' |] eqn:Es; [| exact Hd].
  cbn [snd].
  exact (storable_store _ _ _ _ _ _ Hd Ec (add_int_stable _ _ _ Ea) Es).
Qed.

Lemma preserves_nested_contains (k s : string) : preserves (nested_contains k s).
Proof.
  unfold nested_contains. apply preserves_bind; [apply preserves_item |].
  intros c. apply preserves_lift.
Qed.

Lemma preserves_backfill : preserves backfill.
Proof.
  unfold backfill. apply preserves_for_each. intros i.
  apply preserves_bind; [apply preserves_nested_contains |].
  intros present. apply preserves_when. now apply preserves_set_nested.
Qed.

Lemma preserves_update_statistics (h : list Round.t) (g : Round.t) :
  preserves (_update_statistics h g).
Proof.
  unfold _update_statistics.
  apply preserves_bind; [now apply preserves_incr_item |]. intros _.
  apply preserves_bind.
  { apply preserves_when.
    apply preserves_bind; [apply preserves_nested_contains |]. intros present.
    apply preserves_bind; [apply preserves_when; now apply preserves_set_nested |].
    intros _. apply preserves_incr_nested. }
  intros _.
  apply preserves_bind; [apply preserves_when, preserves_incr_nested |]. intros _.
  apply preserves_bind; [apply preserves_when; now apply preserves_incr_item |].
  intros _.
  apply preserves_bind; [apply preserves_item |]. intros total_rounds.
  apply preserves_bind; [apply preserves_lift |]. intros positive.
  apply preserves_bind.
  { apply preserves_when. intros d Hd. unfold bind, lift, set_item.
    destruct (true_div _ total_rounds) as [rate |] eqn:E; [| exact Hd].
    cbn [snd]. apply storable_set; [exact Hd |]. exact (true_div_stable _ _ _ E). }
  intros _.
  apply preserves_bind; [apply preserves_item |]. intros win_rate.
  apply preserves_lift.
Qed.

Lemma stable_fold_members (m : list (string * value)) :
  forall acc,
    stable (VDict acc) = true ->
    Forall (fun kv => stable (snd kv) = true) m ->
    stable (VDict (fold_left (fun d kv => dict_set (KStr (fst kv)) (snd kv) d) m acc))
    = true.
Proof.
  induction m as [| [s v] m IH]; intros acc Hacc Hm; [exact Hacc |].
  inversion Hm as [| ? ? Hv Hm']; subst. cbn [fold_left fst snd].
  apply IH; [| exact Hm']. now apply stable_dict_set.
Qed.

(** What [json.load] returns is stable. *)
Lemma load_stable (j : Json.json) : stable (Json.load j) = true.
Proof.
  induction j as [| b | z | q | s | l IH | m IH] using json_rect'; try reflexivity.
  - cbn [Json.load stable]. apply forallb_forall. intros v Hv.
    apply in_map_iff in Hv. destruct Hv as (x & <- & Hx).
    rewrite Forall_forall in IH. now apply IH.
  - cbn [Json.load]. unfold Json.dict_of_members.
    apply stable_fold_members; [reflexivity |].
    apply Forall_forall. intros [s v] Hv. apply in_map_iff in Hv.
    destruct Hv as ([s' x] & [= <- <-] & Hx). cbn [snd].
    rewrite Forall_forall in IH. exact (IH _ Hx).
Qed.

Lemma stable_storable (d : dict) : stable (VDict d) = true -> storable d = true.
Proof.
  cbn [stable]. unfold storable. rewrite !andb_true_iff. intros [Hvals Hkeys].
  split; [exact Hkeys |]. rewrite forallb_forall in *. intros kv Hkv.
  specialize (Hvals kv Hkv).
  destruct (key_eqb (fst kv) (KStr "finger_counts"));
    [now apply finger_counts_storable_stable | exact Hvals].
Qed.

Section Reachable.

Context {river : River}.

Lemma load_data_storable (files : Files) (p : AIPredictor) :
  storable (player_stats p) = true ->
  storable (player_stats (load_data files p)) = true.
Proof.
  intros Hp. rewrite load_data_player_stats.
  destruct (match GAME_HISTORY_FILE files with
            | Some Unreadable => true | _ => false end); [exact Hp |].
  pose proof (proj1 (load_history_frame files p)) as Hh.
  set (p1 := snd (load_history files p)) in *.
  unfold load_statistics.
  destruct (STATISTICS_FILE files) as [[| | document] |];
    cbn [snd]; try (rewrite Hh; exact Hp).
  pose proof (load_stable document) as Hdoc.
  destruct (Json.load document) as [| | | | | | loaded_stats];
    cbn [snd]; try (rewrite Hh; exact Hp).
  destruct (forallb _ required_keys); cbn [snd]; [| rewrite Hh; exact Hp].
  unfold on_player_stats. cbn [player_stats with_player_stats].
  pose proof (preserves_backfill loaded_stats (stable_storable _ Hdoc)) as Hb.
  now destruct (backfill loaded_stats).
Qed.

Lemma update_model_player_stats (now : Clock.t) (g : Round.t) (p : AIPredictor) :
  player_stats (snd (update_model now g p))
  = snd (_update_statistics (game_history p) g (player_stats p)).
Proof.
  unfold update_model. destruct (models p) as [m |].
  - unfold bind, on_player_stats. cbn.
    now destruct (_update_statistics _ _ _) as [[[] | e] d].
  - unfold on_player_stats. now destruct (_update_statistics _ _ _).
Qed.

Lemma predict_player_stats (now : Clock.t) (gs : GameState.t) (p : AIPredictor) :
  player_stats (snd (predict_player_behavior now gs p)) = player_stats p.
Proof.
  unfold predict_player_behavior. destruct (models p) as [m |]; [| reflexivity].
  destruct (predict_try _ m) as [[q | e] m']; [reflexivity |].
  cbn. now destruct (_simple_prediction _).
Qed.

(** The statistics of a predictor are always storable. *)
Lemma reachable_storable (p : AIPredictor) :
  reachable p -> storable (player_stats p) = true.
Proof.
  induction 1 as [avail files | p now gs _ IH | p now g _ IH | p files _ IH | p _ IH].
  - unfold __init__. now apply load_data_storable.
  - now rewrite predict_player_stats.
  - rewrite update_model_player_stats. now apply preserves_update_statistics.
  - now apply load_data_storable.
  - reflexivity.
Qed.

End Reachable.

(** ** Saving, then loading, in any state *)

Section SaveLoadReachable.

Context {river : River}.

(** C7. In every state of a predictor, [load_data] right after [save_data]
    (every file written) gives back the same history, hence one of the same
    length; the same models, hence the same answer of the estimators on
    every feature vector; every entry of the statistics but the usage mapping
    as it was (totals, choice counts, win rate); and a usage mapping in which
    each count from 1 to 5 has what was recorded for it. *)
Theorem save_then_load (p : AIPredictor) (files : Files) :
  reachable p ->
  List.length (game_history (load_data (save_data p files) p))
    = List.length (game_history p) /\
  game_history (load_data (save_data p files) p) = game_history p /\
  models (load_data (save_data p files) p) = models p /\
  (forall features m m',
      models p = Some m -> models (load_data (save_data p files) p) = Some m' ->
      fst (predict_try features m') = fst (predict_try features m)) /\
  (forall k, k <> "finger_counts" ->
      stat k (load_data (save_data p files) p) = stat k p) /\
  (forall fc, stat "finger_counts" p = Some (VDict fc) ->
      exists fc',
        stat "finger_counts" (load_data (save_data p files) p) = Some (VDict fc') /\
        forall i, In i FINGERS -> recorded_uses fc' i = recorded_uses fc i).
Proof.
  intros Hp.
  destruct (save_then_load_storable p files (reachable_storable p Hp))
    as (Hh & Hm & Hpred & Hother & Hfc).
  split; [now rewrite Hh |]. split; [exact Hh |]. split; [exact Hm |].
  split; [| now split].
  intros features m m' Hm1 Hm2. now rewrite (Hpred features m m' Hm1 Hm2).
Qed.

End SaveLoadReachable.

Lemma save_then_load_witness :
  let p := snd (play [(noon, round_record 4 2 "evens"); (noon, round_record 2 3 "odds")]
                  online_predictor) in
  game_history (load_data (save_data p no_files) p) = game_history p /\
  stat "win_rate" (load_data (save_data p no_files) p) = stat "win_rate" p /\
  exists fc',
    stat "finger_counts" (load_data (save_data p no_files) p) = Some (VDict fc') /\
    recorded_uses fc' 2 = VInt 1 /\ recorded_uses fc' 3 = VInt 0.
Proof.
  intros p.
  assert (Hp : reachable p).
  { apply (reachable_update
             (snd (update_model noon (round_record 4 2 "evens") online_predictor))
             noon (round_record 2 3 "odds")).
    apply (reachable_update online_predictor noon (round_record 4 2 "evens")).
    apply (reachable_init true no_files). }
  destruct (save_then_load p no_files Hp) as (_ & H1 & _ & _ & H4 & H5).
  split; [exact H1 |]. split; [apply H4; discriminate |].
  destruct (H5 (default_finger_counts ++ [(KStr "4", VInt 1); (KStr "2", VInt 1)])
              eq_refl) as (fc' & Hfc' & Huses).
  exists fc'. split; [exact Hfc' |].
  split; [apply (Huses 2) | apply (Huses 3)]; cbn; tauto.
Defined.

(** * Further properties *)

(** ** The robot's number and the round it decides *)

(** The parity of the sum of an integer prediction and the selector's
    answer: odd exactly when the predicted choice is not odds. *)
Lemma get_robot_strategy_parity (r : nat) (n : Z) (pc : value) :
  Z.odd (n + get_robot_strategy r (VInt n) pc) = negb (eq_str pc "odds").
Proof.
  unfold get_robot_strategy, get_robot_strategy_try.
  rewrite good_choices_int. cbn [rbind].
  set (target := negb (eq_str pc "odds")). rewrite Z.odd_add.
  destruct (Z.odd n) eqn:En, target eqn:Et; cbn [Bool.eqb].
  - pose proof (random_choice_In r [2; 4] 0 ltac:(discriminate)) as Hin.
    destruct Hin as [E | [E | []]]; rewrite <- E; reflexivity.
  - pose proof (random_choice_In r [1; 3; 5] 0 ltac:(discriminate)) as Hin.
    destruct Hin as [E | [E | [E | []]]]; rewrite <- E; reflexivity.
  - pose proof (random_choice_In r [1; 3; 5] 0 ltac:(discriminate)) as Hin.
    destruct Hin as [E | [E | [E | []]]]; rewrite <- E; reflexivity.
  - pose proof (random_choice_In r [2; 4] 0 ltac:(discriminate)) as Hin.
    destruct Hin as [E | [E | []]]; rewrite <- E; reflexivity.
Qed.

Lemma validated_valid (r2 : nat) (n : Z) : In n FINGERS -> validated r2 n = n.
Proof.
  intros Hn. unfold validated.
  destruct (existsb (Z.eqb n) FINGERS) eqn:E; [reflexivity |].
  cbn in Hn. cbn in E. repeat rewrite orb_false_iff in E.
  repeat rewrite Z.eqb_neq in E. lia.
Qed.

Section EngineFacts.

Context {river : River}.

(** What the selector part of the countdown start returns, whether the
    prediction returned or raised: a number from 1 to 5 that makes the sum
    with the predicted count even against odds and odd otherwise. *)
Lemma start_countdown_sequence_number r1 r2 now gs (p : AIPredictor) :
  let '(number, prediction, _) := start_countdown_sequence r1 r2 now gs p in
  In number FINGERS /\
  forall n, finger_count prediction = VInt n ->
    Z.odd (n + number) = negb (eq_str (choice prediction) "odds").
Proof.
  unfold start_countdown_sequence.
  destruct (predict_player_behavior now gs p) as [[q | e] p'].
  - rewrite validated_valid by apply get_robot_strategy_valid.
    split; [apply get_robot_strategy_valid |].
    intros n Hn. rewrite Hn. apply get_robot_strategy_parity.
  - split; [cbn; tauto |]. cbn. intros n [= <-]. reflexivity.
Qed.

(** The start of a countdown leaves the score, the flags of the game and
    the player's choice as they are. *)
Lemma start_countdown_sequence_frame r1 r2 now (e : Engine.t) :
  let e' := Engine.start_countdown_sequence r1 r2 now e in
  Engine.player_wins e' = Engine.player_wins e /\
  Engine.robot_wins e' = Engine.robot_wins e /\
  Engine.game_over e' = Engine.game_over e /\
  Engine.game_active e' = Engine.game_active e /\
  Engine.max_rounds e' = Engine.max_rounds e /\
  Engine.player_choice e' = Engine.player_choice e /\
  Engine.current_round e' = Engine.current_round e /\
  Engine.countdown_active e' = true.
Proof.
  unfold Engine.start_countdown_sequence.
  destruct (start_countdown_sequence _ _ _ _ _) as [[number prediction] p'].
  cbn. now repeat split.
Qed.

(** The robot's number and the prediction the start of a countdown leaves
    in the engine. *)
Lemma engine_countdown_number r1 r2 now (e : Engine.t) :
  let e' := Engine.start_countdown_sequence r1 r2 now e in
  In (Engine.robot_number e') FINGERS /\
  exists q,
    Engine.ai_prediction e' = Some q /\
    forall n, finger_count q = VInt n ->
      Z.odd (n + Engine.robot_number e') = negb (eq_str (choice q) "odds").
Proof.
  unfold Engine.start_countdown_sequence.
  pose proof (start_countdown_sequence_number r1 r2 now
                (Engine.get_game_state (Engine.set_countdown_active true e))
                (Engine.ai_predictor (Engine.set_countdown_active true e))) as Hn.
  destruct (start_countdown_sequence _ _ _ _ _) as [[number prediction] p'].
  destruct Hn as [Hin Hpar].
  cbn. split; [exact Hin |]. exists prediction; now split.
Qed.

(** X1. In every state of the engine, the start of a countdown leaves a
    robot number from 1 to 5 and records a prediction, whether the predictor
    returns or raises; when the predicted count is an integer, its sum with
    the robot's number is even if the predicted choice is odds and odd
    otherwise. The countdown flag is raised; the score, the round number and
    the player's choice are left as they are. *)
Theorem countdown_start_robot_number (r1 r2 : nat) (now : Clock.t) (e : Engine.t) :
  let e' := Engine.start_countdown_sequence r1 r2 now e in
  In (Engine.robot_number e') [1; 2; 3; 4; 5] /\
  (exists q,
      Engine.ai_prediction e' = Some q /\
      forall n, finger_count q = VInt n ->
        Z.odd (n + Engine.robot_number e') = negb (eq_str (choice q) "odds")) /\
  Engine.countdown_active e' = true /\
  Engine.player_wins e' = Engine.player_wins e /\
  Engine.robot_wins e' = Engine.robot_wins e /\
  Engine.player_choice e' = Engine.player_choice e /\
  Engine.current_round e' = Engine.current_round e.
Proof.
  intros e'.
  destruct (engine_countdown_number r1 r2 now e) as [Hin Hq].
  destruct (start_countdown_sequence_frame r1 r2 now e)
    as (Hpw & Hrw & _ & _ & _ & Hpc & Hcr & Hca).
  repeat split; assumption.
Qed.

(** The score and the record a round leaves, whether or not the predictor
    raises. *)
Lemma process_round_result_engine timestamp now (w : Engine.World) :
  let e := Engine.engine w in
  let e' := Engine.engine (snd (Engine._process_round_result timestamp now w)) in
  let total := Engine.finger_count e + Engine.robot_number e in
  let won := Engine.player_wins_round_of total (Engine.player_choice e) in
  Engine.player_wins e' = Engine.player_wins e + Z.b2z won /\
  Engine.robot_wins e' = Engine.robot_wins e + Z.b2z (negb won) /\
  Engine.game_over e'
    = Engine.game_over e
      || ((2 <=? Engine.player_wins e') || (2 <=? Engine.robot_wins e')) /\
  Engine.max_rounds e' = Engine.max_rounds e /\
  exists round_data,
    Engine.last_round_data e' = Some round_data /\
    Round.total round_data = total /\
    Round.is_odd round_data = Z.odd total /\
    Round.player_won_round round_data = Some won /\
    Round.player_fingers round_data = Some (Engine.finger_count e) /\
    Round.robot_fingers round_data = Engine.robot_number e /\
    Round.player_choice round_data = Some (Engine.player_choice e) /\
    Round.current_round round_data = Some (Engine.current_round e) /\
    Round.ai_prediction round_data = Engine.ai_prediction e /\
    Round.player_wins round_data = Engine.player_wins e' /\
    Round.robot_wins round_data = Engine.robot_wins e' /\
    Round.game_finished round_data
      = Some ((2 <=? Engine.player_wins e') || (2 <=? Engine.robot_wins e')).
Proof.
  destruct w as [e d]. cbn [Engine.engine]. unfold Engine._process_round_result.
  cbn [Engine.engine Engine.disk].
  set (won := Engine.player_wins_round_of _ _).
  rewrite mod2_odd.
  destruct e. cbn. destruct won; cbn;
    match goal with
    | |- context [if ?b then _ else _] => destruct b eqn:Eover
    end; cbn;
    match goal with
    | |- context [update_model ?n ?g ?p] => destruct (update_model n g p) as [[[] | ex] p']
    end; cbn; rewrite ?Eover, ?Z.add_0_r, ?orb_true_r, ?orb_false_r;
    (split; [reflexivity |]); (split; [reflexivity |]);
    (split; [reflexivity |]); (split; [reflexivity |]);
    eexists; repeat split; cbn; rewrite ?Eover; reflexivity.
Qed.

End EngineFacts.

Lemma player_wins_round_of_eqb (total : Z) (c : string) :
  Engine.player_wins_round_of total c
  = Bool.eqb (Z.odd total) (String.eqb c "odds").
Proof.
  unfold Engine.player_wins_round_of. rewrite mod2_odd.
  now destruct (Z.odd total), (String.eqb c "odds").
Qed.

Section EngineRounds.

Context {river : River}.

(** X2. A round gives one point to exactly one side: to the player when the
    total of the two hands is odd and the choice is odds, or when the total
    is even and the choice is not odds; to the robot otherwise. The game is
    over from the moment a side has two points. The record left for the
    display holds the two hands, the total, its parity, the choice, the
    winner and the score after the round. When the predictor has taken the
    record the result is shown and the data files are written from the
    predictor; when the predictor raises, the files are left as they are. *)
Theorem round_result_scores_one_side (timestamp : string) (now : Clock.t)
    (w : Engine.World) :
  let e := Engine.engine w in
  let w' := snd (Engine._process_round_result timestamp now w) in
  let e' := Engine.engine w' in
  let total := Engine.finger_count e + Engine.robot_number e in
  let won := Bool.eqb (Z.odd total) (String.eqb (Engine.player_choice e) "odds") in
  Engine.player_wins e' = Engine.player_wins e + Z.b2z won /\
  Engine.robot_wins e' = Engine.robot_wins e + Z.b2z (negb won) /\
  Engine.game_over e'
    = Engine.game_over e
      || ((2 <=? Engine.player_wins e') || (2 <=? Engine.robot_wins e')) /\
  (exists round_data,
      Engine.last_round_data e' = Some round_data /\
      Round.player_fingers round_data = Some (Engine.finger_count e) /\
      Round.robot_fingers round_data = Engine.robot_number e /\
      Round.total round_data = total /\
      Round.is_odd round_data = Z.odd total /\
      Round.player_choice round_data = Some (Engine.player_choice e) /\
      Round.player_won_round round_data = Some won /\
      Round.player_wins round_data = Engine.player_wins e' /\
      Round.robot_wins round_data = Engine.robot_wins e' /\
      Round.game_finished round_data
        = Some ((2 <=? Engine.player_wins e') || (2 <=? Engine.robot_wins e')) /\
      Engine.ai_predictor e'
        = snd (update_model now round_data (Engine.ai_predictor e))) /\
  match fst (Engine._process_round_result timestamp now w) with
  | Ok _ =>
      Engine.show_result e' = true /\
      Engine.waiting_for_next_round e' = true /\
      Engine.disk w' = save_data (Engine.ai_predictor e') (Engine.disk w)
  | Raise _ =>
      Engine.show_result e' = Engine.show_result e /\
      Engine.waiting_for_next_round e' = Engine.waiting_for_next_round e /\
      Engine.disk w' = Engine.disk w
  end.
Proof.
  destruct w as [e d]. cbn [Engine.engine]. unfold Engine._process_round_result.
  cbn [Engine.engine Engine.disk].
  rewrite player_wins_round_of_eqb, mod2_odd.
  set (won := Bool.eqb _ _).
  destruct e. cbn. destruct won; cbn;
    match goal with
    | |- context [if ?b then _ else _] => destruct b eqn:Eover
    end; cbn;
    match goal with
    | |- context [update_model ?n ?g ?p] =>
        destruct (update_model n g p) as [[[] | ex] p'] eqn:Eupdate
    end; cbn; rewrite ?Eover, ?Z.add_0_r, ?orb_true_r, ?orb_false_r;
    (split; [reflexivity |]); (split; [reflexivity |]);
    (split; [reflexivity |]);
    (split; [| now repeat split]);
    eexists; (split; [reflexivity |]); cbn; rewrite ?Eover, ?Eupdate;
    repeat split; reflexivity.
Qed.


(** X3. When the round goes as the robot expected, the robot wins it: if
    the player shows the predicted number of fingers and has made the
    predicted choice, the round that follows a countdown start gives the
    point to the robot, whatever the draws of the random generator. *)
Theorem right_prediction_robot_wins (r1 r2 : nat) (now now' : Clock.t)
    (timestamp : string) (e e2 : Engine.t) (files : Files) (q : Prediction)
    (n : Z) :
  let e1 := Engine.start_countdown_sequence r1 r2 now e in
  Engine.ai_prediction e1 = Some q ->
  finger_count q = VInt n ->
  choice q = VStr (Engine.player_choice e) ->
  Engine.finger_count e2 = n ->
  Engine.robot_number e2 = Engine.robot_number e1 ->
  Engine.player_choice e2 = Engine.player_choice e ->
  let e' :=
    Engine.engine
      (snd (Engine._process_round_result timestamp now' (Engine.mkWorld e2 files))) in
  Engine.robot_wins e' = Engine.robot_wins e2 + 1 /\
  Engine.player_wins e' = Engine.player_wins e2 /\
  exists round_data,
    Engine.last_round_data e' = Some round_data /\
    Round.player_won_round round_data = Some false.
Proof.
  intros e1 Hq Hn Hc Hf Hr Hp e'.
  destruct (engine_countdown_number r1 r2 now e) as [_ (q' & Hq' & Hpar)].
  fold e1 in Hq', Hpar. rewrite Hq in Hq'. injection Hq' as <-.
  specialize (Hpar n Hn). rewrite Hc in Hpar. cbn [eq_str] in Hpar.
  destruct (process_round_result_engine timestamp now' (Engine.mkWorld e2 files))
    as (Hpw & Hrw & _ & _ & round_data & Hlast & _ & _ & Hwon & _).
  cbn [Engine.engine] in Hpw, Hrw, Hlast, Hwon. fold e' in Hpw, Hrw, Hlast.
  rewrite player_wins_round_of_eqb, Hf, Hr, Hp, Hpar in Hpw, Hrw, Hwon.
  rewrite Bool.eqb_negb1 in Hpw, Hrw, Hwon. cbn in Hpw, Hrw.
  split; [exact Hrw |]. split; [lia |].
  exists round_data. now split.
Qed.


End EngineRounds.

Lemma right_prediction_robot_wins_witness :
  let e1 := Engine.start_countdown_sequence 0 0 noon evens_engine in
  let e' :=
    Engine.engine
      (snd (Engine._process_round_result "2024-01-01T12:00:00" noon
              (Engine.mkWorld (Engine.set_finger_count 1 e1) no_files))) in
  Engine.robot_wins e' = 1 /\ Engine.player_wins e' = 0.
Proof.
  intros e1 e'.
  destruct (right_prediction_robot_wins 0 0 noon noon "2024-01-01T12:00:00"
              evens_engine (Engine.set_finger_count 1 e1) no_files
              (match Engine.ai_prediction e1 with
               | Some q => q
               | None => default_last_predictions
               end) 1) as (H1 & H2 & _); try reflexivity.
  split; [exact H1 | exact H2].
Defined.


(** ** The game: keys, frames and the score *)

Section EngineGame.

Context {river : River}.

(** The keys O and E change nothing but the choice. *)
Lemma choose_frame (key : Z) (e : Engine.t) :
  Engine.set_player_choice (Engine.player_choice (Engine.choose key e)) e
  = Engine.choose key e.
Proof.
  unfold Engine.choose.
  destruct (negb (Engine.countdown_active e) && negb (Engine.finger_detection_phase e)),
    (Engine.is_key_odds key), (Engine.is_key_evens key); now destruct e.
Qed.

(** The fingers counted in a frame change nothing but the finger count. *)
Lemma count_hands_frame (hands : list (list Hand.Landmark)) :
  forall e e' : Engine.t,
    Engine.count_hands hands e = Some e' ->
    Engine.set_finger_count (Engine.finger_count e') e = e'.
Proof.
  induction hands as [| landmarks hands IH]; intros e e' H; cbn in H.
  - injection H as <-. now destruct e.
  - destruct (Engine.game_active e
              && (negb (Engine.show_result e) || Engine.finger_detection_phase e)).
    + destruct (Hand.count_fingers landmarks) as [[detected_count flags] |];
        [| discriminate].
      apply IH in H. rewrite <- H. now destruct e.
    + now apply IH.
Qed.

Lemma score_after_same (n : nat) (e e' : Engine.t) :
  score_after n e ->
  Engine.player_wins e' = Engine.player_wins e ->
  Engine.robot_wins e' = Engine.robot_wins e ->
  Engine.game_over e' = Engine.game_over e ->
  Engine.max_rounds e' = Engine.max_rounds e ->
  score_after n e'.
Proof.
  unfold score_after. intros H -> -> -> ->. exact H.
Qed.

Lemma score_after_reset (n : nat) (e : Engine.t) :
  score_after n e -> score_after 0 (Engine.reset_game e).
Proof.
  intros (_ & _ & _ & _ & Hmax). unfold score_after. cbn. now repeat split.
Qed.

Lemma score_after_countdown (n : nat) r1 r2 now (e : Engine.t) :
  score_after n e -> score_after n (Engine.start_countdown_sequence r1 r2 now e).
Proof.
  intros H.
  destruct (start_countdown_sequence_frame r1 r2 now e)
    as (Hpw & Hrw & Hover & _ & Hmax & _).
  now apply (score_after_same n e).
Qed.

Lemma score_after_choose (n : nat) key (e : Engine.t) :
  score_after n e -> score_after n (Engine.choose key e).
Proof.
  intros H. rewrite <- choose_frame. now apply (score_after_same n e).
Qed.

Lemma score_after_key (n : nat) r1 r2 now key (e : Engine.t) :
  score_after n e ->
  score_after (if Engine.resets key e then 0%nat else n)
    (snd (Engine.handle_keypress r1 r2 now key e)).
Proof.
  intros H. unfold Engine.handle_keypress, Engine.resets.
  destruct (key =? Engine.KEY_Q); cbn [negb andb snd]; [exact H |].
  destruct (key =? Engine.KEY_ESC); cbn [orb snd];
    [now apply (score_after_reset n) |].
  destruct (key =? Engine.KEY_SPACE); cbn [andb];
    [| now apply score_after_choose].
  destruct (Engine.game_over e) eqn:Eover; cbn [orb snd];
    [now apply (score_after_reset n) |].
  destruct (Engine.game_active e) eqn:Eactive; cbn [negb snd].
  - destruct (Engine.waiting_for_next_round e); cbn [snd];
      [| now apply score_after_choose].
    apply score_after_countdown. now apply (score_after_same n e).
  - apply score_after_countdown.
    apply (score_after_same 0 (Engine.reset_game e));
      [now apply (score_after_reset n) | reflexivity ..].
Qed.

Lemma score_after_round (n : nat) timestamp now (w : Engine.World) :
  score_after n (Engine.engine w) ->
  score_after (S n)
    (Engine.engine (snd (Engine._process_round_result timestamp now w))).
Proof.
  intros (Hsum & Hpw & Hrw & Hover & Hmax).
  destruct (process_round_result_engine timestamp now w)
    as (Hpw' & Hrw' & Hover' & Hmax' & _).
  unfold score_after. rewrite Hover', Hover, Hpw', Hrw', Hmax'.
  destruct (Engine.player_wins_round_of _ _); cbn [Z.b2z negb];
    (split; [lia |]); (split; [lia |]); (split; [lia |]);
    (split; [| exact Hmax]);
    repeat match goal with
           | |- context [?a <=? ?b] => destruct (Z.leb_spec a b)
           end; try reflexivity; lia.
Qed.

Lemma score_after_frame (n : nat) timestamp now hands (w w' : Engine.World) :
  score_after n (Engine.engine w) ->
  Engine.process_frame timestamp now hands w = Some w' ->
  score_after (if Engine.round_ended (Engine.engine w) then S n else n)
    (Engine.engine w').
Proof.
  intros H. unfold Engine.process_frame, Engine.update.
  destruct (Engine.round_ended (Engine.engine w)).
  - pose proof (score_after_round n timestamp now
                  (Engine.mkWorld (Engine.set_round_ended false (Engine.engine w))
                     (Engine.disk w))) as Hround.
    destruct (Engine._process_round_result _ _ _) as [[[] | ex] w1];
      [| discriminate].
    cbn [snd] in Hround.
    destruct (Engine.count_hands hands (Engine.engine w1)) as [e' |] eqn:Ehands;
      [| discriminate].
    intros [= <-]. cbn [Engine.engine].
    apply count_hands_frame in Ehands. rewrite <- Ehands.
    apply (score_after_same (S n) (Engine.engine w1)); [| reflexivity ..].
    apply Hround. now apply (score_after_same n (Engine.engine w)).
  - destruct (Engine.count_hands hands (Engine.engine w)) as [e' |] eqn:Ehands;
      [| discriminate].
    intros [= <-]. cbn [Engine.engine].
    apply count_hands_frame in Ehands. rewrite <- Ehands.
    now apply (score_after_same n (Engine.engine w)).
Qed.

Lemma score_after_run (p0 : AIPredictor) (records : list (Clock.t * Round.t))
    (n : nat) (w : Engine.World) :
  Engine.run p0 records n w -> score_after n (Engine.engine w).
Proof.
  induction 1 as [files | records n w r1 r2 now key _ IH
                  | records n w w' timestamp now hands _ IH Hframe
                  | records n w self _ IH Hwrite].
  - unfold score_after. cbn. now repeat split.
  - now apply score_after_key.
  - now apply (score_after_frame n timestamp now hands w).
  - cbn [Engine.engine].
    destruct Hwrite; now apply (score_after_same n self).
Qed.

(** X5. The game is a best of three. However the keys, the frames and the
    writes of the threads follow one another from the creation of the
    engine, the points of the two sides add up to the number of rounds
    processed since the game was last reset, and the game is over exactly
    when a side has two points: never before two rounds, always after three,
    the number of rounds the engine is configured with, and within three
    rounds never on a tie. *)
Theorem best_of_three (p0 : AIPredictor) (records : list (Clock.t * Round.t))
    (n : nat) (w : Engine.World) :
  Engine.run p0 records n w ->
  let e := Engine.engine w in
  Engine.player_wins e + Engine.robot_wins e = Z.of_nat n /\
  0 <= Engine.player_wins e /\ 0 <= Engine.robot_wins e /\
  Engine.game_over e = (2 <=? Engine.player_wins e) || (2 <=? Engine.robot_wins e) /\
  (Engine.game_over e = true -> (2 <= n)%nat) /\
  (Engine.max_rounds e <= Z.of_nat n -> Engine.game_over e = true) /\
  (Engine.game_over e = true -> (n <= 3)%nat ->
   Engine.player_wins e <> Engine.robot_wins e).
Proof.
  intros Hrun e.
  destruct (score_after_run p0 records n w Hrun) as (Hsum & Hpw & Hrw & Hover & Hmax).
  fold e in Hsum, Hpw, Hrw, Hover, Hmax.
  split; [exact Hsum |]. split; [exact Hpw |]. split; [exact Hrw |].
  split; [exact Hover |]. rewrite Hover, Hmax.
  destruct (Z.leb_spec 2 (Engine.player_wins e)),
    (Z.leb_spec 2 (Engine.robot_wins e)); cbn; repeat split; intros;
    try discriminate; try reflexivity; lia.
Qed.

(** X6. The player's choice is locked while the countdown runs and while
    the fingers are read. Whatever the key, the choice after it is the one
    before it unless the key is O or E and neither phase is on, and then it
    is the choice of the key; outside the two phases the keys O and E do
    set it. *)
Theorem choice_locked_during_countdown (r1 r2 : nat) (now : Clock.t) (key : Z)
    (e : Engine.t) :
  let e' := snd (Engine.handle_keypress r1 r2 now key e) in
  (Engine.player_choice e' = Engine.player_choice e \/
   Engine.countdown_active e = false /\ Engine.finger_detection_phase e = false /\
   (In key [111; 79] /\ Engine.player_choice e' = "odds" \/
    In key [101; 69] /\ Engine.player_choice e' = "evens")) /\
  (Engine.countdown_active e = false -> Engine.finger_detection_phase e = false ->
   (In key [111; 79] -> Engine.player_choice e' = "odds") /\
   (In key [101; 69] -> Engine.player_choice e' = "evens")).
Proof.
  intros e'. subst e'. split.
  - unfold Engine.handle_keypress.
    assert (Hchoose :
      Engine.player_choice (Engine.choose key e) = Engine.player_choice e \/
      Engine.countdown_active e = false /\ Engine.finger_detection_phase e = false /\
      (In key [111; 79] /\ Engine.player_choice (Engine.choose key e) = "odds" \/
       In key [101; 69] /\ Engine.player_choice (Engine.choose key e) = "evens")).
    { unfold Engine.choose, Engine.is_key_odds, Engine.is_key_evens.
      destruct (Engine.countdown_active e), (Engine.finger_detection_phase e);
        cbn [negb andb]; try (now left).
      destruct (Z.eqb_spec key 111); [subst key; right; cbn; tauto |].
      destruct (Z.eqb_spec key 79); [subst key; right; cbn; tauto |].
      destruct (Z.eqb_spec key 101); [subst key; right; cbn; tauto |].
      destruct (Z.eqb_spec key 69); [subst key; right; cbn; tauto |].
      now left. }
    destruct (key =? Engine.KEY_Q); [now left |].
    destruct (key =? Engine.KEY_ESC); [now left |].
    destruct (key =? Engine.KEY_SPACE); [| exact Hchoose].
    destruct (Engine.game_over e); [now left |].
    destruct (Engine.game_active e); cbn [negb snd].
    + destruct (Engine.waiting_for_next_round e); [| exact Hchoose].
      left. cbn [snd]. now destruct (start_countdown_sequence_frame r1 r2 now
                            (Engine.set_current_round (Engine.current_round e + 1)
                               (Engine.set_show_result false
                                  (Engine.set_waiting_for_next_round false e))))
        as (_ & _ & _ & _ & _ & -> & _).
    + left. now destruct (start_countdown_sequence_frame r1 r2 now
                            (Engine.set_current_round 1
                               (Engine.set_game_active true (Engine.reset_game e))))
        as (_ & _ & _ & _ & _ & -> & _).
  - intros Hc Hd. unfold Engine.handle_keypress, Engine.choose,
      Engine.is_key_odds, Engine.is_key_evens, Engine.KEY_Q, Engine.KEY_ESC,
      Engine.KEY_SPACE.
    rewrite Hc, Hd. cbn [negb andb].
    split; intros Hk; cbn in Hk;
      repeat match goal with
             | |- context [key =? ?k] => destruct (Z.eqb_spec key k); try lia
             end; reflexivity.
Qed.

(** X7. A countdown starts only on SPACE, and only in a game that is not
    over: from the menu it is the first round of a new game at nil-nil, in
    a game it is the next round, asked for while the result of the last one
    was on display, and the score is kept. The robot's number is from 1 to
    5 when it starts. *)
Theorem countdown_starts_on_space (r1 r2 : nat) (now : Clock.t) (key : Z)
    (e : Engine.t) :
  let e' := snd (Engine.handle_keypress r1 r2 now key e) in
  Engine.countdown_active e = false ->
  Engine.countdown_active e' = true ->
  key = Engine.KEY_SPACE /\
  Engine.game_over e = false /\ Engine.game_over e' = false /\
  Engine.game_active e' = true /\
  In (Engine.robot_number e') [1; 2; 3; 4; 5] /\
  (if Engine.game_active e
   then Engine.waiting_for_next_round e = true /\
        Engine.current_round e' = Engine.current_round e + 1 /\
        Engine.player_wins e' = Engine.player_wins e /\
        Engine.robot_wins e' = Engine.robot_wins e
   else Engine.current_round e' = 1 /\
        Engine.player_wins e' = 0 /\ Engine.robot_wins e' = 0).
Proof.
  intros e' Hbefore. subst e'. unfold Engine.handle_keypress.
  assert (Hchoose : Engine.countdown_active (Engine.choose key e) = true -> False).
  { rewrite <- choose_frame. cbn. rewrite Hbefore. discriminate. }
  destruct (key =? Engine.KEY_Q); cbn [snd]; [rewrite Hbefore; discriminate |].
  destruct (key =? Engine.KEY_ESC); cbn [snd]; [discriminate |].
  destruct (Z.eqb_spec key Engine.KEY_SPACE) as [-> | _];
    [| intros H; now apply Hchoose in H].
  destruct (Engine.game_over e) eqn:Eover; cbn [snd]; [discriminate |].
  destruct (Engine.game_active e) eqn:Eactive; cbn [negb snd].
  - destruct (Engine.waiting_for_next_round e) eqn:Ewaiting; cbn [snd];
      [| intros H; now apply Hchoose in H].
    intros _.
    match goal with
    | |- context [Engine.start_countdown_sequence r1 r2 now ?x] =>
        destruct (start_countdown_sequence_frame r1 r2 now x)
          as (Hpw & Hrw & Hover & Hactive & _ & _ & Hround & _);
        destruct (engine_countdown_number r1 r2 now x) as [Hin _]
    end.
    rewrite Hpw, Hrw, Hover, Hactive, Hround. cbn. rewrite Eover, Eactive.
    repeat split; try reflexivity; exact Hin.
  - intros _.
    match goal with
    | |- context [Engine.start_countdown_sequence r1 r2 now ?x] =>
        destruct (start_countdown_sequence_frame r1 r2 now x)
          as (Hpw & Hrw & Hover & Hactive & _ & _ & Hround & _);
        destruct (engine_countdown_number r1 r2 now x) as [Hin _]
    end.
    rewrite Hpw, Hrw, Hover, Hactive, Hround. cbn.
    repeat split; try reflexivity; exact Hin.
Qed.

End EngineGame.

(** The first round of the concrete game, as a run of the engine. *)
Lemma first_round_run :
  Engine.run online_predictor (processed_record first_round_played) 1
    first_round_played.
Proof.
  pose proof (Engine.run_init online_predictor no_files) as H0.
  pose proof (Engine.run_key _ _ _ _ 0 0 noon 101 H0) as H1.
  pose proof (Engine.run_key _ _ _ _ 0 0 noon Engine.KEY_SPACE H1) as H2.
  pose proof (Engine.run_thread _ _ _ _ _ H2 (Engine.write_countdown_active _)) as H3.
  pose proof (Engine.run_thread _ _ _ _ _ H3
                (Engine.write_finger_detection_phase true _)) as H4.
  assert (H5 : Engine.run online_predictor [] 0
                 (written (Engine.set_finger_detection_phase false)
                    (frame_seen [pointing_hand]
                       (written (Engine.set_finger_detection_phase true)
                          (written (Engine.set_countdown_active false)
                             first_countdown))))).
  { match type of H4 with
    | Engine.run _ _ _ ?w =>
        assert (E : Engine.process_frame "2024-01-01T12:00:00" noon [pointing_hand] w
                    = Some (frame_seen [pointing_hand] w))
          by (vm_compute; reflexivity);
        pose proof (Engine.run_frame _ _ _ _ _ _ _ _ H4 E) as H
    end.
    pose proof (Engine.run_thread _ _ _ _ _ H
                  (Engine.write_finger_detection_phase false _)) as H'.
    vm_compute in H'. vm_compute. exact H'. }
  pose proof (Engine.run_thread _ _ _ _ _ H5 (Engine.write_round_ended _)) as H6.
  match type of H6 with
  | Engine.run _ _ _ ?w =>
      assert (E : Engine.process_frame "2024-01-01T12:00:00" noon [] w
                  = Some (frame_seen [] w))
        by (vm_compute; reflexivity);
      pose proof (Engine.run_frame _ _ _ _ _ _ _ _ H6 E) as H7
  end.
  vm_compute in H7. vm_compute. exact H7.
Qed.

Lemma best_of_three_witness :
  let e := Engine.engine first_round_played in
  Engine.player_wins e + Engine.robot_wins e = 1 /\ Engine.game_over e = false.
Proof.
  intros e.
  destruct (best_of_three online_predictor _ 1 first_round_played first_round_run)
    as (Hsum & _ & _ & Hover & _).
  split; [exact Hsum | exact Hover].
Defined.

Lemma choice_locked_during_countdown_witness :
  Engine.player_choice (snd (Engine.handle_keypress 0 0 noon 111 evens_engine))
  = "odds".
Proof.
  apply (choice_locked_during_countdown 0 0 noon 111 evens_engine);
    [reflexivity | reflexivity | cbn; tauto].
Defined.

Lemma countdown_starts_on_space_witness :
  let e' := snd (Engine.handle_keypress 0 0 noon Engine.KEY_SPACE evens_engine) in
  Engine.current_round e' = 1 /\ In (Engine.robot_number e') [1; 2; 3; 4; 5].
Proof.
  intros e'.
  destruct (countdown_starts_on_space 0 0 noon Engine.KEY_SPACE evens_engine
              eq_refl eq_refl) as (_ & _ & _ & _ & Hin & Hround & _).
  split; [exact Hround | exact Hin].
Defined.

(** ** The fingers of a hand *)

Lemma lt_mirror (a b : Q) : Hand.lt (1 - a) (1 - b) = Hand.lt b a.
Proof.
  unfold Hand.lt. f_equal.
  destruct (Qle_bool a b) eqn:E.
  - apply Qle_bool_iff. apply Qle_bool_iff in E.
    unfold Qminus. apply Qplus_le_r. now apply Qopp_le_compat.
  - destruct (Qle_bool (1 - b) (1 - a)) eqn:E'; [| reflexivity].
    apply Qle_bool_iff in E'. unfold Qminus in E'.
    apply Qplus_le_r in E'. apply Qopp_le_compat in E'.
    rewrite !Qopp_involutive in E'. apply Qle_bool_iff in E'. congruence.
Qed.

Lemma lt_flip (a b : Q) : ~ a == b -> Hand.lt b a = negb (Hand.lt a b).
Proof.
  intros Hne. unfold Hand.lt. rewrite negb_involutive.
  destruct (Qle_bool a b) eqn:E1, (Qle_bool b a) eqn:E2; try reflexivity.
  - apply Qle_bool_iff in E1, E2. exfalso. apply Hne. now apply Qle_antisym.
  - exfalso. destruct (Qlt_le_dec a b) as [H | H].
    + apply Qlt_le_weak, Qle_bool_iff in H. congruence.
    + apply Qle_bool_iff in H. congruence.
Qed.

(** X8. On the 21 landmarks of a hand the detector returns a count from 1
    to 5: the number of fingers it finds up, and 1 when it finds none (a fist
    is never reported as zero). The five flags it leaves for the display are
    those of the fingers counted. With fewer than 21 landmarks an index is
    out of range and nothing is returned. *)
Theorem count_fingers_range (landmarks : list Hand.Landmark) :
  ((21 <= List.length landmarks)%nat ->
   exists count flags,
     Hand.count_fingers landmarks = Some (count, flags) /\
     1 <= count <= 5 /\
     List.length flags = 5%nat /\
     count = Z.max 1 (Z.of_nat (List.length (filter (fun up => up) flags)))) /\
  ((List.length landmarks < 21)%nat -> Hand.count_fingers landmarks = None).
Proof.
  split.
  - intros Hlen.
    do 21 (destruct landmarks as [| ? landmarks]; [cbn in Hlen; lia |]).
    cbn -[Z.add Z.eqb Z.max Z.of_nat].
    match goal with
    | |- context [Hand.lt ?a ?b && Hand.lt ?c ?d || negb _ && Hand.lt ?d ?c] =>
        set (thumb := Hand.lt a b && Hand.lt c d || negb (Hand.lt a b) && Hand.lt d c)
    end.
    repeat match goal with
           | |- context [Hand.lt (Hand.y ?a) (Hand.y ?b)] =>
               let f := fresh "finger" in
               set (f := Hand.lt (Hand.y a) (Hand.y b))
           end.
    eexists. eexists. split; [reflexivity |].
    destruct thumb, finger, finger0, finger1, finger2; cbn; repeat split; lia.
  - intros Hlen.
    do 21 (destruct landmarks as [| ? landmarks]; [reflexivity |]).
    cbn in Hlen. lia.
Qed.

Lemma count_fingers_range_witness :
  exists count flags,
    Hand.count_fingers pointing_hand = Some (count, flags) /\ 1 <= count <= 5.
Proof.
  destruct (count_fingers_range pointing_hand) as [H _].
  destruct H as (count & flags & Hc & Hr & _); [cbn; lia |].
  exists count, flags. split; [exact Hc | exact Hr].
Defined.

(** X9. The count does not depend on the side the hand is seen from: the
    landmarks of the image flipped left to right give the same count and the
    same flags, provided the landmarks 5 and 17 (the two ends of the palm,
    from which the detector tells a left hand from a right one) are not
    above one another. *)
Theorem count_fingers_mirror (landmarks : list Hand.Landmark) :
  (forall a b,
      nth_error landmarks 17 = Some a -> nth_error landmarks 5 = Some b ->
      ~ Hand.x a == Hand.x b) ->
  Hand.count_fingers (mirrored landmarks) = Hand.count_fingers landmarks.
Proof.
  intros Hpalm. unfold Hand.count_fingers, mirrored.
  repeat rewrite nth_error_map.
  destruct (nth_error landmarks 17) as [l17 |]; [| reflexivity].
  destruct (nth_error landmarks 5) as [l5 |]; [| reflexivity].
  specialize (Hpalm l17 l5 eq_refl eq_refl).
  destruct (nth_error landmarks 4) as [l4 |]; [| reflexivity].
  destruct (nth_error landmarks 3) as [l3 |]; [| reflexivity].
  destruct (nth_error landmarks 8) as [l8 |]; [| reflexivity].
  destruct (nth_error landmarks 6) as [l6 |]; [| reflexivity].
  destruct (nth_error landmarks 12) as [l12 |]; [| reflexivity].
  destruct (nth_error landmarks 10) as [l10 |]; [| reflexivity].
  destruct (nth_error landmarks 16) as [l16 |]; [| reflexivity].
  destruct (nth_error landmarks 14) as [l14 |]; [| reflexivity].
  destruct (nth_error landmarks 20) as [l20 |]; [| reflexivity].
  destruct (nth_error landmarks 18) as [l18 |]; [| reflexivity].
  cbn [option_map Hand.x Hand.y].
  rewrite !lt_mirror. rewrite (lt_flip _ _ Hpalm), negb_involutive.
  set (right := Hand.lt (Hand.x l17) (Hand.x l5)).
  set (out := Hand.lt (Hand.x l3) (Hand.x l4)).
  set (inw := Hand.lt (Hand.x l4) (Hand.x l3)).
  replace (negb right && out || right && inw)
    with (right && inw || negb right && out) by now destruct right, out, inw.
  destruct right; cbn [negb andb orb]; rewrite ?orb_false_r; reflexivity.
Qed.

Lemma count_fingers_mirror_witness :
  Hand.count_fingers (mirrored pointing_hand) = Hand.count_fingers pointing_hand.
Proof.
  apply count_fingers_mirror.
  intros a b [= <-] [= <-]. cbn. unfold Qeq. cbn. lia.
Defined.

(** A count the detector returns is from 1 to 5. *)
Lemma count_fingers_bounds (landmarks : list Hand.Landmark) (count : Z)
    (flags : list bool) :
  Hand.count_fingers landmarks = Some (count, flags) -> 1 <= count <= 5.
Proof.
  unfold Hand.count_fingers.
  repeat match goal with
         | |- context [nth_error landmarks ?i] =>
             destruct (nth_error landmarks i); [| discriminate]
         end.
  intros [= <- _].
  repeat match goal with
         | |- context [Z.b2z ?b] =>
             let f := fresh "finger" in
             set (f := b); destruct f; cbn [Z.b2z]
         end; cbn; lia.
Qed.

Section EngineFrames.

Context {river : River}.

Lemma count_hands_counting (hands : list (list Hand.Landmark)) :
  forall e e' : Engine.t,
    Engine.count_hands hands e = Some e' ->
    if counting e
    then hands <> [] ->
         exists flags,
           Hand.count_fingers (last hands []) = Some (Engine.finger_count e', flags)
    else e' = e.
Proof.
  induction hands as [| landmarks hands IH]; intros e e' H.
  - cbn in H. injection H as <-. now destruct (counting e).
  - cbn [Engine.count_hands] in H. fold (counting e) in H.
    destruct (counting e) eqn:Ecounting.
    + intros _.
      destruct (Hand.count_fingers landmarks) as [[detected_count flags] |] eqn:Ecount;
        [| discriminate].
      specialize (IH _ _ H).
      replace (counting (Engine.set_finger_count detected_count e)) with true in IH
        by (rewrite <- Ecounting; now destruct e).
      destruct hands as [| landmarks' hands].
      * cbn in H. injection H as <-. exists flags. exact Ecount.
      * apply IH. discriminate.
    + specialize (IH _ _ H). now rewrite Ecounting in IH.
Qed.

(** X10. A frame never leaves a finger count of zero behind: when the game
    is on and the result is not on display (or the fingers are being read),
    the hands found in the frame leave the count of the last of them, from
    1 to 5; at any other time the engine is left as it is. Nothing but the
    count changes with the hands. *)
Theorem frame_finger_count (hands : list (list Hand.Landmark)) (e e' : Engine.t) :
  Engine.count_hands hands e = Some e' ->
  e' = Engine.set_finger_count (Engine.finger_count e') e /\
  if counting e
  then hands <> [] ->
       (exists flags,
           Hand.count_fingers (last hands []) = Some (Engine.finger_count e', flags)) /\
       1 <= Engine.finger_count e' <= 5
  else e' = e.
Proof.
  intros H. split; [symmetry; now apply (count_hands_frame hands) |].
  pose proof (count_hands_counting hands e e' H) as Hc.
  destruct (counting e); [| exact Hc].
  intros Hne. destruct (Hc Hne) as [flags Hflags].
  split; [now exists flags | now apply count_fingers_bounds in Hflags].
Qed.

End EngineFrames.

Lemma frame_finger_count_witness :
  let e := Engine.set_finger_detection_phase true (Engine.engine first_countdown) in
  let e' :=
    match Engine.count_hands [pointing_hand] e with Some e' => e' | None => e end in
  1 <= Engine.finger_count e' <= 5.
Proof.
  intros e e'.
  destruct (frame_finger_count [pointing_hand] e e' eq_refl) as [_ H].
  change (counting e) with true in H. cbv iota in H.
  now apply H.
Defined.

(** ** The features of a round *)

Lemma last_n_app {A : Type} (n : nat) (older recent : list A) :
  (n <= List.length recent)%nat -> last_n n (older ++ recent) = last_n n recent.
Proof.
  intros Hn. unfold last_n. rewrite length_app, skipn_app.
  rewrite skipn_all2 by lia. cbn [app]. f_equal. lia.
Qed.

Lemma length_last_n {A : Type} (n : nat) (l : list A) :
  List.length (last_n n l) = Nat.min n (List.length l).
Proof. unfold last_n. rewrite length_skipn. lia. Qed.

Lemma last_n_nil {A : Type} (n : nat) (l : list A) :
  (0 < n)%nat -> l <> [] -> last_n n l <> [].
Proof.
  intros Hn Hl E. apply (f_equal (@List.length A)) in E.
  rewrite length_last_n in E. destruct l; [congruence | cbn in E; lia].
Qed.

Lemma Forall_last_n {A : Type} (P : A -> Prop) (n : nat) (l : list A) :
  Forall P l -> Forall P (last_n n l).
Proof.
  intros H. unfold last_n. rewrite <- (firstn_skipn (List.length l - n) l) in H.
  now apply Forall_app in H.
Qed.

(** The mean of integers between two bounds is between them. *)
Lemma mean_bounds (lo hi : Z) (l : list Z) :
  l <> [] -> Forall (fun z => lo <= z <= hi) l ->
  (inject_Z lo <= mean l)%Q /\ (mean l <= inject_Z hi)%Q.
Proof.
  intros Hl Hall. unfold mean.
  assert (Hsum : lo * Z.of_nat (List.length l) <= fold_right Z.add 0 l
                 <= hi * Z.of_nat (List.length l)).
  { clear Hl. induction Hall as [| z l Hz _ IH]; [cbn; lia |].
    cbn [fold_right List.length]. rewrite Nat2Z.inj_succ. nia. }
  assert (Hpos : (0 < inject_Z (Z.of_nat (List.length l)))%Q).
  { rewrite <- (Zlt_Qlt 0). destruct l; [congruence | cbn; lia]. }
  split.
  - apply Qle_shift_div_l; [exact Hpos |].
    rewrite <- inject_Z_mult, <- Zle_Qle. lia.
  - apply Qle_shift_div_r; [exact Hpos |].
    rewrite <- inject_Z_mult, <- Zle_Qle. lia.
Qed.

Lemma last_In {A : Type} (l : list A) (d : A) : l <> [] -> In (last l d) l.
Proof.
  induction l as [| a l IH]; [congruence |]. intros _.
  destruct l as [| b l]; [now left |].
  right. apply IH. discriminate.
Qed.

(** X11. The predictor looks five rounds back and no further: the features
    of two histories of the same length that end with the same five rounds
    (or more) are the same, at the same time and in the same state of the
    game. *)
Theorem extract_features_recent (now : Clock.t) (game_state : GameState.t)
    (older older' recent : list Round.t) :
  (5 <= List.length recent)%nat ->
  List.length older = List.length older' ->
  extract_features now game_state (older ++ recent)
  = extract_features now game_state (older' ++ recent).
Proof.
  intros Hrecent Hlen. unfold extract_features.
  rewrite !last_n_app by exact Hrecent.
  rewrite !length_app, Hlen, !rev_app_distr.
  assert (Hrev : (2 <= List.length (rev recent))%nat) by (rewrite length_rev; lia).
  destruct (rev recent) as [| g1 [| g2 rest]]; cbn in Hrev; try lia.
  reflexivity.
Qed.

(** X12. The features are within their ranges: the share of odds among the
    recent choices and the recent win rate are between 0 and 1, and the
    number of rounds played is the length of the history. When the recorded
    finger counts are from 1 to 5, so are their recent mean and the last of
    them, and the change between the last two rounds is between -4 and 4. *)
Theorem extract_features_bounds (now : Clock.t) (game_state : GameState.t)
    (history : list Round.t) :
  let features := extract_features now game_state history in
  (0 <= Features.recent_odds_ratio features)%Q /\
  (Features.recent_odds_ratio features <= 1)%Q /\
  (0 <= Features.recent_win_rate features)%Q /\
  (Features.recent_win_rate features <= 1)%Q /\
  Features.rounds_played features = Z.of_nat (List.length history) /\
  (Forall (fun g => 1 <= fingers_of g <= 5) history ->
   (1 <= Features.avg_recent_fingers features)%Q /\
   (Features.avg_recent_fingers features <= 5)%Q /\
   1 <= Features.last_finger_count features <= 5 /\
   -4 <= Features.finger_change features <= 4).
Proof.
  cbn -[last_n mean last].
  destruct history as [| g history'] eqn:Eh.
  - cbn. repeat split; try discriminate; intros _; repeat split; try lia;
      discriminate.
  - rewrite <- Eh. assert (Hne : history <> []) by (rewrite Eh; discriminate).
    replace (negb (Nat.eqb (List.length history) 0)) with true
      by (rewrite Eh; reflexivity).
    assert (Hrecent : last_n 5 history <> []) by (apply last_n_nil; [lia | exact Hne]).
    split; [| split; [| split; [| split; [| split; [reflexivity |]]]]].
    + apply (mean_bounds 0 1).
      * intros E. apply map_eq_nil in E. contradiction.
      * apply Forall_map, Forall_forall. intros r _.
        destruct (Round.player_choice r) as [c |]; [destruct (String.eqb c "odds") |]; lia.
    + apply (mean_bounds 0 1).
      * intros E. apply map_eq_nil in E. contradiction.
      * apply Forall_map, Forall_forall. intros r _.
        destruct (Round.player_choice r) as [c |]; [destruct (String.eqb c "odds") |]; lia.
    + apply (mean_bounds 0 1).
      * intros E. apply map_eq_nil in E. contradiction.
      * apply Forall_map, Forall_forall. intros r _. destruct (won r); cbn; lia.
    + apply (mean_bounds 0 1).
      * intros E. apply map_eq_nil in E. contradiction.
      * apply Forall_map, Forall_forall. intros r _. destruct (won r); cbn; lia.
    + intros Hall.
      assert (Hrecent_all : Forall (fun z => 1 <= z <= 5) (map fingers_of (last_n 5 history))).
      { apply Forall_map. now apply Forall_last_n. }
      split; [| split; [| split]].
      * apply (mean_bounds 1 5); [| exact Hrecent_all].
        intros E. apply map_eq_nil in E. contradiction.
      * apply (mean_bounds 1 5); [| exact Hrecent_all].
        intros E. apply map_eq_nil in E. contradiction.
      * apply (proj1 (Forall_forall _ _) Hrecent_all). apply last_In.
        intros E. apply map_eq_nil in E. contradiction.
      * destruct (rev history) as [| g1 [| g2 rest]] eqn:Erev; try lia.
        assert (H1 : In g1 history) by (apply in_rev; rewrite Erev; now left).
        assert (H2 : In g2 history) by (apply in_rev; rewrite Erev; right; now left).
        apply (proj1 (Forall_forall _ _) Hall) in H1, H2. lia.
Qed.


Lemma extract_features_recent_witness :
  let recent :=
    [round_record 1 2 "odds"; round_record 2 2 "odds"; round_record 3 2 "evens";
     round_record 4 2 "evens"; round_record 5 2 "odds"] in
  extract_features noon (GameState.mk (Some 2) None None)
    ([round_record 5 5 "odds"] ++ recent)
  = extract_features noon (GameState.mk (Some 2) None None)
      ([round_record 1 1 "evens"] ++ recent).
Proof.
  intros recent.
  apply extract_features_recent; [cbn; lia | reflexivity].
Defined.

Lemma extract_features_bounds_witness :
  let features :=
    extract_features noon (GameState.mk (Some 2) None None)
      [round_record 4 2 "odds"; round_record 1 2 "evens"] in
  (1 <= Features.avg_recent_fingers features)%Q /\
  -4 <= Features.finger_change features <= 4.
Proof.
  intros features.
  destruct (extract_features_bounds noon
              (GameState.mk (Some 2) None None)
              [round_record 4 2 "odds"; round_record 1 2 "evens"])
    as (_ & _ & _ & _ & _ & H).
  destruct H as (H1 & _ & _ & H4).
  - repeat constructor; cbn; lia.
  - split; [exact H1 | exact H4].
Defined.

(** ** The tallies of a session and the fallback prediction *)

Lemma chosen_snoc c rounds r :
  chosen c (rounds ++ [r])
  = chosen c rounds + (if String.eqb (choice_of (snd r)) c then 1 else 0).
Proof.
  unfold chosen. rewrite filter_app, length_app. cbn [filter].
  destruct (String.eqb (choice_of (snd r)) c); cbn; lia.
Qed.

Lemma games_finished_snoc rounds r :
  games_finished (rounds ++ [r])
  = games_finished rounds + (if get (Round.game_finished (snd r)) false then 1 else 0).
Proof.
  unfold games_finished. rewrite filter_app, length_app. cbn [filter].
  destruct (get (Round.game_finished (snd r)) false); cbn; lia.
Qed.

Lemma keys_dict_set (k : key) (v : value) (d : dict) :
  keys (dict_set k v d) = if dict_mem k d then keys d else keys d ++ [k].
Proof.
  unfold dict_mem, keys. induction d as [| [k' v'] d IH]; [reflexivity |].
  cbn [dict_set dict_get]. destruct (key_eqb k k') eqn:E; [reflexivity |].
  cbn [map fst]. rewrite IH. now destruct (dict_get k d).
Qed.

Lemma dict_get_of_In (k : key) (v : value) (d : dict) :
  distinct (keys d) = true -> In (k, v) d -> dict_get k d = Some v.
Proof.
  induction d as [| [k' v'] d IH]; [contradiction |].
  cbn [keys map fst distinct dict_get]. rewrite andb_true_iff, negb_true_iff.
  intros [Hfresh Hd] [[= -> ->] | Hin].
  - now rewrite key_eqb_refl.
  - destruct (key_eqb k k') eqn:E; [| now apply IH].
    apply key_eqb_eq in E. subst k'. exfalso.
    assert (Hex : existsb (key_eqb k) (keys d) = true).
    { apply existsb_exists. exists k. split; [| apply key_eqb_refl].
      change k with (fst (k, v)). now apply in_map. }
    unfold keys in *. congruence.
Qed.

(** Where [max] stops on counts: at a key whose count no other exceeds. *)
Lemma max_loop_spec (d : dict) :
  counts d ->
  forall best bv,
    exists k c,
      max_loop best (inject_Z bv) d = Ok k /\
      (k = best /\ c = bv \/ In (k, VInt c) d) /\
      bv <= c /\
      (forall k' c', In (k', VInt c') d -> c' <= c).
Proof.
  intros Hd. induction Hd as [| [k1 v1] d [c1 [Hc1 _]] _ IH]; intros best bv.
  - exists best, bv. cbn. repeat split; [tauto | lia | tauto].
  - cbn in Hc1. subst v1. cbn [max_loop num_of]. rewrite Qle_bool_inject.
    destruct (Z.leb_spec c1 bv) as [Hle | Hgt].
    + destruct (IH best bv) as (k & c & Hrun & Hin & Hbv & Hmax).
      exists k, c. repeat split; try assumption.
      * destruct Hin as [Hin | Hin]; [now left | right; now right].
      * intros k' c' [[= <- <-] | Hin']; [lia | now apply (Hmax k')].
    + destruct (IH k1 c1) as (k & c & Hrun & Hin & Hbv & Hmax).
      exists k, c. repeat split; try assumption; [| lia |].
      * right. destruct Hin as [[-> ->] | Hin]; [now left | now right].
      * intros k' c' [[= <- <-] | Hin']; [lia | now apply (Hmax k')].
Qed.

Lemma ratio_bounds (a n : Z) :
  0 <= a <= n -> 0 < n ->
  (0 <= inject_Z a / inject_Z n)%Q /\ (inject_Z a / inject_Z n <= 1)%Q.
Proof.
  intros Ha Hn.
  assert (Hpos : (0 < inject_Z n)%Q) by now rewrite <- (Zlt_Qlt 0).
  split.
  - apply Qle_shift_div_l; [exact Hpos |]. rewrite Qmult_0_l.
    rewrite <- (Zle_Qle 0). lia.
  - apply Qle_shift_div_r; [exact Hpos |]. rewrite Qmult_1_l.
    rewrite <- Zle_Qle. lia.
Qed.

Section SessionTallies.

Context {river : River}.

Lemma tallies_empty (p : AIPredictor) : empty_predictor p -> tallies [] p.
Proof.
  intros Hp. split; [now apply tracks_empty |].
  destruct Hp as [_ Hs]. unfold stat. rewrite Hs.
  split; [reflexivity |]. split; [reflexivity |].
  exists default_finger_counts. split; [reflexivity |]. split; [reflexivity |].
  repeat constructor; cbn.
  - exists 1. split; [cbn; tauto | now left].
  - exists 2. split; [cbn; tauto | now left].
  - exists 3. split; [cbn; tauto | now left].
  - exists 4. split; [cbn; tauto | now left].
  - exists 5. split; [cbn; tauto | now left].
Qed.

Lemma tallies_step done p now g :
  tallies done p ->
  exists p', update_model now g p = (Ok tt, p') /\ tallies (done ++ [(now, g)]) p'.
Proof.
  intros (Ht & Hg & Hch & fc0 & Hfc0 & Hdist & Hkeys).
  destruct (tracks_step done p now g Ht) as (p' & Hrun & Ht').
  exists p'. split; [exact Hrun |]. split; [exact Ht' |].
  destruct Ht as (tg & fc & co & ce & wr & Hs & Hc & _).
  destruct (update_model_stats_of now g p tg _ fc co ce wr Hs Hc ltac:(lia))
    as (p'' & Hrun' & Hs' & _).
  rewrite Hrun in Hrun'. injection Hrun' as <-.
  unfold stat in *. rewrite Hs in Hg, Hch, Hfc0. cbn in Hg, Hch, Hfc0.
  injection Hg as ->. injection Hch as -> ->. injection Hfc0 as <-.
  rewrite Hs'. cbn [stats_of dict_get key_eqb String.eqb Ascii.eqb Bool.eqb].
  rewrite games_finished_snoc, !chosen_snoc. cbn [snd].
  split; [destruct (get (Round.game_finished g) false); now rewrite ?Z.add_0_r |].
  split.
  { destruct (String.eqb_spec (choice_of g) "odds") as [E | _].
    - rewrite E. cbn [String.eqb Ascii.eqb Bool.eqb]. now rewrite Z.add_0_r.
    - rewrite Z.add_0_r.
      destruct (String.eqb (choice_of g) "evens"); now rewrite ?Z.add_0_r. }
  exists (recorded_fingers g fc). split; [reflexivity |].
  unfold recorded_fingers, bump. destruct (in_range g) eqn:Er; [| now split].
  split; [now apply distinct_set |].
  rewrite keys_dict_set. destruct (dict_mem _ fc); [exact Hkeys |].
  apply Forall_app. split; [exact Hkeys |]. constructor; [| constructor].
  exists (fingers_of g). split; [| now right].
  apply in_FINGERS. unfold in_range in Er.
  rewrite andb_true_iff, !Z.leb_le in Er. lia.
Qed.

Lemma tallies_play rounds :
  forall done p,
    tallies done p ->
    exists p', play rounds p = (Ok tt, p') /\ tallies (done ++ rounds) p'.
Proof.
  induction rounds as [| [now g] rounds IH]; intros done p Hp.
  - exists p. rewrite app_nil_r. now split.
  - destruct (tallies_step done p now g Hp) as (p1 & Hrun & Hp1).
    destruct (IH _ _ Hp1) as (p' & Hplay & Hp').
    exists p'. split.
    + cbn [play]. now rewrite (bind_ok _ _ _ _ _ Hrun).
    + now rewrite <- app_assoc in Hp'.
Qed.

Lemma wins_bounds (rounds : list (Clock.t * Round.t)) :
  0 <= wins rounds <= Z.of_nat (List.length rounds).
Proof.
  unfold wins, history_wins.
  pose proof (filter_length_le won (map snd rounds)) as H.
  rewrite length_map in H. lia.
Qed.

(** X13. After the rounds of a session that began with an empty predictor,
    with or without the models: the number of games is the number of rounds
    that ended a game, the two entries of the choice history are the numbers
    of rounds played with odds and with evens (a round without a choice
    counts as odds, a choice that is neither is counted nowhere), and the
    win rate is between 0 and 1. *)
Theorem session_tallies (p : AIPredictor) (rounds : list (Clock.t * Round.t)) :
  empty_predictor p ->
  let p' := snd (play rounds p) in
  stat "total_games" p' = Some (VInt (games_finished rounds)) /\
  stat "choice_history" p'
    = Some (VDict [(KStr "odds", VInt (chosen "odds" rounds));
                   (KStr "evens", VInt (chosen "evens" rounds))]) /\
  chosen "odds" rounds + chosen "evens" rounds <= Z.of_nat (List.length rounds) /\
  exists win_rate,
    stat "win_rate" p' = Some (VFloat win_rate) /\
    (0 <= win_rate)%Q /\ (win_rate <= 1)%Q.
Proof.
  intros Hp p'. subst p'.
  destruct (tallies_play rounds [] p (tallies_empty p Hp)) as (p' & Hrun & Ht).
  rewrite Hrun. cbn [fst snd app] in *.
  destruct Ht as (Ht & Hg & Hch & _).
  split; [exact Hg |]. split; [exact Hch |]. split.
  { unfold chosen. clear. induction rounds as [| r rounds IH]; [cbn; lia |].
    cbn [filter List.length].
    destruct (String.eqb_spec (choice_of (snd r)) "odds") as [E | _].
    - rewrite E. cbn [String.eqb Ascii.eqb Bool.eqb List.length]. lia.
    - destruct (String.eqb (choice_of (snd r)) "evens"); cbn [List.length]; lia. }
  destruct Ht as (tg & fc & co & ce & wr & Hs & _ & _ & _ & _ & _ & _ & _ & _ & Hwr).
  exists wr. unfold stat. rewrite Hs. split; [reflexivity |].
  destruct rounds as [| r rounds'] eqn:Er.
  - cbn in Hrun. injection Hrun as <-. destruct Hp as [_ Hd].
    rewrite Hd in Hs. unfold default_player_stats, stats_of in Hs.
    assert (E : wr = 0%Q) by congruence. rewrite E. split; discriminate.
  - rewrite <- Er in *. assert (Hne : rounds <> []) by (rewrite Er; discriminate).
    rewrite (Hwr Hne). unfold win_rate_after.
    destruct (rev rounds) as [| [now g] before] eqn:Erev.
    + apply (f_equal (@rev _)) in Erev. rewrite rev_involutive in Erev. contradiction.
    + apply ratio_bounds.
      * pose proof (wins_bounds rounds) as Hw.
        assert (Hlen : 1 <= Z.of_nat (List.length rounds))
          by (rewrite Er; cbn [List.length]; lia).
        destruct (river_available p'); [exact Hw |]. destruct (won g); cbn; lia.
      * rewrite Er. cbn [List.length]. lia.
Qed.

(** The fallback prediction on the statistics of a session: the choice
    made more often, and a count shown most often once a count from 1 to 5
    has been shown. *)
Lemma simple_prediction_session (done : list (Clock.t * Round.t)) (p : AIPredictor) :
  tallies done p ->
  exists fingers,
    _simple_prediction (player_stats p)
    = Ok (mkPrediction fingers
            (VStr (if chosen "odds" done <? chosen "evens" done
                   then "evens" else "odds"))
            (1 # 10)) /\
    if 0 <? in_range_count done
    then exists i,
           In i FINGERS /\ fingers = VStr (str i) /\
           forall j, In j FINGERS -> uses j done <= uses i done
    else fingers = VInt 3.
Proof.
  intros (Ht & _ & Hch & fc0 & Hfc0 & Hdist & Hkeys).
  destruct Ht as (tg & fc & co & ce & wr & Hs & Hc & Hz & Hco & Hce & _ & Htot & Huse & _).
  unfold stat in Hch, Hfc0. rewrite Hs in Hch, Hfc0. cbn in Hch, Hfc0.
  injection Hch as -> ->. injection Hfc0 as <-.
  unfold _simple_prediction. rewrite Hs. cbn [stats_of dict_item dict_get key_eqb
    String.eqb Ascii.eqb Bool.eqb rbind].
  (* the count *)
  assert (Hfingers :
    exists fingers,
      most_common (VDict fc) (VInt 3) = Ok fingers /\
      if 0 <? in_range_count done
      then exists i,
             In i FINGERS /\ fingers = VStr (str i) /\
             forall j, In j FINGERS -> uses j done <= uses i done
      else fingers = VInt 3).
  { unfold most_common. rewrite (sum_values_counts fc Hc). cbn [rbind].
    change 0%Q with (inject_Z 0). rewrite Qle_bool_inject, Htot.
    destruct (Z.leb_spec (in_range_count done) 0) as [Hle | Hgt]; cbn [negb].
    { exists (VInt 3). split; [reflexivity |].
      now destruct (Z.ltb_spec 0 (in_range_count done)); [lia |]. }
    destruct (Z.ltb_spec 0 (in_range_count done)); [| lia].
    rewrite <- Htot in Hgt.
    destruct (total_count_positive _ Hc Hgt) as (kp & cp & Hinp & Hcp).
    destruct fc as [| [k0 v0] d'] eqn:Efc; [contradiction |].
    rewrite <- Efc in Hdist, Hkeys, Huse, Hz, Hinp.
    inversion Hc as [| ? ? [c0 [Hc0 Hpos0]] Hd']; subst. cbn in Hc0. subst v0.
    destruct (max_loop_spec d' Hd' k0 c0) as (k & c & Hloop & Hin & Hbv & Hmax).
    cbn [max_key num_of]. rewrite Hloop. cbn [rbind].
    set (fc := (k0, VInt c0) :: d') in *.
    assert (Hinfc : In (k, VInt c) fc).
    { destruct Hin as [[-> ->] | Hin]; [now left | now right]. }
    assert (Hmaxfc : forall k' c', In (k', VInt c') fc -> c' <= c).
    { intros k' c' [[= <- <-] | Hin']; [lia | now apply (Hmax k')]. }
    assert (Hcpos : 0 < c) by (specialize (Hmaxfc kp cp Hinp); lia).
    assert (Hget : dict_get k fc = Some (VInt c)) by now apply dict_get_of_In.
    assert (Hk : usage_key k).
    { apply (proj1 (Forall_forall _ _) Hkeys). change k with (fst (k, VInt c)).
      now apply in_map. }
    destruct Hk as (i & Hi & [-> | ->]).
    - apply (int_zero_get i _ fc Hz) in Hget. injection Hget as ->. lia.
    - eexists. split; [reflexivity |]. exists i. split; [exact Hi |].
      split; [reflexivity |].
      intros j Hj. rewrite <- (Huse i Hi), <- (Huse j Hj).
      unfold count_at. rewrite Hget.
      destruct (dict_get (KStr (str j)) fc) as [v |] eqn:Ej; [| lia].
      destruct (counts_get _ _ _ Hc Ej) as (c' & -> & _).
      apply dict_get_In in Ej. now apply (Hmaxfc (KStr (str j))). }
  destruct Hfingers as (fingers & -> & Hfingers). cbn [rbind].
  exists fingers. split; [| exact Hfingers].
  (* the choice *)
  unfold most_common. cbn [sum_values values map snd sum_from num_of rbind].
  change 0%Q with (inject_Z 0). rewrite !Qplus_inject, Qle_bool_inject.
  destruct (Z.leb_spec (0 + chosen "odds" done + chosen "evens" done) 0)
    as [Hle | Hgt]; cbn [negb rbind].
  - destruct (Z.ltb_spec (chosen "odds" done) (chosen "evens" done));
      [lia | reflexivity].
  - cbn [max_key num_of max_loop]. rewrite Qle_bool_inject.
    destruct (Z.leb_spec (chosen "evens" done) (chosen "odds" done)),
      (Z.ltb_spec (chosen "odds" done) (chosen "evens" done));
      try lia; reflexivity.
Qed.

(** X14. Without the models the predictor expects what the player has done
    most: after a session that began with an empty predictor and had a round
    with a finger count from 1 to 5, the predicted count is one of the counts
    shown most often (as the string the statistics keep it under), and the
    predicted choice is evens when evens was chosen more often than odds, odds
    otherwise; the confidence is one tenth. *)
Theorem fallback_predicts_most_used (p : AIPredictor)
    (rounds : list (Clock.t * Round.t)) (now : Clock.t) (game_state : GameState.t) :
  empty_predictor p -> river_available p = false ->
  0 < in_range_count rounds ->
  exists i,
    In i FINGERS /\
    (forall j, In j FINGERS -> uses j rounds <= uses i rounds) /\
    fst (predict_player_behavior now game_state (snd (play rounds p)))
    = Ok (mkPrediction (VStr (str i))
            (VStr (if chosen "odds" rounds <? chosen "evens" rounds
                   then "evens" else "odds"))
            (1 # 10)).
Proof.
  intros Hp Hav Hpos.
  destruct (tallies_play rounds [] p (tallies_empty p Hp)) as (p' & Hrun & Ht).
  pose proof (play_river_available rounds p) as Hav'.
  rewrite Hrun in *. cbn [fst snd app] in *. rewrite Hav in Hav'.
  destruct (simple_prediction_session rounds p' Ht) as (fingers & Hsimple & Hf).
  apply Z.ltb_lt in Hpos. rewrite Hpos in Hf.
  destruct Hf as (i & Hi & -> & Hmost).
  exists i. split; [exact Hi |]. split; [exact Hmost |].
  unfold predict_player_behavior. unfold river_available in Hav'.
  destruct (models p') as [model_data |]; [discriminate |]. cbn [fst].
  exact Hsimple.
Qed.

(** X19. Without the models the robot stops answering the prediction: once
    a round with a finger count from 1 to 5 has been recorded, the predicted
    count is a string, the selector fails on it, and the robot's number at
    the start of every countdown is 3, whatever the random draws and whatever
    the player has done. *)
Theorem degraded_robot_shows_three (p : AIPredictor)
    (rounds : list (Clock.t * Round.t)) (r1 r2 : nat) (now : Clock.t)
    (e : Engine.t) :
  empty_predictor p -> river_available p = false ->
  0 < in_range_count rounds ->
  Engine.ai_predictor e = snd (play rounds p) ->
  Engine.robot_number (Engine.start_countdown_sequence r1 r2 now e) = 3.
Proof.
  intros Hp Hav Hpos He.
  destruct (tallies_play rounds [] p (tallies_empty p Hp)) as (p' & Hrun & Ht).
  pose proof (play_river_available rounds p) as Hav'.
  rewrite Hrun in *. cbn [fst snd app] in *. rewrite Hav in Hav'.
  destruct (simple_prediction_session rounds p' Ht) as (fingers & Hsimple & Hf).
  apply Z.ltb_lt in Hpos. rewrite Hpos in Hf.
  destruct Hf as (i & Hi & -> & _).
  unfold Engine.start_countdown_sequence, start_countdown_sequence.
  replace (Engine.ai_predictor (Engine.set_countdown_active true e)) with p'
    by (rewrite <- He; now destruct e).
  unfold predict_player_behavior. unfold river_available in Hav'.
  destruct (models p') as [model_data |]; [discriminate |].
  rewrite Hsimple. reflexivity.
Qed.

(** X20. During a session that began with an empty predictor a prediction
    is always there, with the models or without them and whatever the
    estimators answer or raise: the call returns, the predicted choice is odds
    or evens, and the predicted count is an integer from 1 to 5 (from the
    estimator, or the default 3) or one of the strings ['1'] to ['5'] (from
    the statistics). *)
Theorem prediction_in_session (p : AIPredictor) (rounds : list (Clock.t * Round.t))
    (now : Clock.t) (game_state : GameState.t) :
  empty_predictor p ->
  exists q,
    fst (predict_player_behavior now game_state (snd (play rounds p))) = Ok q /\
    (choice q = VStr "odds" \/ choice q = VStr "evens") /\
    exists i, In i FINGERS /\ (finger_count q = VInt i \/ finger_count q = VStr (str i)).
Proof.
  intros Hp.
  destruct (tallies_play rounds [] p (tallies_empty p Hp)) as (p' & Hrun & Ht).
  rewrite Hrun. cbn [fst snd app] in *.
  destruct (simple_prediction_session rounds p' Ht) as (fingers & Hsimple & Hf).
  assert (Hfallback :
    (choice (mkPrediction fingers
               (VStr (if chosen "odds" rounds <? chosen "evens" rounds
                      then "evens" else "odds")) (1 # 10)) = VStr "odds" \/
     choice (mkPrediction fingers
               (VStr (if chosen "odds" rounds <? chosen "evens" rounds
                      then "evens" else "odds")) (1 # 10)) = VStr "evens") /\
    exists i, In i FINGERS /\ (fingers = VInt i \/ fingers = VStr (str i))).
  { split.
    - cbn. destruct (chosen "odds" rounds <? chosen "evens" rounds); tauto.
    - destruct (0 <? in_range_count rounds).
      + destruct Hf as (i & Hi & -> & _). exists i. tauto.
      + subst fingers. exists 3. split; [cbn; tauto | now left]. }
  unfold predict_player_behavior.
  destruct (models p') as [model_data |].
  - destruct (predict_try _ model_data) as [[q | ex] m'] eqn:Etry.
    + exists q. split; [reflexivity |].
      destruct (predict_try_range _ _ _ _ Etry) as [(n & Hn & Hrange) Hchoice].
      split; [exact Hchoice |]. exists n. split; [now apply in_FINGERS | now left].
    + cbn [player_stats with_models]. rewrite Hsimple.
      eexists. split; [reflexivity |]. exact Hfallback.
  - cbn [fst]. rewrite Hsimple. eexists. split; [reflexivity |]. exact Hfallback.
Qed.

End SessionTallies.

Lemma session_tallies_witness :
  stat "choice_history"
    (snd (play [(noon, round_record 2 4 "evens"); (noon, round_record 2 3 "odds")]
            degraded_predictor))
  = Some (VDict [(KStr "odds", VInt 1); (KStr "evens", VInt 1)]).
Proof.
  destruct (session_tallies degraded_predictor
              [(noon, round_record 2 4 "evens"); (noon, round_record 2 3 "odds")]
              (init_empty false)) as (_ & H & _).
  exact H.
Defined.

Lemma fallback_predicts_most_used_witness :
  exists i,
    In i FINGERS /\
    fst (predict_player_behavior noon (GameState.mk (Some 3) (Some 1) (Some 1))
           (snd (play [(noon, round_record 2 4 "evens"); (noon, round_record 2 3 "odds")]
                   degraded_predictor)))
    = Ok (mkPrediction (VStr (str i)) (VStr "odds") (1 # 10)).
Proof.
  destruct (fallback_predicts_most_used degraded_predictor
              [(noon, round_record 2 4 "evens"); (noon, round_record 2 3 "odds")]
              noon (GameState.mk (Some 3) (Some 1) (Some 1))
              (init_empty false) eq_refl eq_refl) as (i & Hi & _ & H).
  exists i. split; [exact Hi | exact H].
Defined.

Lemma degraded_robot_shows_three_witness :
  Engine.robot_number
    (Engine.start_countdown_sequence 1 2 noon
       (Engine.__init__
          (snd (play [(noon, round_record 2 4 "evens")] degraded_predictor))))
  = 3.
Proof.
  apply (degraded_robot_shows_three degraded_predictor
           [(noon, round_record 2 4 "evens")] 1 2 noon _ (init_empty false));
    reflexivity.
Defined.

Lemma prediction_in_session_witness :
  exists q,
    fst (predict_player_behavior noon (GameState.mk (Some 2) (Some 1) (Some 0))
           (snd (play [(noon, round_record 2 4 "evens")] online_predictor)))
    = Ok q /\
    (choice q = VStr "odds" \/ choice q = VStr "evens").
Proof.
  destruct (prediction_in_session online_predictor [(noon, round_record 2 4 "evens")]
              noon (GameState.mk (Some 2) (Some 1) (Some 0)) (init_empty true))
    as (q & Hq & Hc & _).
  exists q. split; [exact Hq | exact Hc].
Defined.

(** ** The data files: restart, errors, reset *)

Lemma dict_mem_set (k k' : key) (v : value) (d : dict) :
  dict_mem k d = true -> dict_mem k (dict_set k' v d) = true.
Proof.
  unfold dict_mem. intros H.
  destruct (key_eqb k k') eqn:E.
  - apply key_eqb_eq in E. subst k'. now rewrite dict_get_set_same.
  - now rewrite dict_get_set_other.
Qed.

Lemma keeps_bind {A B : Type} (c : stmt dict A) (k : A -> stmt dict B) :
  keeps_keys c -> (forall a, keeps_keys (k a)) -> keeps_keys (bind c k).
Proof.
  intros Hc Hk d key Hd. unfold bind. specialize (Hc d key Hd).
  destruct (c d) as [[a | e] d']; cbn [snd] in *; [now apply Hk | exact Hc].
Qed.

Lemma keeps_lift {A : Type} (r : result A) : keeps_keys (lift r).
Proof. now intros d key Hd. Qed.

Lemma keeps_item (k : string) : keeps_keys (item k).
Proof. now intros d key Hd. Qed.

Lemma keeps_set_item (k : string) (v : value) : keeps_keys (set_item k v).
Proof. intros d key Hd. cbn. now apply dict_mem_set. Qed.

Lemma keeps_when (b : bool) (c : stmt dict unit) :
  keeps_keys c -> keeps_keys (when b c).
Proof. intros Hc. destruct b; [exact Hc | now intros d key Hd]. Qed.

Lemma keeps_for_each {A : Type} (l : list A) (body : A -> stmt dict unit) :
  (forall x, keeps_keys (body x)) -> keeps_keys (for_each l body).
Proof.
  intros Hbody. induction l as [| x l IH]; [now intros d key Hd |].
  cbn [for_each]. apply keeps_bind; [apply Hbody | intros _; exact IH].
Qed.

Ltac keeps_keys_tac :=
  repeat first
    [ apply keeps_lift | apply keeps_item | apply keeps_set_item
    | apply keeps_when | apply keeps_for_each; intros ?
    | apply keeps_bind; [| intros ?] ].

Lemma keeps_backfill : keeps_keys backfill.
Proof.
  unfold backfill, nested_contains, set_nested. keeps_keys_tac.
Qed.

Lemma complete_keeps {A : Type} (c : stmt dict A) (d : dict) :
  keeps_keys c -> complete d = true -> complete (snd (c d)) = true.
Proof.
  intros Hc Hd. unfold complete in *. rewrite forallb_forall in *.
  intros k Hk. apply Hc. now apply Hd.
Qed.

Section Restart.

Context {river : River}.

Lemma keeps_update_statistics (h : list Round.t) (g : Round.t) :
  keeps_keys (_update_statistics h g).
Proof.
  unfold _update_statistics, incr_item, incr_nested, nested_contains, set_nested.
  keeps_keys_tac.
Qed.

Lemma load_data_complete (files : Files) (p : AIPredictor) :
  complete (player_stats p) = true ->
  complete (player_stats (load_data files p)) = true.
Proof.
  intros Hp. rewrite load_data_player_stats.
  destruct (match GAME_HISTORY_FILE files with
            | Some Unreadable => true | _ => false end); [exact Hp |].
  pose proof (proj1 (load_history_frame files p)) as Hh.
  set (p1 := snd (load_history files p)) in *.
  unfold load_statistics.
  destruct (STATISTICS_FILE files) as [[| | document] |];
    cbn [snd]; try (rewrite Hh; exact Hp).
  destruct (Json.load document) as [| | | | | | loaded_stats];
    cbn [snd]; try (rewrite Hh; exact Hp).
  destruct (forallb _ required_keys) eqn:E; cbn [snd]; [| rewrite Hh; exact Hp].
  unfold on_player_stats. cbn [player_stats with_player_stats].
  pose proof (complete_keeps backfill loaded_stats keeps_backfill E) as Hb.
  now destruct (backfill loaded_stats).
Qed.

Lemma reachable_complete (p : AIPredictor) :
  reachable p -> complete (player_stats p) = true.
Proof.
  induction 1 as [avail files | p now gs _ IH | p now g _ IH | p files _ IH | p _ IH].
  - unfold __init__. now apply load_data_complete.
  - now rewrite predict_player_stats.
  - rewrite update_model_player_stats.
    now apply complete_keeps; [apply keeps_update_statistics |].
  - now apply load_data_complete.
  - reflexivity.
Qed.

(** What [load_statistics] makes of the statistics [save_data] wrote, on
    any predictor. *)
Lemma load_statistics_saved (p : AIPredictor) (files : Files) (fc : dict) :
  storable (player_stats p) = true -> complete (player_stats p) = true ->
  stat "finger_counts" p = Some (VDict fc) ->
  exists stats',
    forall s,
      load_statistics (save_data p files) s = (Ok tt, with_player_stats s stats').
Proof.
  intros Hst Hco Hfc.
  unfold storable in Hst. apply andb_true_iff in Hst. destruct Hst as [Hkeys _].
  set (stats := player_stats p) in *.
  set (L := map (fun kv => (fst kv, reloaded (snd kv))) stats).
  assert (Hload : Json.load (Json.dump (VDict stats)) = VDict L)
    by (apply (reloaded_json_keys stats Hkeys)).
  assert (Hall : forallb (fun k => dict_mem (KStr k) L) required_keys = true).
  { unfold complete in Hco. rewrite forallb_forall in *. intros k Hk.
    specialize (Hco k Hk). unfold dict_mem in *. subst L.
    rewrite dict_get_map_values. now destruct (dict_get (KStr k) stats). }
  assert (HL : dict_get (KStr "finger_counts") L = Some (reloaded (VDict fc))).
  { subst L. unfold stat in Hfc. fold stats in Hfc.
    now rewrite dict_get_map_values, Hfc. }
  rewrite reloaded_dict in HL.
  eexists. intros s.
  unfold load_statistics. cbn [save_data STATISTICS_FILE]. fold stats.
  rewrite Hload, Hall.
  unfold on_player_stats. cbn [player_stats with_player_stats].
  rewrite (backfill_dict _ _ HL). reflexivity.
Qed.

(** X15. What is saved is what the next process starts with. For a
    predictor in any state the program can reach whose usage entry is a
    mapping, a new predictor constructed in the same mode on the files that
    [save_data] wrote is the predictor that [load_data] gives back in place,
    but for the last prediction, which is the default again: it has the same
    history and the same models, the same totals, choice counts and win
    rate, and the same recorded uses of each finger count. *)
Theorem restart_restores_saved_state (p : AIPredictor) (files : Files) (fc : dict) :
  reachable p ->
  stat "finger_counts" p = Some (VDict fc) ->
  let q := __init__ (river_available p) (save_data p files) in
  q = with_last_predictions (load_data (save_data p files) p) default_last_predictions /\
  game_history q = game_history p /\
  models q = models p /\
  (forall k, k <> "finger_counts" -> stat k q = stat k p) /\
  exists fc',
    stat "finger_counts" q = Some (VDict fc') /\
    forall i, In i FINGERS -> recorded_uses fc' i = recorded_uses fc i.
Proof.
  intros Hp Hfc q.
  pose proof (reachable_storable p Hp) as Hst.
  pose proof (reachable_complete p Hp) as Hco.
  assert (Hq : q = with_last_predictions (load_data (save_data p files) p)
                     default_last_predictions).
  { subst q. unfold __init__, load_data, load_history.
    cbn [save_data GAME_HISTORY_FILE].
    destruct (load_statistics_saved p files fc Hst Hco Hfc) as (stats' & Hload).
    rewrite !Hload. unfold load_model, river_available.
    cbn [save_data AI_MODEL_FILE models with_player_stats with_game_history].
    destruct (models p) as [model_data |] eqn:Em; cbn;
      unfold with_last_predictions, with_models, with_player_stats,
        with_game_history; cbn; rewrite ?Em; reflexivity. }
  destruct (save_then_load_storable p files Hst) as (Hh & Hm & _ & Hk & Hu).
  split; [exact Hq |]. rewrite Hq. cbn [game_history models with_last_predictions].
  split; [exact Hh |]. split; [exact Hm |]. split; [exact Hk |].
  exact (Hu fc Hfc).
Qed.

(** X16. The history, the statistics and the models are read in a single
    guarded block: a file that cannot be read ends the loading where it is.
    With an unreadable history file the predictor is left exactly as it was;
    with an unreadable statistics file the history has been read, and the
    statistics and the models stay as they were, whatever the model file
    holds. *)
Theorem load_data_stops_at_unreadable (files : Files) (p : AIPredictor) :
  (GAME_HISTORY_FILE files = Some Unreadable -> load_data files p = p) /\
  (STATISTICS_FILE files = Some Unreadable ->
   player_stats (load_data files p) = player_stats p /\
   models (load_data files p) = models p /\
   forall h, GAME_HISTORY_FILE files = Some (Holds (HistoryList h)) ->
             game_history (load_data files p) = h).
Proof.
  split.
  - intros E. unfold load_data, load_history. now rewrite E.
  - intros E. unfold load_data, load_history, load_statistics. rewrite E.
    destruct (GAME_HISTORY_FILE files) as [[| | [l |]] |]; cbn;
      repeat split; try reflexivity; intros h [= <-]; reflexivity.
Qed.

(** X17. [load_data] checks that the entries of a statistics document are
    there, not what they hold. When the number of rounds of the statistics
    is not a number, every [update_model] raises a type error at its first
    statement on the statistics and records nothing: the statistics and the
    history are left as they were. *)
Theorem update_model_mistyped_total (now : Clock.t) (g : Round.t) (p : AIPredictor)
    (v : value) :
  stat "total_rounds" p = Some v -> num_of v = None ->
  fst (update_model now g p) = Raise TypeError /\
  player_stats (snd (update_model now g p)) = player_stats p /\
  game_history (snd (update_model now g p)) = game_history p.
Proof.
  intros Hv Hnum. unfold stat in Hv.
  assert (Hstats : forall h, _update_statistics h g (player_stats p)
                             = (Raise TypeError, player_stats p)).
  { intros h. unfold _update_statistics, incr_item.
    unfold bind at 1. unfold bind at 1. unfold item, dict_item. rewrite Hv.
    unfold bind at 1. unfold lift.
    destruct v; try discriminate; reflexivity. }
  unfold update_model. destruct (models p) as [model_data |].
  - unfold bind, on_player_stats.
    cbn [player_stats with_models]. rewrite Hstats. cbn. now destruct p.
  - unfold on_player_stats. rewrite Hstats. cbn. now destruct p.
Qed.

(** X18. [reset_data] leaves the predictor a new one would be without data
    files, in the same mode, but for the last prediction, which it keeps;
    the files are not part of it, so what was saved is read again by the
    next process. *)
Theorem reset_data_is_a_fresh_start (p : AIPredictor) :
  reset_data p
  = with_last_predictions (__init__ (river_available p) no_files) (last_predictions p).
Proof.
  unfold reset_data, __init__, river_available.
  now destruct (models p).
Qed.

End Restart.

Lemma restart_restores_saved_state_witness :
  let p :=
    snd (play [(noon, round_record 4 2 "evens"); (noon, round_record 2 3 "odds")]
           online_predictor) in
  game_history (__init__ true (save_data p no_files)) = game_history p /\
  stat "win_rate" (__init__ true (save_data p no_files)) = stat "win_rate" p.
Proof.
  intros p.
  assert (Hp : reachable p).
  { apply (reachable_update
             (snd (update_model noon (round_record 4 2 "evens") online_predictor))
             noon (round_record 2 3 "odds")).
    apply (reachable_update online_predictor noon (round_record 4 2 "evens")).
    apply (reachable_init true no_files). }
  destruct (restart_restores_saved_state p no_files
              (default_finger_counts ++ [(KStr "4", VInt 1); (KStr "2", VInt 1)])
              Hp eq_refl) as (_ & Hh & _ & Hk & _).
  split; [exact Hh | apply Hk; discriminate].
Defined.

Lemma load_data_stops_at_unreadable_witness :
  load_data (mkFiles (Some Unreadable) (Some (Holds complete_document)) None)
    degraded_predictor
  = degraded_predictor.
Proof.
  apply (load_data_stops_at_unreadable
           (mkFiles (Some Unreadable) (Some (Holds complete_document)) None)
           degraded_predictor).
  reflexivity.
Defined.

Lemma update_model_mistyped_total_witness :
  let p := __init__ (river := untrained_river) false
             (mkFiles None (Some (Holds mistyped_document)) None) in
  stat "total_games" p = Some (VInt 4) /\
  fst (update_model noon (round_record 2 3 "odds") p) = Raise TypeError.
Proof.
  intros p. split; [reflexivity |].
  apply (update_model_mistyped_total noon (round_record 2 3 "odds") p (VStr "9"));
    reflexivity.
Defined.

(** ** The prediction of the online models *)

Lemma proba_of_odds_bounds (probs : list (bool * Q)) :
  Forall (fun lp => 0 <= snd lp /\ snd lp <= 1)%Q probs ->
  (0 <= proba_of_odds probs)%Q /\ (proba_of_odds probs <= 1)%Q.
Proof.
  induction 1 as [| [label x] probs Hx _ IH]; cbn [proba_of_odds].
  - split; discriminate.
  - destruct label; [exact Hx | exact IH].
Qed.

Lemma confidence_bounds (x : Q) :
  (0 <= x)%Q -> (x <= 1)%Q ->
  (0 <= Qabs (x - (1 # 2)) * inject_Z 2)%Q /\ (Qabs (x - (1 # 2)) * inject_Z 2 <= 1)%Q.
Proof.
  intros H0 H1. split.
  - apply Qmult_le_0_compat; [apply Qabs_nonneg | discriminate].
  - assert (Habs : (Qabs (x - (1 # 2)) <= 1 # 2)%Q).
    { apply Qabs_Qle_condition. destruct x as [a b].
      unfold Qle in *. cbn in *. rewrite ?Pos2Z.inj_mul. split; lia. }
    apply (Qmult_le_r _ _ (inject_Z 2)) in Habs; [| reflexivity].
    apply (Qle_trans _ _ _ Habs). discriminate.
Qed.

Section OnlinePrediction.

Context {river : River}.

Lemma _simple_prediction_confidence (stats : dict) (q : Prediction) :
  _simple_prediction stats = Ok q -> confidence q = 1 # 10.
Proof.
  unfold _simple_prediction.
  destruct (dict_item _ stats) as [fc |]; [| discriminate]. cbn [rbind].
  destruct (most_common fc _) as [fingers |]; [| discriminate]. cbn [rbind].
  destruct (dict_item _ stats) as [ch |]; [| discriminate]. cbn [rbind].
  destruct (most_common ch _) as [c |]; [| discriminate]. cbn [rbind].
  now intros [= <-].
Qed.

(** X21. With the models, a prediction that is returned is the one kept as
    the last prediction, against which the next round is scored; the
    history and the statistics are left as they are. Its confidence is
    between 0 and 1 whenever the probabilities the logistic regression
    answers are: twice the distance of the probability of odds from one
    half, or one tenth when the statistics had to answer in place of the
    estimators. *)
Theorem online_prediction_recorded (p : AIPredictor) (model_data : ModelData)
    (now : Clock.t) (game_state : GameState.t) (q : Prediction) :
  models p = Some model_data ->
  (forall features cm probs cm',
      predict_proba_one features cm = (Ok probs, cm') ->
      Forall (fun lp => 0 <= snd lp /\ snd lp <= 1)%Q probs) ->
  fst (predict_player_behavior now game_state p) = Ok q ->
  let p' := snd (predict_player_behavior now game_state p) in
  last_predictions p' = q /\
  game_history p' = game_history p /\
  player_stats p' = player_stats p /\
  (0 <= confidence q)%Q /\ (confidence q <= 1)%Q.
Proof.
  intros Hm Hprobs. unfold predict_player_behavior. rewrite Hm.
  destruct (predict_try _ model_data) as [[q' | ex] m'] eqn:Etry; cbn [fst snd].
  - intros [= ->]. cbn [last_predictions game_history player_stats
      with_last_predictions with_models].
    split; [reflexivity |]. split; [reflexivity |]. split; [reflexivity |].
    revert Etry. unfold predict_try.
    destruct (predict_one _ _) as [[x | ex] fm]; [| discriminate].
    destruct (round_float x) as [n | ex]; [| discriminate].
    destruct (predict_proba_one _ _) as [[probs | ex] cm] eqn:Eproba;
      [| discriminate].
    destruct probs as [| pr probs]; intros [= <-]; cbn [confidence];
      [split; discriminate |].
    destruct (proba_of_odds_bounds (pr :: probs) (Hprobs _ _ _ _ Eproba))
      as [H0 H1].
    exact (confidence_bounds _ H0 H1).
  - cbn [player_stats with_models].
    destruct (_simple_prediction (player_stats p)) as [q' | ex'] eqn:Esimple;
      cbn [fst snd]; [| discriminate].
    intros [= ->]. cbn [last_predictions game_history player_stats
      with_last_predictions with_models].
    apply _simple_prediction_confidence in Esimple. rewrite Esimple.
    split; [reflexivity |]. split; [reflexivity |]. split; [reflexivity |].
    split; discriminate.
Qed.

End OnlinePrediction.

Lemma online_prediction_recorded_witness :
  let outcome :=
    predict_player_behavior noon (GameState.mk (Some 1) (Some 0) (Some 0))
      online_predictor in
  last_predictions (snd outcome) = mkPrediction (VInt 1) (VStr "evens") (0 # 4).
Proof.
  intros outcome.
  destruct (online_prediction_recorded online_predictor new_models noon
              (GameState.mk (Some 1) (Some 0) (Some 0))
              (mkPrediction (VInt 1) (VStr "evens") (0 # 4)) eq_refl) as (H & _).
  - intros features cm probs cm' [= <- _].
    repeat constructor; cbn; discriminate.
  - reflexivity.
  - exact H.
Defined.

(** ** The predictor in the engine *)

Section EngineLearns.

Context {river : River}.

Lemma predict_game_history now gs (p : AIPredictor) :
  game_history (snd (predict_player_behavior now gs p)) = game_history p.
Proof.
  unfold predict_player_behavior. destruct (models p) as [model_data |];
    [| reflexivity].
  destruct (predict_try _ model_data) as [[q | ex] m']; [reflexivity |].
  cbn. now destruct (_simple_prediction _).
Qed.

Lemma predict_river_available now gs (p : AIPredictor) :
  river_available (snd (predict_player_behavior now gs p)) = river_available p.
Proof.
  unfold predict_player_behavior, river_available.
  destruct (models p) as [model_data |] eqn:Em; [| cbn; now rewrite Em].
  destruct (predict_try _ model_data) as [[q | ex] m']; [reflexivity |].
  cbn. now destruct (_simple_prediction _).
Qed.

(** The predictor the start of a countdown leaves in the engine. *)
Lemma engine_countdown_predictor r1 r2 now (e : Engine.t) :
  Engine.ai_predictor (Engine.start_countdown_sequence r1 r2 now e)
  = snd (predict_player_behavior now
           (Engine.get_game_state (Engine.set_countdown_active true e))
           (Engine.ai_predictor e)).
Proof.
  unfold Engine.start_countdown_sequence, start_countdown_sequence.
  replace (Engine.ai_predictor (Engine.set_countdown_active true e))
    with (Engine.ai_predictor e) by now destruct e.
  now destruct (predict_player_behavior _ _ _) as [[q | ex] p'].
Qed.

Lemma fed_same (p0 : AIPredictor) records (w w' : Engine.World) :
  fed p0 records w ->
  player_stats (Engine.ai_predictor (Engine.engine w'))
    = player_stats (Engine.ai_predictor (Engine.engine w)) ->
  game_history (Engine.ai_predictor (Engine.engine w'))
    = game_history (Engine.ai_predictor (Engine.engine w)) ->
  river_available (Engine.ai_predictor (Engine.engine w'))
    = river_available (Engine.ai_predictor (Engine.engine w)) ->
  Engine.disk w' = Engine.disk w ->
  fed p0 records w'.
Proof.
  unfold fed, tracks. cbv zeta. intros H -> -> -> ->. exact H.
Qed.

Lemma fed_predict (p0 : AIPredictor) records (w w' : Engine.World) now gs :
  fed p0 records w ->
  Engine.ai_predictor (Engine.engine w')
    = snd (predict_player_behavior now gs (Engine.ai_predictor (Engine.engine w))) ->
  Engine.disk w' = Engine.disk w ->
  fed p0 records w'.
Proof.
  intros H Hp Hd. apply (fed_same p0 records w); [exact H | | | | exact Hd];
    rewrite Hp.
  - apply predict_player_stats.
  - apply predict_game_history.
  - apply predict_river_available.
Qed.

Lemma fed_key (p0 : AIPredictor) records (w : Engine.World) r1 r2 now key :
  fed p0 records w ->
  fed p0 records
    (Engine.mkWorld (snd (Engine.handle_keypress r1 r2 now key (Engine.engine w)))
       (Engine.disk w)).
Proof.
  intros H. unfold Engine.handle_keypress.
  assert (Hchoose : fed p0 records
                      (Engine.mkWorld (Engine.choose key (Engine.engine w))
                         (Engine.disk w))).
  { apply (fed_same p0 records w); [exact H | | | | reflexivity];
      cbn [Engine.engine]; rewrite <- choose_frame; reflexivity. }
  destruct (key =? Engine.KEY_Q); cbn [snd];
    [apply (fed_same p0 records w); [exact H | reflexivity ..] |].
  destruct (key =? Engine.KEY_ESC); cbn [snd];
    [apply (fed_same p0 records w); [exact H | reflexivity ..] |].
  destruct (key =? Engine.KEY_SPACE); [| exact Hchoose].
  destruct (Engine.game_over (Engine.engine w)); cbn [snd];
    [apply (fed_same p0 records w); [exact H | reflexivity ..] |].
  destruct (Engine.game_active (Engine.engine w)); cbn [negb snd].
  - destruct (Engine.waiting_for_next_round (Engine.engine w)); cbn [snd];
      [| exact Hchoose].
    eapply (fed_predict p0 records w); [exact H | | reflexivity].
    cbn [Engine.engine]. rewrite engine_countdown_predictor. reflexivity.
  - eapply (fed_predict p0 records w); [exact H | | reflexivity].
    cbn [Engine.engine]. rewrite engine_countdown_predictor. reflexivity.
Qed.

(** A round that has been processed: its record, the predictor that took
    it and the files written from it. *)
Lemma process_round_result_ok timestamp now (w w' : Engine.World) :
  Engine._process_round_result timestamp now w = (Ok tt, w') ->
  exists round_data,
    Engine.last_round_data (Engine.engine w') = Some round_data /\
    update_model now round_data (Engine.ai_predictor (Engine.engine w))
      = (Ok tt, Engine.ai_predictor (Engine.engine w')) /\
    Engine.disk w' = save_data (Engine.ai_predictor (Engine.engine w')) (Engine.disk w).
Proof.
  destruct w as [e d]. unfold Engine._process_round_result.
  cbn [Engine.engine Engine.disk].
  destruct e. cbn.
  destruct (Engine.player_wins_round_of _ _); cbn;
    match goal with
    | |- context [if ?b then _ else _] => destruct b
    end; cbn;
    match goal with
    | |- context [update_model ?n ?g ?p] =>
        destruct (update_model n g p) as [[[] | ex] p'] eqn:Eupdate
    end; try discriminate; intros [= <-]; cbn;
    eexists; (split; [reflexivity |]); (split; [exact Eupdate | reflexivity]).
Qed.

Lemma fed_frame (p0 : AIPredictor) records (w w' : Engine.World) timestamp now hands :
  fed p0 records w ->
  Engine.process_frame timestamp now hands w = Some w' ->
  fed p0
    (if Engine.round_ended (Engine.engine w)
     then records ++ match Engine.last_round_data (Engine.engine w') with
                     | Some round_data => [(now, round_data)]
                     | None => []
                     end
     else records) w'.
Proof.
  intros H. unfold Engine.process_frame, Engine.update.
  destruct (Engine.round_ended (Engine.engine w)).
  - destruct (Engine._process_round_result _ _ _) as [[[] | ex] w1] eqn:Eround;
      [| discriminate].
    destruct (Engine.count_hands hands (Engine.engine w1)) as [e' |] eqn:Ehands;
      [| discriminate].
    intros [= <-]. cbn [Engine.engine].
    apply count_hands_frame in Ehands. rewrite <- Ehands.
    destruct (process_round_result_ok _ _ _ _ Eround) as (g & Hlast & Hupdate & Hdisk).
    cbn [Engine.engine Engine.disk] in Hupdate, Hdisk.
    replace (Engine.last_round_data
               (Engine.set_finger_count (Engine.finger_count e') (Engine.engine w1)))
      with (Some g) by (rewrite <- Hlast; now destruct (Engine.engine w1)).
    replace (Engine.ai_predictor (Engine.set_round_ended false (Engine.engine w)))
      with (Engine.ai_predictor (Engine.engine w)) in Hupdate
      by now destruct (Engine.engine w).
    destruct H as (Ht & Hav & _).
    destruct (tracks_step records _ now g Ht) as (p' & Hstep & Ht').
    rewrite Hupdate in Hstep. injection Hstep as <-.
    unfold fed. cbn [Engine.engine Engine.disk].
    replace (Engine.ai_predictor
               (Engine.set_finger_count (Engine.finger_count e') (Engine.engine w1)))
      with (Engine.ai_predictor (Engine.engine w1))
      by now destruct (Engine.engine w1).
    split; [exact Ht' |]. split.
    + rewrite <- Hav.
      pose proof (update_model_river_available now g
                    (Engine.ai_predictor (Engine.engine w))) as Hr.
      now rewrite Hupdate in Hr.
    + intros _. rewrite Hdisk. now split.
  - destruct (Engine.count_hands hands (Engine.engine w)) as [e' |] eqn:Ehands;
      [| discriminate].
    intros [= <-]. apply count_hands_frame in Ehands.
    apply (fed_same p0 records w); [exact H | | | | reflexivity];
      cbn [Engine.engine]; rewrite <- Ehands; now destruct (Engine.engine w).
Qed.

Lemma fed_run (p0 : AIPredictor) (records : list (Clock.t * Round.t)) (n : nat)
    (w : Engine.World) :
  empty_predictor p0 ->
  Engine.run p0 records n w ->
  fed p0 records w /\ (n <= List.length records)%nat.
Proof.
  intros Hp0.
  induction 1 as [files | records n w r1 r2 now key _ [IH Hn]
                  | records n w w' timestamp now hands _ [IH Hn] Hframe
                  | records n w self _ [IH Hn] Hwrite].
  - split; [| cbn; lia]. unfold fed. cbn.
    split; [now apply tracks_empty |]. split; [reflexivity | congruence].
  - split; [now apply fed_key |].
    destruct (Engine.resets key (Engine.engine w)); lia.
  - split; [now apply (fed_frame p0 records w w' timestamp now hands) |].
    destruct (Engine.round_ended (Engine.engine w)) eqn:Eended; [| exact Hn].
    pose proof (fed_frame p0 records w w' timestamp now hands IH Hframe) as Hfed.
    rewrite Eended in Hfed.
    revert Hframe. unfold Engine.process_frame, Engine.update. rewrite Eended.
    destruct (Engine._process_round_result _ _ _) as [[[] | ex] w1] eqn:Eround;
      [| discriminate].
    destruct (Engine.count_hands hands (Engine.engine w1)) as [e' |] eqn:Ehands;
      [| discriminate].
    intros [= <-]. cbn [Engine.engine].
    apply count_hands_frame in Ehands. rewrite <- Ehands.
    destruct (process_round_result_ok _ _ _ _ Eround) as (g & Hlast & _).
    replace (Engine.last_round_data
               (Engine.set_finger_count (Engine.finger_count e') (Engine.engine w1)))
      with (Some g) by (rewrite <- Hlast; now destruct (Engine.engine w1)).
    rewrite length_app. cbn. lia.
  - split; [| exact Hn].
    apply (fed_same p0 records w); [exact IH | | | | reflexivity];
      cbn [Engine.engine]; destruct Hwrite; now destruct self.
Qed.

(** X22. The engine feeds every round it processes to the predictor, once,
    and what the predictor has learned outlives the games. From an engine
    created around an empty predictor, however the keys, the frames and the
    threads follow one another: [total_rounds] is the number of rounds
    processed since the creation of the engine (resetting the game does not
    reset it), with the models the history is the list of their records in
    order and without them it stays empty, and as soon as a round has been
    processed the history and statistics files hold the history and the
    statistics of the predictor. *)
Theorem engine_feeds_predictor (p0 : AIPredictor)
    (records : list (Clock.t * Round.t)) (n : nat) (w : Engine.World) :
  empty_predictor p0 ->
  Engine.run p0 records n w ->
  let p := Engine.ai_predictor (Engine.engine w) in
  (n <= List.length records)%nat /\
  stat "total_rounds" p = Some (VInt (Z.of_nat (List.length records))) /\
  game_history p = (if river_available p0 then map snd records else []) /\
  (records <> [] ->
   GAME_HISTORY_FILE (Engine.disk w) = Some (Holds (HistoryList (game_history p))) /\
   STATISTICS_FILE (Engine.disk w)
     = Some (Holds (Json.dump (VDict (player_stats p))))).
Proof.
  intros Hp0 Hrun p.
  destruct (fed_run p0 records n w Hp0 Hrun) as [(Ht & Hav & Hdisk) Hn].
  fold p in Ht, Hav, Hdisk.
  split; [exact Hn |].
  destruct Ht as (tg & fc & co & ce & wr & Hs & _ & _ & _ & _ & _ & _ & _ & Hh & _).
  split; [unfold stat; now rewrite Hs |].
  split; [now rewrite Hh, Hav | exact Hdisk].
Qed.

End EngineLearns.

Lemma engine_feeds_predictor_witness :
  let p := Engine.ai_predictor (Engine.engine first_round_played) in
  stat "total_rounds" p = Some (VInt 1) /\
  GAME_HISTORY_FILE (Engine.disk first_round_played)
  = Some (Holds (HistoryList (game_history p))).
Proof.
  intros p.
  destruct (engine_feeds_predictor online_predictor _ 1 first_round_played
              (init_empty true) first_round_run) as (_ & Ht & _ & Hdisk).
  split; [exact Ht |]. apply Hdisk. discriminate.
Defined.
